(** * damo: scheme text input ([_damo_schemes_input.py]) and its value
      parser ([_damo_fmt_str])

    A shallow embedding of the scheme decoders of [_damo_schemes_input.py]
    and of the value parser and formatter they call, with the properties
    the specification states about them.

    Python values are modelled as follows.
    - A [str] is a [string]; a character stands for the code point of the
      same number, so the model covers the strings whose code points are
      below 256.
    - An exception is [None] in an [option]; the bare [except:] clauses of
      the source catch every exception, so one value is enough.
    - Python's [None] in a returned pair is [None] of an [option].
    - Unbounded integers are [N] or [Z]. *)

From Stdlib Require Import String Ascii List Bool Arith NArith ZArith Lia.
From Stdlib Require Import DecimalString DecimalPos DecimalN.
Import ListNotations.

Set Warnings "-register-all".

Local Open Scope list_scope.
Local Open Scope string_scope.

(** ** Python string operations *)

Module PyStr.

(** [str.isspace] on one character: the white space of [str.strip] and of
    [str.split] without a separator.  Below 256 these are TAB..CR, FS..US,
    SPACE, NEL (U+0085) and NBSP (U+00A0). *)
Definition isspace (c : ascii) : bool :=
  let n := N_of_ascii c in
  ((9 <=? n) && (n <=? 13) || (28 <=? n) && (n <=? 32)
   || (n =? 133) || (n =? 160))%N.

Definition isdigit (c : ascii) : bool :=
  let n := N_of_ascii c in ((48 <=? n) && (n <=? 57))%N.

(** [str.lower] on one character: A..Z, and the capital letters of the
    Latin-1 block (U+00C0..U+00DE without the multiplication sign). *)
Definition lower_char (c : ascii) : ascii :=
  let n := N_of_ascii c in
  if ((65 <=? n) && (n <=? 90)
      || (192 <=? n) && (n <=? 222) && negb (n =? 215))%N
  then ascii_of_N (n + 32) else c.

Fixpoint lower (s : string) : string :=
  match s with
  | EmptyString => EmptyString
  | String c s' => String (lower_char c) (lower s')
  end.

Fixpoint lstrip (s : string) : string :=
  match s with
  | EmptyString => EmptyString
  | String c s' => if isspace c then lstrip s' else s
  end.

Fixpoint rstrip (s : string) : string :=
  match s with
  | EmptyString => EmptyString
  | String c s' =>
      match rstrip s' with
      | EmptyString => if isspace c then EmptyString else String c EmptyString
      | r => String c r
      end
  end.

Definition strip (s : string) : string := rstrip (lstrip s).

Definition startswith (s p : string) : bool := String.prefix p s.

(** The word that is being read is [word]; a white-space character closes
    it.  Empty words are never produced. *)
Fixpoint split_from (word : string) (s : string) : list string :=
  match s with
  | EmptyString => if (word =? "")%string then [] else [word]
  | String c s' =>
      if isspace c
      then (if (word =? "")%string then split_from "" s'
            else word :: split_from "" s')
      else split_from (word ++ String c "") s'
  end.

(** [s.split()]: the maximal runs of characters that are not white space. *)
Definition split (s : string) : list string := split_from "" s.

Fixpoint split_on_from (sep : ascii) (piece : string) (s : string)
  : list string :=
  match s with
  | EmptyString => [piece]
  | String c s' =>
      if Ascii.eqb c sep then piece :: split_on_from sep "" s'
      else split_on_from sep (piece ++ String c "") s'
  end.

(** [s.split(sep)] for a separator of one character: the result always has
    one more element than [s] has separators. *)
Definition split_on (sep : ascii) (s : string) : list string :=
  split_on_from sep "" s.

(** [sep.join(l)] *)
Fixpoint join (sep : string) (l : list string) : string :=
  match l with
  | [] => ""
  | [x] => x
  | x :: rest => x ++ sep ++ join sep rest
  end.

Definition newline : ascii := ascii_of_N 10.

(** ['%d' % n] for a non-negative [n]. *)
Definition str_of_N (n : N) : string :=
  NilEmpty.string_of_uint (N.to_uint n).

Definition str_of_nat (n : nat) : string := str_of_N (N.of_nat n).

(** ['%s' % l] for a list of non-negative integers: ["[7, 9, 12]"]. *)
Definition repr_nat_list (l : list nat) : string :=
  "[" ++ join ", " (map str_of_nat l) ++ "]".

(** [s.replace(c, '')] for one character [c]. *)
Fixpoint remove_char (c : ascii) (s : string) : string :=
  match s with
  | EmptyString => EmptyString
  | String a s' =>
      if Ascii.eqb a c then remove_char c s' else String a (remove_char c s')
  end.

Fixpoint all_chars (p : ascii -> bool) (s : string) : bool :=
  match s with
  | EmptyString => true
  | String c s' => p c && all_chars p s'
  end.

Fixpoint occurs (c : ascii) (s : string) : bool :=
  match s with
  | EmptyString => false
  | String a s' => Ascii.eqb a c || occurs c s'
  end.

(** The value of a string of decimal digits; [None] for the empty string
    and for a string with another character. *)
Definition digits_to_N (s : string) : option N :=
  match s with
  | EmptyString => None
  | _ => option_map N.of_uint (NilEmpty.uint_of_string s)
  end.

(** [int(s)] on the strings this model covers: optional white space around
    an optional sign and decimal digits.  (Python also accepts single
    underscores between digits; they are accepted here too.) *)
Fixpoint underscores_ok (prev_digit : bool) (s : string) : bool :=
  match s with
  | EmptyString => prev_digit
  | String c s' =>
      if Ascii.eqb c "_"%char then prev_digit && underscores_ok false s'
      else underscores_ok true s'
  end.

Definition int (s : string) : option Z :=
  let body (t : string) : option N :=
    if underscores_ok false t then digits_to_N (remove_char "_"%char t)
    else None in
  match strip s with
  | String "-"%char t => option_map (fun n => Z.opp (Z.of_N n)) (body t)
  | String "+"%char t => option_map Z.of_N (body t)
  | t => option_map Z.of_N (body t)
  end.

Definition not_space (c : ascii) : bool := negb (isspace c).

(** A word: not empty, and without white space. *)
Definition is_word (w : string) : Prop :=
  w <> "" /\ all_chars not_space w = true.

(** Is [w] one of the words of [s]? *)
Definition has_word (w s : string) : bool :=
  existsb (String.eqb w) (split s).

End PyStr.

(** ** Exceptions

    A computation that may raise is an [option]; [x <- e ;; k] runs [k] when
    [e] did not raise. *)

Definition bind {A B : Type} (e : option A) (k : A -> option B) : option B :=
  match e with
  | Some x => k x
  | None => None
  end.

Notation "x <- e ;; k" := (bind e (fun x => k))
  (at level 61, e at next level, right associativity).

(** [fields[i]] for a constant [i >= 0]: an [IndexError] out of range. *)
Definition item (fields : list string) (i : nat) : option string :=
  nth_error fields i.

(** [[f(x) for x in l]], where [f] may raise. *)
Fixpoint try_map {A B : Type} (f : A -> option B) (l : list A)
  : option (list B) :=
  match l with
  | [] => Some []
  | x :: rest => y <- f x ;; ys <- try_map f rest ;; Some (y :: ys)
  end.

(** How a call of the document decoder ends: it returns, or it prints one
    line and leaves the process through [exit]. *)
Inductive outcome (A : Type) : Type :=
| Returned (value : A)
| Exited (printed : string) (status : Z).

Arguments Returned {A} value.
Arguments Exited {A} printed status.

(** ** The records of [_damon]

    [_damon] is not among the sources.  Two types of its values stay
    abstract: Python floats, and the filters of a scheme. *)

Class ValueTypes : Type := {
  pyfloat : Type;
  damos_filter : Type
}.

Section DataModel.
Context {VT : ValueTypes}.

(** Modelled from the spec: the record [_damon.DamosAccessPattern], whose
    class is not among the sources, with the attributes the decoders pass
    to its constructor. *)
Record DamosAccessPattern : Type := {
  min_sz_bytes : Z;
  max_sz_bytes : Z;
  min_nr_accesses : pyfloat;
  max_nr_accesses : pyfloat;
  nr_accesses_unit : string;
  min_age : Z;
  max_age : Z;
  age_unit : string
}.

(** Modelled from the spec: the record of the quotas of a scheme, whose
    class is not among the sources, with the attributes the decoders
    assign. *)
Record DamosQuotas : Type := {
  time_ms : Z;
  sz_bytes : Z;
  reset_interval_ms : Z;
  weight_sz_permil : Z;
  weight_nr_accesses_permil : Z;
  weight_age_permil : Z
}.

(** Modelled from the spec: the record of the watermarks of a scheme,
    whose class is not among the sources. *)
Record DamosWatermarks : Type := {
  metric : string;
  interval_us : Z;
  high_permil : Z;
  mid_permil : Z;
  low_permil : Z
}.

(** Modelled from the spec: the record [_damon.Damos], whose class is not
    among the sources. *)
Record Damos : Type := {
  name : string;
  access_pattern : DamosAccessPattern;
  action : string;
  quotas : DamosQuotas;
  watermarks : DamosWatermarks;
  filters : list damos_filter
}.

(** Attribute assignments, [scheme.action = v] and the like.  A scheme is
    a value here: every call of [default_damos_scheme] is taken to build a
    scheme of its own, with quotas and watermarks of its own. *)
Definition set_access_pattern (v : DamosAccessPattern) (s : Damos) : Damos :=
  {| name := name s; access_pattern := v; action := action s;
     quotas := quotas s; watermarks := watermarks s; filters := filters s |}.

Definition set_action (v : string) (s : Damos) : Damos :=
  {| name := name s; access_pattern := access_pattern s; action := v;
     quotas := quotas s; watermarks := watermarks s; filters := filters s |}.

Definition set_quotas (v : DamosQuotas) (s : Damos) : Damos :=
  {| name := name s; access_pattern := access_pattern s; action := action s;
     quotas := v; watermarks := watermarks s; filters := filters s |}.

Definition set_watermarks (v : DamosWatermarks) (s : Damos) : Damos :=
  {| name := name s; access_pattern := access_pattern s; action := action s;
     quotas := quotas s; watermarks := v; filters := filters s |}.

Definition set_time_ms (v : Z) (s : Damos) : Damos :=
  let q := quotas s in
  set_quotas {| time_ms := v; sz_bytes := sz_bytes q;
                reset_interval_ms := reset_interval_ms q;
                weight_sz_permil := weight_sz_permil q;
                weight_nr_accesses_permil := weight_nr_accesses_permil q;
                weight_age_permil := weight_age_permil q |} s.

Definition set_sz_bytes (v : Z) (s : Damos) : Damos :=
  let q := quotas s in
  set_quotas {| time_ms := time_ms q; sz_bytes := v;
                reset_interval_ms := reset_interval_ms q;
                weight_sz_permil := weight_sz_permil q;
                weight_nr_accesses_permil := weight_nr_accesses_permil q;
                weight_age_permil := weight_age_permil q |} s.

Definition set_reset_interval_ms (v : Z) (s : Damos) : Damos :=
  let q := quotas s in
  set_quotas {| time_ms := time_ms q; sz_bytes := sz_bytes q;
                reset_interval_ms := v;
                weight_sz_permil := weight_sz_permil q;
                weight_nr_accesses_permil := weight_nr_accesses_permil q;
                weight_age_permil := weight_age_permil q |} s.

Definition set_weight_sz_permil (v : Z) (s : Damos) : Damos :=
  let q := quotas s in
  set_quotas {| time_ms := time_ms q; sz_bytes := sz_bytes q;
                reset_interval_ms := reset_interval_ms q;
                weight_sz_permil := v;
                weight_nr_accesses_permil := weight_nr_accesses_permil q;
                weight_age_permil := weight_age_permil q |} s.

Definition set_weight_nr_accesses_permil (v : Z) (s : Damos) : Damos :=
  let q := quotas s in
  set_quotas {| time_ms := time_ms q; sz_bytes := sz_bytes q;
                reset_interval_ms := reset_interval_ms q;
                weight_sz_permil := weight_sz_permil q;
                weight_nr_accesses_permil := v;
                weight_age_permil := weight_age_permil q |} s.

Definition set_weight_age_permil (v : Z) (s : Damos) : Damos :=
  let q := quotas s in
  set_quotas {| time_ms := time_ms q; sz_bytes := sz_bytes q;
                reset_interval_ms := reset_interval_ms q;
                weight_sz_permil := weight_sz_permil q;
                weight_nr_accesses_permil := weight_nr_accesses_permil q;
                weight_age_permil := v |} s.

Definition set_metric (v : string) (s : Damos) : Damos :=
  let w := watermarks s in
  set_watermarks {| metric := v; interval_us := interval_us w;
                    high_permil := high_permil w; mid_permil := mid_permil w;
                    low_permil := low_permil w |} s.

Definition set_interval_us (v : Z) (s : Damos) : Damos :=
  let w := watermarks s in
  set_watermarks {| metric := metric w; interval_us := v;
                    high_permil := high_permil w; mid_permil := mid_permil w;
                    low_permil := low_permil w |} s.

Definition set_high_permil (v : Z) (s : Damos) : Damos :=
  let w := watermarks s in
  set_watermarks {| metric := metric w; interval_us := interval_us w;
                    high_permil := v; mid_permil := mid_permil w;
                    low_permil := low_permil w |} s.

Definition set_mid_permil (v : Z) (s : Damos) : Damos :=
  let w := watermarks s in
  set_watermarks {| metric := metric w; interval_us := interval_us w;
                    high_permil := high_permil w; mid_permil := v;
                    low_permil := low_permil w |} s.

Definition set_low_permil (v : Z) (s : Damos) : Damos :=
  let w := watermarks s in
  set_watermarks {| metric := metric w; interval_us := interval_us w;
                    high_permil := high_permil w; mid_permil := mid_permil w;
                    low_permil := v |} s.

(** What [json.loads] returns. *)
Inductive pyobj : Type :=
| PyNone
| PyBool (b : bool)
| PyInt (z : Z)
| PyFloat (f : pyfloat)
| PyStr (s : string)
| PyList (l : list pyobj)
| PyDict (items : list (string * pyobj)).

(** [for kv in o]: a list gives its elements, a dict its keys, a string
    its characters; the other values are not iterable ([TypeError]). *)
Definition py_iter (o : pyobj) : option (list pyobj) :=
  match o with
  | PyList l => Some l
  | PyDict items => Some (map (fun kv => PyStr (fst kv)) items)
  | PyStr s => Some (map (fun c => PyStr (String c "")) (list_ascii_of_string s))
  | PyNone | PyBool _ | PyInt _ | PyFloat _ => None
  end.

End DataModel.

(** ** What the decoders call

    [_damo_fmt_str] and [_damon] are not among the sources, and [json],
    [int] and the file system are Python's.  The decoders are written over
    this interface; a [None] is an exception. *)

Class Collaborators {VT : ValueTypes} : Type := {
  text_to_bytes : string -> option Z;
  text_to_percent : string -> option pyfloat;
  text_to_us : string -> option Z;
  text_to_ms : string -> option Z;
  int : string -> option Z;
  unit_percent : string;
  unit_usec : string;
  default_damos_scheme : Damos;
  kvpairs_to_Damos : pyobj -> option Damos;
  json_loads : string -> option pyobj;
  (** the content of the regular file at a path, for the paths
      [os.path.isfile] accepts *)
  read_file : string -> option string
}.

(** ** The decoders of [_damo_schemes_input.py] *)

Section Decoders.
Context {VT : ValueTypes} {C : Collaborators}.

(** The call [_damon.DamosAccessPattern(...)] on fields 0 to 5, shared by
    [fields_to_v0_scheme] and [damo_single_line_scheme_to_damos]. *)
Definition access_pattern_of_fields (fields : list string)
  : option DamosAccessPattern :=
  f0 <- item fields 0 ;; v0 <- text_to_bytes f0 ;;
  f1 <- item fields 1 ;; v1 <- text_to_bytes f1 ;;
  f2 <- item fields 2 ;; v2 <- text_to_percent f2 ;;
  f3 <- item fields 3 ;; v3 <- text_to_percent f3 ;;
  f4 <- item fields 4 ;; v4 <- text_to_us f4 ;;
  f5 <- item fields 5 ;; v5 <- text_to_us f5 ;;
  Some {| min_sz_bytes := v0; max_sz_bytes := v1;
          min_nr_accesses := v2; max_nr_accesses := v3;
          nr_accesses_unit := unit_percent;
          min_age := v4; max_age := v5;
          age_unit := unit_usec |}.

Definition fields_to_v0_scheme (fields : list string) : option Damos :=
  let scheme := default_damos_scheme in
  ap <- access_pattern_of_fields fields ;;
  let scheme := set_access_pattern ap scheme in
  f6 <- item fields 6 ;;
  let scheme := set_action (PyStr.lower f6) scheme in
  Some scheme.

Definition fields_to_v1_scheme (fields : list string) : option Damos :=
  scheme <- fields_to_v0_scheme fields ;;
  f7 <- item fields 7 ;; v7 <- text_to_bytes f7 ;;
  let scheme := set_sz_bytes v7 scheme in
  f8 <- item fields 8 ;; v8 <- text_to_ms f8 ;;
  let scheme := set_reset_interval_ms v8 scheme in
  Some scheme.

Definition fields_to_v2_scheme (fields : list string) : option Damos :=
  scheme <- fields_to_v1_scheme fields ;;
  f9 <- item fields 9 ;; v9 <- int f9 ;;
  let scheme := set_weight_sz_permil v9 scheme in
  f10 <- item fields 10 ;; v10 <- int f10 ;;
  let scheme := set_weight_nr_accesses_permil v10 scheme in
  f11 <- item fields 11 ;; v11 <- int f11 ;;
  let scheme := set_weight_age_permil v11 scheme in
  Some scheme.

Definition fields_to_v3_scheme (fields : list string) : option Damos :=
  scheme <- fields_to_v2_scheme fields ;;
  f12 <- item fields 12 ;;
  let scheme := set_metric (PyStr.lower f12) scheme in
  f13 <- item fields 13 ;; v13 <- text_to_us f13 ;;
  let scheme := set_interval_us v13 scheme in
  f14 <- item fields 14 ;; v14 <- int f14 ;;
  let scheme := set_high_permil v14 scheme in
  f15 <- item fields 15 ;; v15 <- int f15 ;;
  let scheme := set_mid_permil v15 scheme in
  f16 <- item fields 16 ;; v16 <- int f16 ;;
  let scheme := set_low_permil v16 scheme in
  Some scheme.

Definition fields_to_v4_scheme (fields : list string) : option Damos :=
  scheme <- fields_to_v0_scheme fields ;;
  f7 <- item fields 7 ;; v7 <- text_to_ms f7 ;;
  let scheme := set_time_ms v7 scheme in
  f8 <- item fields 8 ;; v8 <- text_to_bytes f8 ;;
  let scheme := set_sz_bytes v8 scheme in
  f9 <- item fields 9 ;; v9 <- text_to_ms f9 ;;
  let scheme := set_reset_interval_ms v9 scheme in
  f10 <- item fields 10 ;; v10 <- int f10 ;;
  let scheme := set_weight_sz_permil v10 scheme in
  f11 <- item fields 11 ;; v11 <- int f11 ;;
  let scheme := set_weight_nr_accesses_permil v11 scheme in
  f12 <- item fields 12 ;; v12 <- int f12 ;;
  let scheme := set_weight_age_permil v12 scheme in
  f13 <- item fields 13 ;;
  let scheme := set_metric (PyStr.lower f13) scheme in
  f14 <- item fields 14 ;; v14 <- text_to_us f14 ;;
  let scheme := set_interval_us v14 scheme in
  f15 <- item fields 15 ;; v15 <- int f15 ;;
  let scheme := set_high_permil v15 scheme in
  f16 <- item fields 16 ;; v16 <- int f16 ;;
  let scheme := set_mid_permil v16 scheme in
  f17 <- item fields 17 ;; v17 <- int f17 ;;
  let scheme := set_low_permil v17 scheme in
  Some scheme.

(** The three layers of the [len(fields) <= 17] branch of
    [damo_single_line_scheme_to_damos]; each runs under its own [if]. *)
Definition layer_v1 (fields : list string) (scheme : Damos) : option Damos :=
  f7 <- item fields 7 ;; v7 <- text_to_bytes f7 ;;
  let scheme := set_sz_bytes v7 scheme in
  f8 <- item fields 8 ;; v8 <- text_to_ms f8 ;;
  let scheme := set_reset_interval_ms v8 scheme in
  Some scheme.

Definition layer_v2 (fields : list string) (scheme : Damos) : option Damos :=
  f9 <- item fields 9 ;; v9 <- int f9 ;;
  let scheme := set_weight_sz_permil v9 scheme in
  f10 <- item fields 10 ;; v10 <- int f10 ;;
  let scheme := set_weight_nr_accesses_permil v10 scheme in
  f11 <- item fields 11 ;; v11 <- int f11 ;;
  let scheme := set_weight_age_permil v11 scheme in
  Some scheme.

Definition layer_v3 (fields : list string) (scheme : Damos) : option Damos :=
  f12 <- item fields 12 ;;
  let scheme := set_metric (PyStr.lower f12) scheme in
  f13 <- item fields 13 ;; v13 <- text_to_us f13 ;;
  let scheme := set_interval_us v13 scheme in
  f14 <- item fields 14 ;; v14 <- int f14 ;;
  let scheme := set_high_permil v14 scheme in
  f15 <- item fields 15 ;; v15 <- int f15 ;;
  let scheme := set_mid_permil v15 scheme in
  f16 <- item fields 16 ;; v16 <- int f16 ;;
  let scheme := set_low_permil v16 scheme in
  Some scheme.

(** The [len(fields) == 18] branch. *)
Definition layer_v4 (fields : list string) (scheme : Damos) : option Damos :=
  f7 <- item fields 7 ;; v7 <- text_to_ms f7 ;;
  let scheme := set_time_ms v7 scheme in
  f8 <- item fields 8 ;; v8 <- text_to_bytes f8 ;;
  let scheme := set_sz_bytes v8 scheme in
  f9 <- item fields 9 ;; v9 <- text_to_ms f9 ;;
  let scheme := set_reset_interval_ms v9 scheme in
  f10 <- item fields 10 ;; v10 <- int f10 ;;
  let scheme := set_weight_sz_permil v10 scheme in
  f11 <- item fields 11 ;; v11 <- int f11 ;;
  let scheme := set_weight_nr_accesses_permil v11 scheme in
  f12 <- item fields 12 ;; v12 <- int f12 ;;
  let scheme := set_weight_age_permil v12 scheme in
  f13 <- item fields 13 ;;
  let scheme := set_metric (PyStr.lower f13) scheme in
  f14 <- item fields 14 ;; v14 <- text_to_us f14 ;;
  let scheme := set_interval_us v14 scheme in
  f15 <- item fields 15 ;; v15 <- int f15 ;;
  let scheme := set_high_permil v15 scheme in
  f16 <- item fields 16 ;; v16 <- int f16 ;;
  let scheme := set_mid_permil v16 scheme in
  f17 <- item fields 17 ;; v17 <- int f17 ;;
  let scheme := set_low_permil v17 scheme in
  Some scheme.

(** The [try] block of [damo_single_line_scheme_to_damos].  The outer
    [option] is [None] when the block raises; the inner one is [None] when
    the block ends without a [return]. *)
Definition single_line_try (fields : list string)
  : option (option Damos) :=
  let scheme := default_damos_scheme in
  ap <- access_pattern_of_fields fields ;;
  let scheme := set_access_pattern ap scheme in
  f6 <- item fields 6 ;;
  let scheme := set_action (PyStr.lower f6) scheme in
  if (length fields =? 7)%nat then Some (Some scheme)
  else if (length fields <=? 17)%nat then
    scheme <- (if (9 <=? length fields)%nat then layer_v1 fields scheme
               else Some scheme) ;;
    scheme <- (if (12 <=? length fields)%nat then layer_v2 fields scheme
               else Some scheme) ;;
    scheme <- (if (length fields =? 17)%nat then layer_v3 fields scheme
               else Some scheme) ;;
    Some (Some scheme)
  else if (length fields =? 18)%nat then
    scheme <- layer_v4 fields scheme ;;
    Some (Some scheme)
  else Some None.

Definition expected_lengths : list nat := [7; 9; 12; 17; 18].

(** Returns the pair [(Damos object, err)] of the source.  The argument
    [name] is not used by the body. *)
Definition damo_single_line_scheme_to_damos (line name : string)
  : option Damos * option string :=
  let fields := PyStr.split line in
  if negb (existsb (Nat.eqb (length fields)) expected_lengths) then
    (None, Some ("expected " ++ PyStr.repr_nat_list expected_lengths
                 ++ " fields, but '" ++ line ++ "'"))
  else
    match single_line_try fields with
    | None => (None, Some "wrong input field")
    | Some (Some scheme) => (Some scheme, None)
    | Some None => (None, Some "unsupported version of single line scheme")
    end.

Definition damo_schemes_lines_except_comments (txt : string) : list string :=
  filter (fun l => negb (PyStr.startswith (PyStr.strip l) "#"))
         (PyStr.split_on PyStr.newline (PyStr.strip txt)).

(** The [try] block of [damo_schemes_to_damos]: [json.loads], the
    iteration over its result and the calls of the converter are all under
    the one [except:]. *)
Definition json_attempt (damo_schemes_lines : list string)
  : option (list Damos) :=
  kvpairs <- json_loads (PyStr.join (String PyStr.newline "") damo_schemes_lines) ;;
  kvs <- py_iter kvpairs ;;
  try_map kvpairs_to_Damos kvs.

(** The [for] loop of [damo_schemes_to_damos] from index [idx] on, with
    the list built so far.  An entry of the list is what the line decoder
    returned as its first component. *)
Fixpoint decode_lines (idx : nat) (lines : list string)
  (damos_list : list (option Damos)) : outcome (list (option Damos)) :=
  match lines with
  | [] => Returned damos_list
  | line :: rest =>
      let line := PyStr.strip line in
      if (line =? "")%string then decode_lines (S idx) rest damos_list
      else
        let '(damos, err) :=
          damo_single_line_scheme_to_damos line (PyStr.str_of_nat idx) in
        match err with
        | Some e =>
            Exited ("given scheme is neither file nor proper scheme string ("
                    ++ e ++ ")") 1
        | None => decode_lines (S idx) rest (damos_list ++ [damos])%list
        end
  end.

Definition damo_schemes_to_damos (damo_schemes : string)
  : outcome (list (option Damos)) :=
  let damo_schemes :=
    match read_file damo_schemes with
    | Some content => content
    | None => damo_schemes
    end in
  let damo_schemes_lines := damo_schemes_lines_except_comments damo_schemes in
  match json_attempt damo_schemes_lines with
  | Some l => Returned (map Some l)
  | None => decode_lines 0 damo_schemes_lines []
  end.

End Decoders.

(** ** The value parser and formatter ([_damo_fmt_str])

    [_damo_fmt_str] is not among the sources: its functions are modelled
    from the specification (section 4.1 and 4.2), under the names the unit
    tests of [tests/unittest/test_fmt_str.py] call them by.  The quantities
    are unsigned, as the specification has them. *)

Module DamoFmtStr.

Definition ulong_max : N := 2 ^ 64 - 1.

(** Modelled from the spec: the values of [_damo_fmt_str.text_to_nr],
    which is not among the sources: the [int|float] that [parseNumber]
    returns.  A float is kept as the decimal its text denotes,
    [mantissa / 10^places]; [text_to_bytes] rounds it to a binary float
    ([round64]) where it computes with it. *)
Inductive number : Type :=
| NrInt (n : N)
| NrFloat (mantissa : N) (places : nat).

(** The longest prefix of [s] whose characters satisfy [p], and the rest. *)
Fixpoint span (p : ascii -> bool) (s : string) : string * string :=
  match s with
  | EmptyString => ("", "")
  | String c s' =>
      if p c then let '(a, b) := span p s' in (String c a, b)
      else ("", s)
  end.

(** The parts of [s] before and after the first [c], when [c] occurs. *)
Fixpoint cut (c : ascii) (s : string) : option (string * string) :=
  match s with
  | EmptyString => None
  | String a s' =>
      if Ascii.eqb a c then Some ("", s')
      else match cut c s' with
           | Some (l, r) => Some (String a l, r)
           | None => None
           end
  end.

(** Modelled from the spec: [_damo_fmt_str.text_to_nr], which is not
    among the sources.  It is [parseNumber], "strips grouping separators
    (,) from anywhere in the string, then parses as floating point if a
    decimal point remains, otherwise as an integer". *)
Definition text_to_nr (txt : string) : option number :=
  let new_txt := PyStr.remove_char ","%char txt in
  match cut "."%char new_txt with
  | Some (whole, frac) =>
      mantissa <- PyStr.digits_to_N (whole ++ frac) ;;
      Some (NrFloat mantissa (String.length frac))
  | None =>
      n <- PyStr.digits_to_N new_txt ;;
      Some (NrInt n)
  end.

(** [k] digits are left in the current group; a separator opens each
    further group of three. *)
Fixpoint group_from (k : nat) (s : string) : string :=
  match s with
  | EmptyString => EmptyString
  | String c s' =>
      match k with
      | O => String ","%char (String c (group_from 2 s'))
      | S k' => String c (group_from k' s')
      end
  end.

(** Modelled from the spec: [_damo_fmt_str.format_nr], which is not among
    the sources.  It is [formatNumber], "inserts grouping separators
    every three digits from the right", for a non-negative integer and the
    second argument [False] of the tests (the specification gives that
    argument no meaning). *)
Definition format_nr (nr : N) : string :=
  let raw_string := PyStr.str_of_N nr in
  group_from (S ((String.length raw_string - 1) mod 3)) raw_string.

Definition is_nr_char (c : ascii) : bool :=
  PyStr.isdigit c || Ascii.eqb c ","%char || Ascii.eqb c "."%char.

(** Modelled from the spec: the table of suffixes of
    [_damo_fmt_str.text_to_bytes], which is not among the sources: "each
    decimal-letter and IEC suffix pair denotes the SAME binary multiplier
    1024^n". *)
Definition unit_to_bytes (unit : string) : option N :=
  if (unit =? "B")%string then Some 1%N
  else if (unit =? "K")%string || (unit =? "KiB")%string then Some (2 ^ 10)%N
  else if (unit =? "M")%string || (unit =? "MiB")%string then Some (2 ^ 20)%N
  else if (unit =? "G")%string || (unit =? "GiB")%string then Some (2 ^ 30)%N
  else if (unit =? "T")%string || (unit =? "TiB")%string then Some (2 ^ 40)%N
  else if (unit =? "P")%string || (unit =? "PiB")%string then Some (2 ^ 50)%N
  else if (unit =? "E")%string || (unit =? "EiB")%string then Some (2 ^ 60)%N
  else None.

(** [number * mult] in exact arithmetic, truncated toward zero (the
    duration parser). *)
Definition scale_trunc (nr : number) (mult : N) : N :=
  match nr with
  | NrInt n => n * mult
  | NrFloat mantissa places => (mantissa * mult) / 10 ^ N.of_nat places
  end.

(** Python's floats are IEEE 754 binary64 numbers.  A finite float that
    is not negative is kept as the fraction [num / den] it is equal to;
    [den] is a power of two. *)
Inductive float64 : Type :=
| Finite (num den : N)
| Infinite.

(** [2^e] is [pow2_num e / pow2_den e]. *)
Definition pow2_num (e : Z) : N := 2 ^ Z.to_N e.
Definition pow2_den (e : Z) : N := 2 ^ Z.to_N (- e).

(** The largest [e] with [2^e <= num / den], for positive [num], [den]. *)
Definition log2_ratio (num den : N) : Z :=
  let c := (Z.of_N (N.log2 num) - Z.of_N (N.log2 den))%Z in
  if (den * pow2_num c <=? num * pow2_den c)%N then c else (c - 1)%Z.

(** The float nearest to [num / den], ties to the even mantissa: a
    mantissa of 53 bits, the least exponent [-1074] of the subnormal
    numbers, and infinity from [2^1024] on.  This is [float(text)] for a
    decimal text of value [num / den], and the rounding of an exact
    product. *)
Definition round64 (num den : N) : float64 :=
  if (num =? 0)%N then Finite 0 1
  else
    let e := Z.max (log2_ratio num den - 52) (-1074) in
    let n0 := (num * pow2_den e)%N in
    let d0 := (den * pow2_num e)%N in
    let q := (n0 / d0)%N in
    let r := (n0 mod d0)%N in
    let mantissa :=
      if (d0 <? 2 * r)%N || ((2 * r =? d0)%N && N.odd q)
      then (q + 1)%N else q in
    if (1024 <=? Z.of_N (N.log2 mantissa) + e)%Z then Infinite
    else Finite (mantissa * pow2_num e) (pow2_den e).

(** [a * b] on floats: the exact product, rounded.  (No float here is
    negative or a NaN: the factors are a parsed number and a
    multiplier.) *)
Definition float_mul (a b : float64) : float64 :=
  match a, b with
  | Finite an ad, Finite bn bd => round64 (an * bn) (ad * bd)
  | _, _ => Infinite
  end.

(** [int(x)] on a float: truncation toward zero; [None] for infinity. *)
Definition float_trunc (x : float64) : option N :=
  match x with
  | Finite num den => Some (num / den)%N
  | Infinite => None
  end.

(** Modelled from the spec: "the numeric value is multiplied by the
    multiplier and truncated toward zero to an integer", that is
    [int(number * mult)]: an integer is multiplied exactly; a float is
    multiplied as a float, by the float of [mult], and the product is
    truncated. *)
Definition int_of_product (nr : number) (mult : N) : option N :=
  match nr with
  | NrInt n => Some (n * mult)%N
  | NrFloat mantissa places =>
      float_trunc (float_mul (round64 mantissa (10 ^ N.of_nat places))
                             (round64 mult 1))
  end.

(** Modelled from the spec: the clamp of [parseBytes], "if the
    mathematical result exceeds the maximum representable u64, the result
    is clamped to that maximum": a product above [ulong_max], an infinite
    one included, is [ulong_max]. *)
Definition clamped (product : option N) : N :=
  match product with
  | Some bytes => N.min bytes ulong_max
  | None => ulong_max
  end.

(** Modelled from the spec: [_damo_fmt_str.text_to_bytes], which is not
    among the sources.  It is [parseBytes], "recognizes the min/max
    sentinels first; otherwise parses a leading parseNumber value followed
    by an optional whitespace and an optional suffix [...]  No suffix means
    raw bytes.  The numeric value is multiplied by the multiplier and
    truncated toward zero to an integer.  If the mathematical result
    exceeds the maximum representable u64, the result is clamped to that
    maximum rather than wrapping or failing".  A number with a decimal
    point is a float, and its product is a float product; an infinite
    product is clamped as well. *)
Definition text_to_bytes (txt : string) : option N :=
  if (txt =? "min")%string then Some 0%N
  else if (txt =? "max")%string then Some ulong_max
  else
    let '(nr_txt, rest) := span is_nr_char txt in
    nr <- text_to_nr nr_txt ;;
    let unit := PyStr.lstrip rest in
    mult <- (if (unit =? "")%string then Some 1%N else unit_to_bytes unit) ;;
    Some (clamped (int_of_product nr mult)).

(** Modelled from the spec: the table of units of the duration parser of
    [_damo_fmt_str], which is not among the sources; a unit is given by
    its length in nanoseconds. *)
Definition unit_to_ns (unit : string) : option N :=
  if (unit =? "ns")%string then Some 1%N
  else if (unit =? "us")%string then Some 1000%N
  else if (unit =? "ms")%string then Some 1000000%N
  else if (unit =? "s")%string then Some 1000000000%N
  else if (unit =? "m")%string then Some 60000000000%N
  else if (unit =? "h")%string then Some 3600000000000%N
  else if (unit =? "d")%string then Some 86400000000000%N
  else None.

(** The [(number, unit)] pairs of a list of fields: a unit either abuts
    its number or is the next field. *)
Fixpoint pairs_of_fields (fields : list string)
  : option (list (number * string)) :=
  match fields with
  | [] => Some []
  | f :: rest =>
      let '(nr_txt, unit) := span is_nr_char f in
      nr <- text_to_nr nr_txt ;;
      if (unit =? "")%string then
        match rest with
        | u :: rest' =>
            ps <- pairs_of_fields rest' ;; Some ((nr, u) :: ps)
        | [] => None
        end
      else ps <- pairs_of_fields rest ;; Some ((nr, unit) :: ps)
  end.

(** Exact decimals [mantissa / 10^places], for the sum of the pairs. *)
Definition decimal : Type := (N * nat)%type.

Definition decimal_of_number (nr : number) : decimal :=
  match nr with
  | NrInt n => (n, O)
  | NrFloat mantissa places => (mantissa, places)
  end.

Definition decimal_add (a b : decimal) : decimal :=
  let places := Nat.max (snd a) (snd b) in
  ((fst a * 10 ^ N.of_nat (places - snd a)
    + fst b * 10 ^ N.of_nat (places - snd b))%N, places).

Definition decimal_mul_N (a : decimal) (k : N) : decimal :=
  ((fst a * k)%N, snd a).

(** [a / d], truncated toward zero. *)
Definition decimal_div_trunc (a : decimal) (d : N) : N :=
  (fst a / (10 ^ N.of_nat (snd a) * d))%N.

(** The sum of the pairs in nanoseconds; an unknown unit fails. *)
Fixpoint pairs_to_ns (pairs : list (number * string)) : option decimal :=
  match pairs with
  | [] => Some (0%N, O)
  | (nr, unit) :: rest =>
      unit_ns <- unit_to_ns unit ;;
      rest_ns <- pairs_to_ns rest ;;
      Some (decimal_add (decimal_mul_N (decimal_of_number nr) unit_ns) rest_ns)
  end.

(** Modelled from the spec: the function behind [_damo_fmt_str.text_to_ns],
    [text_to_us] and [text_to_ms], which are not among the sources.  It is
    [parseDuration(text, targetUnit)], with the target unit given by its
    length in nanoseconds: "recognizes min/max
    sentinels first.  Otherwise tokenizes the text into (number, unit)
    pairs [...] summed after converting each to a common base
    (nanoseconds), then the sum is converted to targetUnit [...]  A bare
    number with no unit token is interpreted as already being expressed in
    targetUnit [...]  A unit token may immediately abut its number".  The
    conversions to an integer truncate, as in [parseBytes]; at least one
    pair is required. *)
Definition text_to_time (txt : string) (target_ns : N) : option N :=
  if (txt =? "min")%string then Some 0%N
  else if (txt =? "max")%string then Some ulong_max
  else
    let fields := PyStr.split txt in
    let general :=
      pairs <- pairs_of_fields fields ;;
      match pairs with
      | [] => None
      | _ =>
          total_ns <- pairs_to_ns pairs ;;
          Some (decimal_div_trunc total_ns target_ns)
      end in
    match fields with
    | [f] =>
        let '(nr_txt, unit) := span is_nr_char f in
        if (unit =? "")%string
        then nr <- text_to_nr nr_txt ;; Some (scale_trunc nr 1)
        else general
    | _ => general
    end.

Definition text_to_ns (txt : string) : option N := text_to_time txt 1.
Definition text_to_us (txt : string) : option N := text_to_time txt 1000.
Definition text_to_ms (txt : string) : option N := text_to_time txt 1000000.

(** Modelled from the spec: [_damo_fmt_str.text_to_percent], which is not
    among the sources.  It is [parsePercent], "a parseNumber value followed
    by a required % marker (optional surrounding whitespace)". *)
Definition text_to_percent (txt : string) : option number :=
  let '(nr_txt, rest) := span is_nr_char (PyStr.strip txt) in
  if (PyStr.lstrip rest =? "%")%string then text_to_nr nr_txt else None.

Definition usec_ns : N := 1000.
Definition msec_ns : N := 1000 * usec_ns.
Definition sec_ns : N := 1000 * msec_ns.
Definition minute_ns : N := 60 * sec_ns.
Definition hour_ns : N := 60 * minute_ns.
Definition day_ns : N := 24 * hour_ns.

(** Three digits, padded with zeros on the left. *)
Definition pad3 (n : N) : string :=
  if (n <? 10)%N then "00" ++ PyStr.str_of_N n
  else if (n <? 100)%N then "0" ++ PyStr.str_of_N n
  else PyStr.str_of_N n.

(** [value / unit] "as a fractional value rounded to three decimal digits,
    rendered without a decimal point if that remainder is exactly zero". *)
Definition format_fraction (value unit : N) : string :=
  if (value mod unit =? 0)%N then PyStr.str_of_N (value / unit)
  else
    let milli := ((2 * 1000 * value + unit) / (2 * unit))%N in
    PyStr.str_of_N (milli / 1000) ++ "." ++ pad3 (milli mod 1000).

(** Modelled from the spec: [_damo_fmt_str.format_time_ns], which is not
    among the sources.  It is [formatDurationApprox], for the second
    argument [False] of the tests: the chain [h, m, s, ms, us, ns] without
    [d], "whole-unit components are rendered as integers from the largest
    populated unit downward; the last populated unit carries any finer
    remainder as a fractional value".  As in the expected strings of
    [test_format_time], the unit that carries the fraction is [s] from one
    second on, and the largest populated unit below one second. *)
Definition format_time_ns (time_ns : N) : string :=
  if (sec_ns <=? time_ns)%N then
    let hours := (time_ns / hour_ns)%N in
    let minutes := ((time_ns mod hour_ns) / minute_ns)%N in
    let seconds_ns := (time_ns mod minute_ns)%N in
    PyStr.join " "
      ((if (hours =? 0)%N then [] else [(PyStr.str_of_N hours ++ " h")%string])
       ++ (if (minutes =? 0)%N then [] else [(PyStr.str_of_N minutes ++ " m")%string])
       ++ (if (seconds_ns =? 0)%N then []
           else [(format_fraction seconds_ns sec_ns ++ " s")%string]))%list
  else if (msec_ns <=? time_ns)%N then format_fraction time_ns msec_ns ++ " ms"
  else if (usec_ns <=? time_ns)%N then format_fraction time_ns usec_ns ++ " us"
  else PyStr.str_of_N time_ns ++ " ns".

(** The suffix pairs of [parseBytes] the specification lists, each with
    the exponent [n] of its multiplier [1024^n]. *)
Definition suffix_pairs : list (string * string * N) :=
  [("K", "KiB", 1%N); ("M", "MiB", 2%N); ("G", "GiB", 3%N);
   ("T", "TiB", 4%N); ("P", "PiB", 5%N); ("E", "EiB", 6%N)].

(** The suffixes of [parseBytes] the specification lists, the absent
    suffix ("no suffix means raw bytes") and [B] included, each with the
    exponent [n] of its multiplier [1024^n]. *)
Definition byte_units : list (string * N) :=
  [("", 0%N); ("B", 0%N); ("K", 1%N); ("KiB", 1%N); ("M", 2%N);
   ("MiB", 2%N); ("G", 3%N); ("GiB", 3%N); ("T", 4%N); ("TiB", 4%N);
   ("P", 5%N); ("PiB", 5%N); ("E", 6%N); ("EiB", 6%N)].

(** The units of a duration, with their length in nanoseconds. *)
Definition time_units : list (string * N) :=
  [("ns", 1%N); ("us", 1000%N); ("ms", 1000000%N); ("s", 1000000000%N);
   ("m", 60000000000%N); ("h", 3600000000000%N);
   ("d", 86400000000000%N)].

(** The text of a list of (integer, unit) pairs: all numbers and units,
    separated by one space. *)
Definition pair_fields (p : N * (string * N)) : list string :=
  [PyStr.str_of_N (fst p); fst (snd p)].

Definition pairs_text (pairs : list (N * (string * N))) : string :=
  PyStr.join " " (flat_map pair_fields pairs).

(** The sum of the pairs, in nanoseconds. *)
Definition pairs_total_ns (pairs : list (N * (string * N))) : N :=
  fold_right (fun p acc => (fst p * snd (snd p) + acc)%N) 0%N pairs.

End DamoFmtStr.

(** ** An instance of the interface

    The modelled value parser, Python's [int], and stand-ins for the rest:
    no file exists, [json.loads] reads the documents that are one decimal
    integer and rejects the others, and the converter accepts no object.
    The theorems below hold for every instance; this one serves to run the
    decoders on concrete lines. *)

#[local] Instance example_types : ValueTypes :=
  {| pyfloat := DamoFmtStr.number; damos_filter := Empty_set |}.

Definition example_default_scheme : Damos :=
  {| name := "0";
     access_pattern :=
       {| min_sz_bytes := 0; max_sz_bytes := Z.of_N DamoFmtStr.ulong_max;
          min_nr_accesses := DamoFmtStr.NrInt 0;
          max_nr_accesses := DamoFmtStr.NrInt 100;
          nr_accesses_unit := "percent";
          min_age := 0; max_age := Z.of_N DamoFmtStr.ulong_max;
          age_unit := "usec" |};
     action := "stat";
     quotas := {| time_ms := 0; sz_bytes := 0; reset_interval_ms := 0;
                  weight_sz_permil := 0; weight_nr_accesses_permil := 0;
                  weight_age_permil := 0 |};
     watermarks := {| metric := "none"; interval_us := 0; high_permil := 0;
                      mid_permil := 0; low_permil := 0 |};
     filters := [] |}.

Definition integer_json_loads (txt : string) : option pyobj :=
  option_map PyInt (PyStr.int txt).

#[local] Instance example_collaborators : Collaborators :=
  {| text_to_bytes := fun s => option_map Z.of_N (DamoFmtStr.text_to_bytes s);
     text_to_percent := DamoFmtStr.text_to_percent;
     text_to_us := fun s => option_map Z.of_N (DamoFmtStr.text_to_us s);
     text_to_ms := fun s => option_map Z.of_N (DamoFmtStr.text_to_ms s);
     int := PyStr.int;
     unit_percent := "percent";
     unit_usec := "usec";
     default_damos_scheme := example_default_scheme;
     kvpairs_to_Damos := fun _ => None;
     json_loads := integer_json_loads;
     read_file := fun _ => None |}.

(** A second instance, for the JSON path: [json.loads] also reads the
    array [[1, 2]], and the converter accepts the integers. *)
Definition example_json_collaborators : Collaborators :=
  {| text_to_bytes := fun s => option_map Z.of_N (DamoFmtStr.text_to_bytes s);
     text_to_percent := DamoFmtStr.text_to_percent;
     text_to_us := fun s => option_map Z.of_N (DamoFmtStr.text_to_us s);
     text_to_ms := fun s => option_map Z.of_N (DamoFmtStr.text_to_ms s);
     int := PyStr.int;
     unit_percent := "percent";
     unit_usec := "usec";
     default_damos_scheme := example_default_scheme;
     kvpairs_to_Damos :=
       fun o => match o with
                | PyInt _ => Some example_default_scheme
                | _ => None
                end;
     json_loads :=
       fun txt => if (txt =? "[1, 2]")%string
                  then Some (PyList [PyInt 1; PyInt 2])
                  else integer_json_loads txt;
     read_file := fun _ => None |}.

(** Lines and documents to run the decoders on. *)
Definition example_line_v0 : string := "min max 1% 2% 1s 2s stat".

Definition example_line_v1 : string :=
  "2M max 0% 25% 100ms max NOhugepage 1G 1s".

Definition example_line_v3 : string :=
  "2M max 0% 25% 100ms max NOhugepage 1G 1s 1 2 3 free_mem_rate 5s 500 400 200".

Definition example_line_v4 : string :=
  "2M max 0% 25% 100ms max NOhugepage 10ms 1G 1s 1 2 3 free_mem_rate 5s 500 400 200".

Definition example_bad_line : string := "many max 1% 2% 1s 2s stat".

Definition example_line_v2 : string :=
  "2M max 0% 25% 100ms max NOhugepage 1G 1s 1 2 3".

Definition example_spaced_line_v0 : string :=
  "  min   max 1% 2%  1s 2s stat ".

Definition decoded (line : string) : Damos :=
  match fst (damo_single_line_scheme_to_damos line "0") with
  | Some scheme => scheme
  | None => example_default_scheme
  end.

Definition example_scheme_v0 : Damos :=
  Eval vm_compute in decoded example_line_v0.

Definition example_scheme_v1 : Damos :=
  Eval vm_compute in decoded example_line_v1.

Definition example_scheme_v3 : Damos :=
  Eval vm_compute in decoded example_line_v3.

Definition example_scheme_v4 : Damos :=
  Eval vm_compute in decoded example_line_v4.

(** A document of the given lines. *)
Definition document (lines : list string) : string :=
  PyStr.join (String PyStr.newline "") lines.

Definition example_document : string :=
  document ["# two schemes"; example_line_v0; ""; "  # the second one";
            example_line_v1].

Definition example_bad_document : string :=
  document [example_line_v0; "min max"].

Definition example_scheme_v2 : Damos :=
  Eval vm_compute in decoded example_line_v2.

Definition example_blank_document : string :=
  document ["# only comments"; ""; "   "; "  # and blank lines"].

Definition example_json_document : string :=
  document ["# two schemes as JSON"; "[1, 2]"].

Definition example_respaced_document : string :=
  document ["   " ++ example_line_v0 ++ "  "; "";
            "   " ++ example_line_v1 ++ "  "; "# the end"].

(** ** Notions the statements use *)

Section Notions.
Context {VT : ValueTypes} {C : Collaborators}.

(** [conv(fields[i])] *)
Definition field_as {A : Type} (conv : string -> option A)
  (fields : list string) (i : nat) : option A :=
  f <- item fields i ;; conv f.

(** The standalone function of the source for a field count. *)
Definition version_function (count : nat)
  : option (list string -> option Damos) :=
  match count with
  | 7 => Some fields_to_v0_scheme
  | 9 => Some fields_to_v1_scheme
  | 12 => Some fields_to_v2_scheme
  | 17 => Some fields_to_v3_scheme
  | 18 => Some fields_to_v4_scheme
  | _ => None
  end.

(** The lines the [for] loop hands to the line decoder, with their index
    in the list of lines: stripped, and not empty. *)
Definition nonblank_lines (idx : nat) (lines : list string)
  : list (nat * string) :=
  filter (fun p => negb (snd p =? "")%string)
         (combine (seq idx (length lines)) (map PyStr.strip lines)).

(** The line decoder on a numbered line, as the loop calls it. *)
Definition decode_numbered (p : nat * string)
  : option Damos * option string :=
  damo_single_line_scheme_to_damos (snd p) (PyStr.str_of_nat (fst p)).

Definition fails (p : nat * string) : bool :=
  match snd (decode_numbered p) with
  | Some _ => true
  | None => false
  end.

(** The text [damo_schemes_to_damos] works on: the content of the file
    when the argument names one, the argument otherwise. *)
Definition input_text (damo_schemes : string) : string :=
  match read_file damo_schemes with
  | Some content => content
  | None => damo_schemes
  end.

Definition fatal_message (err : string) : string :=
  "given scheme is neither file nor proper scheme string (" ++ err ++ ")".

End Notions.

(** * Properties of the line decoder *)

Section LineDecoder.
Context {VT : ValueTypes} {C : Collaborators}.

Lemma bind_Some {A B : Type} (e : option A) (k : A -> option B) (b : B) :
  bind e k = Some b -> exists a, e = Some a /\ k a = Some b.
Proof.
  destruct e as [a|]; simpl; intros H; [now exists a | discriminate].
Qed.

Lemma expected_lengths_In (n : nat) :
  existsb (Nat.eqb n) expected_lengths = true <-> In n [7; 9; 12; 17; 18]%nat.
Proof.
  unfold expected_lengths. rewrite existsb_exists. split.
  - intros [x [Hin Heq]]. apply Nat.eqb_eq in Heq. now subst x.
  - intros Hin. exists n. split; [assumption | apply Nat.eqb_refl].
Qed.

(** After the gate on the field count, the result is read off the [try]
    block. *)
Lemma single_line_after_gate (line name : string) :
  In (length (PyStr.split line)) [7; 9; 12; 17; 18]%nat ->
  damo_single_line_scheme_to_damos line name =
  match single_line_try (PyStr.split line) with
  | None => (None, Some "wrong input field")
  | Some (Some scheme) => (Some scheme, None)
  | Some None => (None, Some "unsupported version of single line scheme")
  end.
Proof.
  intros Hin. unfold damo_single_line_scheme_to_damos.
  apply expected_lengths_In in Hin. now rewrite Hin.
Qed.

Lemma single_line_rejected (line name : string) :
  ~ In (length (PyStr.split line)) [7; 9; 12; 17; 18]%nat ->
  damo_single_line_scheme_to_damos line name =
  (None, Some ("expected [7, 9, 12, 17, 18] fields, but '" ++ line ++ "'")).
Proof.
  intros Hnin. unfold damo_single_line_scheme_to_damos.
  destruct (existsb (Nat.eqb (length (PyStr.split line))) expected_lengths)
    eqn:Hex.
  - apply expected_lengths_In in Hex. contradiction.
  - reflexivity.
Qed.

(** The decoder returns a record or a diagnostic, never both and never
    neither. *)
Lemma single_line_shape (line name : string) :
  (exists scheme,
     damo_single_line_scheme_to_damos line name = (Some scheme, None))
  \/ (exists err,
        damo_single_line_scheme_to_damos line name = (None, Some err)).
Proof.
  unfold damo_single_line_scheme_to_damos.
  destruct (negb _).
  - right. eexists. reflexivity.
  - destruct (single_line_try (PyStr.split line)) as [[scheme|]|].
    + left. now exists scheme.
    + right. eexists. reflexivity.
    + right. eexists. reflexivity.
Qed.

(** C1.  The line decoder returns a record only for a line of 7, 9, 12, 17
    or 18 white-space separated fields; for every other field count it
    returns no record, and a diagnostic that lists the accepted counts and
    quotes the line. *)
Theorem field_count_gate (line name : string) :
  (forall scheme,
     fst (damo_single_line_scheme_to_damos line name) = Some scheme ->
     In (length (PyStr.split line)) [7; 9; 12; 17; 18]%nat)
  /\ (~ In (length (PyStr.split line)) [7; 9; 12; 17; 18]%nat ->
      damo_single_line_scheme_to_damos line name =
      (None,
       Some ("expected [7, 9, 12, 17, 18] fields, but '" ++ line ++ "'"))).
Proof.
  split.
  - intros scheme Hok.
    destruct (in_dec Nat.eq_dec (length (PyStr.split line))
                [7; 9; 12; 17; 18]%nat) as [Hin | Hnin]; [assumption |].
    rewrite (single_line_rejected line name Hnin) in Hok. discriminate.
  - apply single_line_rejected.
Qed.

Ltac explicit_fields fields H :=
  repeat (destruct fields as [| ? fields]; simpl in H; try discriminate H).

Ltac step_binds :=
  repeat match goal with
         | |- context [bind ?e _] => destruct e; simpl
         end.

Lemma version_function_In (n : nat) (vf : list string -> option Damos) :
  version_function n = Some vf -> In n [7; 9; 12; 17; 18]%nat.
Proof.
  unfold version_function.
  do 19 (destruct n as [| n];
         [intros H; first [discriminate H | simpl; auto 10] |]).
  intros H. discriminate H.
Qed.

(** On a list of the right length, the [try] block computes what the
    standalone function of that version computes. *)
Lemma single_line_try_version (fields : list string)
  (vf : list string -> option Damos) :
  version_function (length fields) = Some vf ->
  single_line_try fields = option_map Some (vf fields).
Proof.
  intros Hvf.
  pose proof (version_function_In _ _ Hvf) as Hlen.
  simpl in Hlen.
  destruct Hlen as [H | [H | [H | [H | [H | []]]]]]; symmetry in H;
    rewrite H in Hvf; injection Hvf as <-;
    explicit_fields fields H;
    unfold single_line_try, fields_to_v4_scheme, fields_to_v3_scheme,
      fields_to_v2_scheme, fields_to_v1_scheme, fields_to_v0_scheme,
      layer_v1, layer_v2, layer_v3, layer_v4, item; simpl;
    step_binds; reflexivity.
Qed.

(** C10.  For a line of an accepted field count, the record the standalone
    function of that version builds from the fields is the record the line
    decoder returns, and the line decoder fails exactly when that function
    raises. *)
Theorem standalone_versions_agree (line name : string)
  (vf : list string -> option Damos) :
  version_function (length (PyStr.split line)) = Some vf ->
  (forall scheme,
     vf (PyStr.split line) = Some scheme ->
     damo_single_line_scheme_to_damos line name = (Some scheme, None))
  /\ (vf (PyStr.split line) = None ->
      damo_single_line_scheme_to_damos line name =
      (None, Some "wrong input field")).
Proof.
  intros Hvf.
  pose proof (version_function_In _ _ Hvf) as Hin.
  rewrite (single_line_after_gate line name Hin).
  rewrite (single_line_try_version _ vf Hvf).
  split.
  - intros scheme Hs. now rewrite Hs.
  - intros Hn. now rewrite Hn.
Qed.

Lemma single_line_success_version (line name : string)
  (vf : list string -> option Damos) (scheme : Damos) :
  version_function (length (PyStr.split line)) = Some vf ->
  damo_single_line_scheme_to_damos line name = (Some scheme, None) ->
  vf (PyStr.split line) = Some scheme.
Proof.
  intros Hvf Hok.
  rewrite (single_line_after_gate line name (version_function_In _ _ Hvf))
    in Hok.
  rewrite (single_line_try_version _ vf Hvf) in Hok.
  destruct (vf (PyStr.split line)) as [s |]; simpl in Hok.
  - now injection Hok as ->.
  - discriminate Hok.
Qed.

Ltac invert_binds :=
  repeat match goal with
         | H : context [bind ?e _] |- _ =>
             destruct e eqn:?; simpl in H; try discriminate H
         | H : Some _ = Some _ |- _ => injection H as H; subst
         end.

(** C2.  On an accepted line of 18 fields, fields 7 to 17 are, in this
    order, the time budget, the size budget and the reset interval of the
    quotas, the three weights, and the metric, the interval and the high,
    mid and low thresholds of the watermarks.  On an accepted line of 17
    fields the time budget is the one of the default scheme, and fields 7
    to 16 are the size budget, the reset interval, the weights and the
    watermarks. *)
Theorem v4_field_layout (line name : string) (scheme : Damos) :
  damo_single_line_scheme_to_damos line name = (Some scheme, None) ->
  let fields := PyStr.split line in
  (length fields = 18%nat ->
   field_as text_to_ms fields 7 = Some (time_ms (quotas scheme))
   /\ field_as text_to_bytes fields 8 = Some (sz_bytes (quotas scheme))
   /\ field_as text_to_ms fields 9 = Some (reset_interval_ms (quotas scheme))
   /\ field_as int fields 10 = Some (weight_sz_permil (quotas scheme))
   /\ field_as int fields 11
      = Some (weight_nr_accesses_permil (quotas scheme))
   /\ field_as int fields 12 = Some (weight_age_permil (quotas scheme))
   /\ option_map PyStr.lower (item fields 13)
      = Some (metric (watermarks scheme))
   /\ field_as text_to_us fields 14 = Some (interval_us (watermarks scheme))
   /\ field_as int fields 15 = Some (high_permil (watermarks scheme))
   /\ field_as int fields 16 = Some (mid_permil (watermarks scheme))
   /\ field_as int fields 17 = Some (low_permil (watermarks scheme)))
  /\ (length fields = 17%nat ->
      time_ms (quotas scheme) = time_ms (quotas default_damos_scheme)
      /\ field_as text_to_bytes fields 7 = Some (sz_bytes (quotas scheme))
      /\ field_as text_to_ms fields 8
         = Some (reset_interval_ms (quotas scheme))
      /\ field_as int fields 9 = Some (weight_sz_permil (quotas scheme))
      /\ field_as int fields 10
         = Some (weight_nr_accesses_permil (quotas scheme))
      /\ field_as int fields 11 = Some (weight_age_permil (quotas scheme))
      /\ option_map PyStr.lower (item fields 12)
         = Some (metric (watermarks scheme))
      /\ field_as text_to_us fields 13
         = Some (interval_us (watermarks scheme))
      /\ field_as int fields 14 = Some (high_permil (watermarks scheme))
      /\ field_as int fields 15 = Some (mid_permil (watermarks scheme))
      /\ field_as int fields 16 = Some (low_permil (watermarks scheme))).
Proof.
  intros Hok fields. subst fields.
  remember (PyStr.split line) as fields eqn:Hfields.
  split; intros Hlen.
  - assert (Hvf : fields_to_v4_scheme fields = Some scheme).
    { rewrite Hfields.
      apply (single_line_success_version line name); [| exact Hok].
      rewrite <- Hfields, Hlen. reflexivity. }
    clear Hok Hfields.
    explicit_fields fields Hlen.
    unfold fields_to_v4_scheme, fields_to_v0_scheme, item in Hvf.
    simpl in Hvf. invert_binds.
    unfold field_as, item; simpl.
    repeat split; first [assumption | reflexivity].
  - assert (Hvf : fields_to_v3_scheme fields = Some scheme).
    { rewrite Hfields.
      apply (single_line_success_version line name); [| exact Hok].
      rewrite <- Hfields, Hlen. reflexivity. }
    clear Hok Hfields.
    explicit_fields fields Hlen.
    unfold fields_to_v3_scheme, fields_to_v2_scheme, fields_to_v1_scheme,
      fields_to_v0_scheme, item in Hvf.
    simpl in Hvf. invert_binds.
    unfold field_as, item; simpl.
    repeat split; first [assumption | reflexivity].
Qed.

Lemma layer_v1_name (fields : list string) (s s' : Damos) :
  layer_v1 fields s = Some s' -> name s' = name s.
Proof. unfold layer_v1. intros H. invert_binds. reflexivity. Qed.

Lemma layer_v2_name (fields : list string) (s s' : Damos) :
  layer_v2 fields s = Some s' -> name s' = name s.
Proof. unfold layer_v2. intros H. invert_binds. reflexivity. Qed.

Lemma layer_v3_name (fields : list string) (s s' : Damos) :
  layer_v3 fields s = Some s' -> name s' = name s.
Proof. unfold layer_v3. intros H. invert_binds. reflexivity. Qed.

Lemma layer_v4_name (fields : list string) (s s' : Damos) :
  layer_v4 fields s = Some s' -> name s' = name s.
Proof. unfold layer_v4. intros H. invert_binds. reflexivity. Qed.

Lemma optional_layer_name (b : bool) (layer : Damos -> option Damos)
  (s s' : Damos) :
  (forall t t', layer t = Some t' -> name t' = name t) ->
  (if b then layer s else Some s) = Some s' -> name s' = name s.
Proof.
  intros Hlayer H. destruct b.
  - now apply Hlayer.
  - now injection H as <-.
Qed.

Lemma single_line_try_name (fields : list string) (scheme : Damos) :
  single_line_try fields = Some (Some scheme) ->
  name scheme = name default_damos_scheme.
Proof.
  unfold single_line_try. intros H.
  destruct (access_pattern_of_fields fields) as [ap |]; cbn [bind] in H;
    [| discriminate H].
  destruct (item fields 6) as [f6 |]; cbn [bind] in H; [| discriminate H].
  destruct (length fields =? 7)%nat.
  { injection H as <-. reflexivity. }
  destruct (length fields <=? 17)%nat.
  { apply bind_Some in H. destruct H as [s1 [H1 H]].
    apply bind_Some in H. destruct H as [s2 [H2 H]].
    apply bind_Some in H. destruct H as [s3 [H3 H]].
    injection H as <-.
    apply optional_layer_name in H1; [| apply layer_v1_name].
    apply optional_layer_name in H2; [| apply layer_v2_name].
    apply optional_layer_name in H3; [| apply layer_v3_name].
    rewrite H3, H2, H1. reflexivity. }
  destruct (length fields =? 18)%nat; [| discriminate H].
  apply bind_Some in H. destruct H as [s4 [H4 H]].
  injection H as <-.
  apply layer_v4_name in H4. rewrite H4. reflexivity.
Qed.

(** C7, as the code has it.  The line decoder does not store the name it
    is given: a record it returns carries the name of the default scheme,
    whatever the argument [name] is. *)
Theorem line_decoder_drops_name (line given_name : string)
  (scheme : Damos) :
  damo_single_line_scheme_to_damos line given_name = (Some scheme, None) ->
  name scheme = name default_damos_scheme.
Proof.
  unfold damo_single_line_scheme_to_damos. intros H.
  destruct (negb _); [discriminate H |].
  destruct (single_line_try (PyStr.split line)) as [[s |] |] eqn:Htry;
    try discriminate H.
  injection H as <-. exact (single_line_try_name _ _ Htry).
Qed.

End LineDecoder.

(** * Properties of the document decoder *)

Section DocumentDecoder.
Context {VT : ValueTypes} {C : Collaborators}.

Lemma nonblank_lines_cons (idx : nat) (line : string) (rest : list string) :
  nonblank_lines idx (line :: rest) =
  if (PyStr.strip line =? "")%string then nonblank_lines (S idx) rest
  else (idx, PyStr.strip line) :: nonblank_lines (S idx) rest.
Proof.
  unfold nonblank_lines. simpl.
  destruct (PyStr.strip line =? "")%string; reflexivity.
Qed.

Lemma fails_spec (p : nat * string) :
  (fails p = true
   /\ exists err, decode_numbered p = (None, Some err))
  \/ (fails p = false
      /\ exists scheme, decode_numbered p = (Some scheme, None)).
Proof.
  unfold fails, decode_numbered.
  destruct (single_line_shape (snd p) (PyStr.str_of_nat (fst p)))
    as [[scheme H] | [err H]]; rewrite H; simpl.
  - right. split; [reflexivity | now exists scheme].
  - left. split; [reflexivity | now exists err].
Qed.

(** The loop stops at the first line that fails. *)
Lemma decode_lines_first_failure (lines : list string) :
  forall (idx : nat) (damos_list : list (option Damos)) (p : nat * string),
  find fails (nonblank_lines idx lines) = Some p ->
  exists err,
    decode_numbered p = (None, Some err)
    /\ decode_lines idx lines damos_list = Exited (fatal_message err) 1.
Proof.
  induction lines as [| line rest IH]; intros idx damos_list p Hfind.
  - discriminate Hfind.
  - rewrite nonblank_lines_cons in Hfind. simpl.
    destruct (PyStr.strip line =? "")%string.
    + now apply IH.
    + simpl in Hfind.
      destruct (fails_spec (idx, PyStr.strip line))
        as [[Hf [err He]] | [Hf [scheme Hs]]]; rewrite Hf in Hfind.
      * injection Hfind as <-. exists err. split; [exact He |].
        unfold decode_numbered in He. simpl in He. rewrite He. reflexivity.
      * unfold decode_numbered in Hs. simpl in Hs. rewrite Hs.
        now apply IH.
Qed.

(** Without a failing line, the loop appends what each line decodes to. *)
Lemma decode_lines_no_failure (lines : list string) :
  forall (idx : nat) (damos_list : list (option Damos)),
  find fails (nonblank_lines idx lines) = None ->
  decode_lines idx lines damos_list =
  Returned (damos_list
            ++ map (fun p => fst (decode_numbered p))
                   (nonblank_lines idx lines))%list.
Proof.
  induction lines as [| line rest IH]; intros idx damos_list Hfind.
  - simpl. now rewrite List.app_nil_r.
  - rewrite nonblank_lines_cons in Hfind |- *. simpl.
    destruct (PyStr.strip line =? "")%string.
    + now apply IH.
    + simpl in Hfind.
      destruct (fails_spec (idx, PyStr.strip line))
        as [[Hf [err He]] | [Hf [scheme Hs]]]; rewrite Hf in Hfind.
      * discriminate Hfind.
      * simpl. rewrite Hs. unfold decode_numbered in Hs. simpl in Hs.
        rewrite Hs. rewrite (IH _ _ Hfind). simpl.
        now rewrite <- List.app_assoc.
Qed.

Lemma decoded_records (l : list (nat * string)) :
  (forall p, In p l -> fails p = false) ->
  exists records,
    map (fun p => fst (decode_numbered p)) l = map Some records
    /\ Forall2 (fun p r => decode_numbered p = (Some r, None)) l records.
Proof.
  induction l as [| p l IH]; intros Hall.
  - exists []. split; [reflexivity | constructor].
  - destruct IH as [records [Hmap Hall2]].
    { intros q Hq. apply Hall. now right. }
    destruct (fails_spec p) as [[Hf _] | [_ [scheme Hs]]].
    + rewrite (Hall p (or_introl eq_refl)) in Hf. discriminate Hf.
    + exists (scheme :: records). split.
      * simpl. now rewrite Hs, Hmap.
      * now constructor.
Qed.

(** C4.  When the [try] of the JSON path has failed: if a line that is
    neither a comment nor blank fails to decode, the document decoder
    returns no list; it prints the fatal message with the diagnostic of
    such a line and exits with status 1.  If no line fails, it returns one
    record for every such line, in the order of the lines. *)
Theorem line_fallback_all_or_nothing (damo_schemes : string) :
  let lines :=
    damo_schemes_lines_except_comments (input_text damo_schemes) in
  json_attempt lines = None ->
  ((exists p, In p (nonblank_lines 0 lines) /\ fails p = true) ->
   exists p err,
     In p (nonblank_lines 0 lines)
     /\ decode_numbered p = (None, Some err)
     /\ damo_schemes_to_damos damo_schemes = Exited (fatal_message err) 1)
  /\ ((forall p, In p (nonblank_lines 0 lines) -> fails p = false) ->
      exists records,
        damo_schemes_to_damos damo_schemes = Returned (map Some records)
        /\ Forall2 (fun p r => decode_numbered p = (Some r, None))
                   (nonblank_lines 0 lines) records).
Proof.
  intros lines Hjson.
  assert (Hrun : damo_schemes_to_damos damo_schemes
                 = decode_lines 0 lines []).
  { unfold damo_schemes_to_damos. fold (input_text damo_schemes).
    fold lines. now rewrite Hjson. }
  rewrite Hrun. split.
  - intros [q [Hq Hfq]].
    destruct (find fails (nonblank_lines 0 lines)) as [p |] eqn:Hfind.
    + destruct (decode_lines_first_failure lines 0 [] p Hfind)
        as [err [He Hexit]].
      exists p, err. apply find_some in Hfind. tauto.
    + rewrite (find_none _ _ Hfind q Hq) in Hfq. discriminate Hfq.
  - intros Hall.
    destruct (decoded_records _ Hall) as [records [Hmap Hall2]].
    exists records. split; [| exact Hall2].
    rewrite decode_lines_no_failure.
    + simpl. now rewrite Hmap.
    + destruct (find fails (nonblank_lines 0 lines)) as [p |] eqn:Hfind;
        [| reflexivity].
      apply find_some in Hfind. destruct Hfind as [Hin Hf].
      rewrite (Hall p Hin) in Hf. discriminate Hf.
Qed.

(** A document that is JSON but not iterable leaves the [try] through the
    [except:], as a document that is not JSON does. *)
Lemma json_attempt_not_iterable (lines : list string) (o : pyobj) :
  json_loads (PyStr.join (String PyStr.newline "") lines) = Some o ->
  py_iter o = None ->
  json_attempt lines = None.
Proof.
  intros Hloads Hiter. unfold json_attempt. rewrite Hloads. simpl.
  now rewrite Hiter.
Qed.

(** C3, as the code has it.  The document [1] is JSON: [json.loads]
    returns the integer 1.  The decoder then runs the line decoder on it,
    and what it prints comes from the line decoder. *)
Theorem json_scalar_reaches_line_decoder :
  read_file "1" = None ->
  json_loads "1" = Some (PyInt 1) ->
  damo_schemes_to_damos "1" =
  Exited ("given scheme is neither file nor proper scheme string "
          ++ "(expected [7, 9, 12, 17, 18] fields, but '1')") 1.
Proof.
  intros Hfile Hloads. unfold damo_schemes_to_damos. rewrite Hfile.
  change (damo_schemes_lines_except_comments "1") with ["1"].
  rewrite (json_attempt_not_iterable ["1"] (PyInt 1) Hloads eq_refl).
  reflexivity.
Qed.

End DocumentDecoder.

(** * Properties of the string operations *)

Section Strings.

Lemma occurs_app (c : ascii) (a b : string) :
  PyStr.occurs c (a ++ b) = PyStr.occurs c a || PyStr.occurs c b.
Proof.
  induction a as [| x a IH]; simpl; [reflexivity |].
  now rewrite IH, orb_assoc.
Qed.

Lemma all_chars_app (p : ascii -> bool) (a b : string) :
  PyStr.all_chars p (a ++ b) = PyStr.all_chars p a && PyStr.all_chars p b.
Proof.
  induction a as [| x a IH]; simpl; [reflexivity |].
  now rewrite IH, andb_assoc.
Qed.

(** A character that fails [p] does not occur in a string whose
    characters all satisfy [p]. *)
Lemma all_chars_occurs (p : ascii -> bool) (c : ascii) (s : string) :
  p c = false -> PyStr.all_chars p s = true -> PyStr.occurs c s = false.
Proof.
  intros Hc. induction s as [| x s IH]; simpl; [reflexivity |].
  intros H. apply andb_true_iff in H. destruct H as [Hx Hs].
  rewrite (IH Hs), orb_false_r.
  destruct (Ascii.eqb_spec x c) as [-> |]; [congruence | reflexivity].
Qed.

Lemma string_of_uint_digits (d : Decimal.uint) :
  PyStr.all_chars PyStr.isdigit (NilEmpty.string_of_uint d) = true.
Proof. induction d; simpl; auto. Qed.

Lemma str_of_N_digits (n : N) :
  PyStr.all_chars PyStr.isdigit (PyStr.str_of_N n) = true.
Proof. apply string_of_uint_digits. Qed.

Lemma string_of_uint_empty (d : Decimal.uint) :
  NilEmpty.string_of_uint d = "" -> d = Decimal.Nil.
Proof. destruct d; simpl; intros H; [reflexivity | discriminate H ..]. Qed.

Lemma str_of_N_nonempty (n : N) : PyStr.str_of_N n <> "".
Proof.
  unfold PyStr.str_of_N. intros H. apply string_of_uint_empty in H.
  destruct n as [| p]; simpl in H.
  - discriminate H.
  - exact (DecimalPos.Unsigned.to_uint_nonnil p H).
Qed.

(** Reading the decimal text of [n] gives [n] back. *)
Lemma digits_to_N_str_of_N (n : N) :
  PyStr.digits_to_N (PyStr.str_of_N n) = Some n.
Proof.
  unfold PyStr.digits_to_N.
  destruct (PyStr.str_of_N n) eqn:Hs.
  - now apply str_of_N_nonempty in Hs.
  - rewrite <- Hs. unfold PyStr.str_of_N.
    rewrite NilEmpty.usu. simpl.
    now rewrite DecimalN.Unsigned.of_to.
Qed.

Lemma remove_char_absent (c : ascii) (s : string) :
  PyStr.occurs c s = false -> PyStr.remove_char c s = s.
Proof.
  induction s as [| x s IH]; simpl; [reflexivity |].
  intros H. apply orb_false_iff in H. destruct H as [Hx Hs].
  rewrite Hx. now rewrite (IH Hs).
Qed.

(** The words of a string are made of its characters. *)
Lemma split_from_occurs (c : ascii) (s : string) :
  forall (word w : string),
  In w (PyStr.split_from word s) ->
  PyStr.occurs c w = true ->
  PyStr.occurs c word || PyStr.occurs c s = true.
Proof.
  induction s as [| x s IH]; intros word w Hin Hc; simpl in Hin.
  - destruct (word =? "")%string; simpl in Hin; [contradiction |].
    destruct Hin as [<- | []]. now rewrite Hc.
  - simpl. destruct (PyStr.isspace x).
    + destruct (word =? "")%string.
      * specialize (IH "" w Hin Hc). simpl in IH. rewrite IH.
        now rewrite !orb_true_r.
      * destruct Hin as [<- | Hin]; [now rewrite Hc |].
        specialize (IH "" w Hin Hc). simpl in IH. rewrite IH.
        now rewrite !orb_true_r.
    + specialize (IH _ w Hin Hc). rewrite occurs_app in IH. simpl in IH.
      rewrite orb_false_r in IH. now rewrite orb_assoc.
Qed.

End Strings.

(** * Properties of the value parser and formatter *)

Section ValueParser.
Import DamoFmtStr.

Lemma remove_char_group_from (s : string) :
  forall k : nat,
  PyStr.occurs ","%char s = false ->
  PyStr.remove_char ","%char (group_from k s) = s.
Proof.
  induction s as [| c s IH]; intros k H; simpl; [reflexivity |].
  simpl in H. apply orb_false_iff in H. destruct H as [Hc Hs].
  destruct k as [| k]; simpl; rewrite Hc; now rewrite (IH _ Hs).
Qed.

Lemma cut_absent (c : ascii) (s : string) :
  PyStr.occurs c s = false -> cut c s = None.
Proof.
  induction s as [| x s IH]; simpl; [reflexivity |].
  intros H. apply orb_false_iff in H. destruct H as [Hx Hs].
  rewrite Hx. now rewrite (IH Hs).
Qed.

(** A string of digits is read as the integer it denotes. *)
Lemma text_to_nr_digits (n : N) :
  text_to_nr (PyStr.str_of_N n) = Some (NrInt n).
Proof.
  unfold text_to_nr.
  rewrite remove_char_absent
    by (apply (all_chars_occurs PyStr.isdigit);
        [reflexivity | apply str_of_N_digits]).
  rewrite cut_absent
    by (apply (all_chars_occurs PyStr.isdigit);
        [reflexivity | apply str_of_N_digits]).
  now rewrite digits_to_N_str_of_N.
Qed.

(** C8.  Parsing the grouped text of a non-negative integer gives the
    integer back: [text_to_nr (format_nr n) = n]. *)
Theorem text_to_nr_format_nr (n : N) :
  text_to_nr (format_nr n) = Some (NrInt n).
Proof.
  unfold text_to_nr, format_nr.
  rewrite remove_char_group_from
    by (apply (all_chars_occurs PyStr.isdigit);
        [reflexivity | apply str_of_N_digits]).
  rewrite cut_absent
    by (apply (all_chars_occurs PyStr.isdigit);
        [reflexivity | apply str_of_N_digits]).
  now rewrite digits_to_N_str_of_N.
Qed.

Lemma occurs_join (c : ascii) (sep : string) (l : list string) :
  PyStr.occurs c sep = false ->
  Forall (fun x => PyStr.occurs c x = false) l ->
  PyStr.occurs c (PyStr.join sep l) = false.
Proof.
  intros Hsep Hall. induction Hall as [| x l Hx Hl IH]; [reflexivity |].
  destruct l as [| y l]; [exact Hx |].
  change (PyStr.join sep (x :: y :: l))
    with (x ++ sep ++ PyStr.join sep (y :: l)).
  now rewrite !occurs_app, Hx, Hsep, IH.
Qed.

Lemma str_of_N_no_letter (c : ascii) (n : N) :
  PyStr.isdigit c = false -> PyStr.occurs c (PyStr.str_of_N n) = false.
Proof.
  intros Hc. apply (all_chars_occurs PyStr.isdigit); [exact Hc |].
  apply str_of_N_digits.
Qed.

Lemma pad3_no_d (n : N) : PyStr.occurs "d"%char (pad3 n) = false.
Proof.
  unfold pad3.
  destruct (n <? 10)%N; [| destruct (n <? 100)%N];
    rewrite ?occurs_app; simpl; now apply str_of_N_no_letter.
Qed.

Lemma format_fraction_no_d (value unit : N) :
  PyStr.occurs "d"%char (format_fraction value unit) = false.
Proof.
  unfold format_fraction.
  destruct (value mod unit =? 0)%N.
  - now apply str_of_N_no_letter.
  - rewrite !occurs_app, pad3_no_d. simpl.
    now rewrite str_of_N_no_letter.
Qed.

Lemma piece_no_d (x u : string) :
  PyStr.occurs "d"%char x = false ->
  PyStr.occurs "d"%char u = false ->
  PyStr.occurs "d"%char (x ++ u) = false.
Proof. intros Hx Hu. now rewrite occurs_app, Hx, Hu. Qed.

Lemma format_time_ns_no_d (time_ns : N) :
  PyStr.occurs "d"%char (format_time_ns time_ns) = false.
Proof.
  unfold format_time_ns.
  destruct (sec_ns <=? time_ns)%N.
  - cbv zeta.
    generalize (time_ns / hour_ns)%N, (time_ns mod hour_ns / minute_ns)%N,
      (time_ns mod minute_ns)%N.
    intros h m s.
    apply occurs_join; [reflexivity |].
    apply Forall_app; split; [| apply Forall_app; split].
    + destruct (h =? 0)%N; constructor; [| constructor].
      apply piece_no_d; [now apply str_of_N_no_letter | reflexivity].
    + destruct (m =? 0)%N; constructor; [| constructor].
      apply piece_no_d; [now apply str_of_N_no_letter | reflexivity].
    + destruct (s =? 0)%N; constructor; [| constructor].
      apply piece_no_d; [apply format_fraction_no_d | reflexivity].
  - destruct (msec_ns <=? time_ns)%N; [| destruct (usec_ns <=? time_ns)%N];
      apply piece_no_d;
      first [reflexivity | apply format_fraction_no_d
             | now apply str_of_N_no_letter].
Qed.

Lemma string_app_assoc (a b c : string) : (a ++ b) ++ c = a ++ b ++ c.
Proof. induction a as [| x a IH]; simpl; [reflexivity | now rewrite IH]. Qed.

Lemma string_app_empty_r (a : string) : a ++ "" = a.
Proof. induction a as [| x a IH]; simpl; [reflexivity | now rewrite IH]. Qed.

(** Reading a word that has no white space moves it into the word being
    read. *)
Lemma split_from_word (w : string) :
  PyStr.all_chars PyStr.not_space w = true ->
  forall word rest : string,
  PyStr.split_from word (w ++ rest) = PyStr.split_from (word ++ w) rest.
Proof.
  induction w as [| c w IH]; intros Hw word rest.
  - now rewrite string_app_empty_r.
  - simpl in Hw. apply andb_true_iff in Hw. destruct Hw as [Hc Hw].
    simpl. unfold PyStr.not_space in Hc. apply negb_true_iff in Hc. rewrite Hc.
    rewrite (IH Hw). now rewrite string_app_assoc.
Qed.

(** Splitting the words joined by one space gives the words back. *)
Lemma split_join (words : list string) :
  Forall PyStr.is_word words ->
  PyStr.split (PyStr.join " " words) = words.
Proof.
  unfold PyStr.split.
  induction 1 as [| w words [Hne Hw] Hall IH]; [reflexivity |].
  destruct words as [| w2 words].
  - simpl. rewrite <- (string_app_empty_r w) at 1.
    rewrite (split_from_word w Hw). simpl.
    destruct (String.eqb_spec w ""); [contradiction | reflexivity].
  - change (PyStr.join " " (w :: w2 :: words))
      with (w ++ " " ++ PyStr.join " " (w2 :: words)).
    set (rest := PyStr.join " " (w2 :: words)) in *.
    rewrite (split_from_word w Hw). simpl.
    destruct (String.eqb_spec w ""); [contradiction |].
    now rewrite IH.
Qed.

Lemma span_app_stop (p : ascii -> bool) (a b : string) :
  PyStr.all_chars p a = true ->
  match b with
  | EmptyString => True
  | String c _ => p c = false
  end ->
  span p (a ++ b) = (a, b).
Proof.
  intros Ha Hb. induction a as [| x a IH]; simpl.
  - destruct b as [| c b]; [reflexivity |]. simpl. now rewrite Hb.
  - simpl in Ha. apply andb_true_iff in Ha. destruct Ha as [Hx Ha].
    rewrite Hx. now rewrite (IH Ha).
Qed.

Lemma eqb_false_by_occurs (c : ascii) (a b : string) :
  PyStr.occurs c a <> PyStr.occurs c b -> (a =? b)%string = false.
Proof.
  intros H. destruct (String.eqb_spec a b) as [-> |]; [| reflexivity].
  now contradiction H.
Qed.

Lemma eqb_false_by_all_chars (p : ascii -> bool) (a b : string) :
  PyStr.all_chars p a = true -> PyStr.all_chars p b = false ->
  (a =? b)%string = false.
Proof.
  intros Ha Hb. destruct (String.eqb_spec a b) as [-> |]; [| reflexivity].
  congruence.
Qed.

Lemma all_chars_impl (p q : ascii -> bool) (s : string) :
  (forall c, p c = true -> q c = true) ->
  PyStr.all_chars p s = true -> PyStr.all_chars q s = true.
Proof.
  intros Hpq. induction s as [| c s IH]; simpl; [reflexivity |].
  intros H. apply andb_true_iff in H. destruct H as [Hc Hs].
  now rewrite (Hpq c Hc), (IH Hs).
Qed.

Lemma isdigit_not_space (c : ascii) :
  PyStr.isdigit c = true -> PyStr.not_space c = true.
Proof.
  destruct c as [[] [] [] [] [] [] [] []]; intros H;
    first [reflexivity | discriminate H].
Qed.

Lemma isdigit_is_nr_char (c : ascii) :
  PyStr.isdigit c = true -> is_nr_char c = true.
Proof. unfold is_nr_char. now intros ->. Qed.

Lemma str_of_N_is_word (n : N) : PyStr.is_word (PyStr.str_of_N n).
Proof.
  split; [apply str_of_N_nonempty |].
  apply (all_chars_impl PyStr.isdigit); [apply isdigit_not_space |].
  apply str_of_N_digits.
Qed.

Lemma span_str_of_N (n : N) :
  span is_nr_char (PyStr.str_of_N n) = (PyStr.str_of_N n, "").
Proof.
  rewrite <- (string_app_empty_r (PyStr.str_of_N n)) at 1.
  apply span_app_stop; [| exact I].
  apply (all_chars_impl PyStr.isdigit); [apply isdigit_is_nr_char |].
  apply str_of_N_digits.
Qed.

Lemma str_of_N_not_sentinel (n : N) (sentinel : string) :
  PyStr.all_chars PyStr.isdigit sentinel = false ->
  (PyStr.str_of_N n =? sentinel)%string = false.
Proof.
  intros H. apply (eqb_false_by_all_chars PyStr.isdigit); [| exact H].
  apply str_of_N_digits.
Qed.

(** A bare number is taken in the target unit. *)
Lemma text_to_time_bare_number (n target_ns : N) :
  text_to_time (PyStr.str_of_N n) target_ns = Some n.
Proof.
  unfold text_to_time.
  rewrite !str_of_N_not_sentinel by reflexivity.
  assert (Hsplit : PyStr.split (PyStr.str_of_N n) = [PyStr.str_of_N n]).
  { apply (split_join [PyStr.str_of_N n]).
    constructor; [apply str_of_N_is_word | constructor]. }
  rewrite Hsplit, span_str_of_N. simpl.
  rewrite text_to_nr_digits. simpl. now rewrite N.mul_1_r.
Qed.

Lemma time_unit_known (unit : string) (unit_ns : N) :
  In (unit, unit_ns) time_units ->
  unit_to_ns unit = Some unit_ns /\ PyStr.is_word unit.
Proof.
  simpl. intros H.
  repeat (destruct H as [H | H];
          [injection H as <- <-;
           split; [reflexivity | split; [discriminate | reflexivity]] |]).
  contradiction.
Qed.

Lemma pairs_of_fields_number_unit (n : N) (unit : string)
  (rest : list string) :
  pairs_of_fields (PyStr.str_of_N n :: unit :: rest) =
  (ps <- pairs_of_fields rest ;; Some ((NrInt n, unit) :: ps)).
Proof.
  cbn [pairs_of_fields]. rewrite span_str_of_N.
  rewrite text_to_nr_digits. reflexivity.
Qed.

Lemma pairs_of_fields_pairs (pairs : list (N * (string * N))) :
  pairs_of_fields (flat_map pair_fields pairs) =
  Some (map (fun p => (NrInt (fst p), fst (snd p))) pairs).
Proof.
  induction pairs as [| p pairs IH]; [reflexivity |].
  change (flat_map pair_fields (p :: pairs))
    with (PyStr.str_of_N (fst p) :: fst (snd p)
          :: flat_map pair_fields pairs).
  rewrite pairs_of_fields_number_unit, IH. reflexivity.
Qed.

Lemma pairs_to_ns_pairs (pairs : list (N * (string * N))) :
  Forall (fun p => In (snd p) time_units) pairs ->
  pairs_to_ns (map (fun p => (NrInt (fst p), fst (snd p))) pairs) =
  Some (pairs_total_ns pairs, O).
Proof.
  induction 1 as [| [n [unit unit_ns]] pairs Hin Hall IH]; [reflexivity |].
  simpl in Hin. destruct (time_unit_known unit unit_ns Hin) as [Hunit _].
  cbn [map pairs_to_ns fst snd]. rewrite Hunit, IH.
  unfold decimal_add, decimal_mul_N, decimal_of_number.
  cbn [bind fst snd Nat.max Nat.sub N.of_nat pairs_total_ns fold_right].
  now rewrite N.pow_0_r, !N.mul_1_r.
Qed.

Lemma pair_fields_words (pairs : list (N * (string * N))) :
  Forall (fun p => In (snd p) time_units) pairs ->
  Forall PyStr.is_word (flat_map pair_fields pairs).
Proof.
  induction 1 as [| [n [unit unit_ns]] pairs Hin Hall IH]; [constructor |].
  simpl in Hin. destruct (time_unit_known unit unit_ns Hin) as [_ Hword].
  change (flat_map pair_fields ((n, (unit, unit_ns)) :: pairs))
    with (PyStr.str_of_N n :: unit :: flat_map pair_fields pairs).
  constructor; [apply str_of_N_is_word |].
  constructor; assumption.
Qed.

(** The pairs are summed in nanoseconds, and the sum is converted to the
    target unit. *)
Lemma text_to_time_pairs (pairs : list (N * (string * N))) (target_ns : N) :
  pairs <> [] ->
  Forall (fun p => In (snd p) time_units) pairs ->
  text_to_time (pairs_text pairs) target_ns =
  Some (pairs_total_ns pairs / target_ns)%N.
Proof.
  intros Hne Hall.
  pose proof (pair_fields_words pairs Hall) as Hwords.
  pose proof (pairs_of_fields_pairs pairs) as Hpairs.
  pose proof (pairs_to_ns_pairs pairs Hall) as Hsum.
  unfold text_to_time, pairs_text.
  rewrite (split_join _ Hwords).
  destruct pairs as [| [n [unit unit_ns]] pairs]; [now contradiction Hne |].
  change (flat_map pair_fields ((n, (unit, unit_ns)) :: pairs))
    with (PyStr.str_of_N n :: unit :: flat_map pair_fields pairs) in *.
  set (rest := flat_map pair_fields pairs) in *.
  assert (Hsp : PyStr.occurs " "%char
                  (PyStr.join " " (PyStr.str_of_N n :: unit :: rest)) = true).
  { change (PyStr.join " " (PyStr.str_of_N n :: unit :: rest))
      with (PyStr.str_of_N n ++ " " ++ PyStr.join " " (unit :: rest)).
    rewrite occurs_app. simpl. apply orb_true_r. }
  rewrite (eqb_false_by_occurs " "%char _ "min")
    by (rewrite Hsp; discriminate).
  rewrite (eqb_false_by_occurs " "%char _ "max")
    by (rewrite Hsp; discriminate).
  rewrite Hpairs. cbn [bind].
  remember (map (fun p => (NrInt (fst p), fst (snd p)))
                ((n, (unit, unit_ns)) :: pairs)) as ps eqn:Hps.
  destruct ps as [| q ps]; [discriminate Hps |].
  rewrite Hsum. cbn [bind].
  unfold decimal_div_trunc. cbn [fst snd N.of_nat].
  now rewrite N.pow_0_r, N.mul_1_l.
Qed.

(** C6.  The duration parser returns [2^64 - 1] for [max]; it takes a bare
    number as a count of the target unit; it sums the (number, unit) pairs
    of a space-separated text in nanoseconds and converts the sum to the
    target unit; and the three values of the specification. *)
Theorem text_to_time_sums_pairs :
  (forall target_ns : N, text_to_time "max" target_ns = Some (2 ^ 64 - 1)%N)
  /\ (forall n target_ns : N,
        text_to_time (PyStr.str_of_N n) target_ns = Some n)
  /\ (forall (pairs : list (N * (string * N))) (target_ns : N),
        pairs <> [] ->
        Forall (fun p => In (snd p) time_units) pairs ->
        text_to_time (pairs_text pairs) target_ns =
        Some (pairs_total_ns pairs / target_ns)%N)
  /\ text_to_us "2 h 1 m 2 s" = Some (7262 * 1000000)%N
  /\ text_to_us "134" = Some 134%N
  /\ text_to_us "max" = Some (2 ^ 64 - 1)%N.
Proof.
  split; [reflexivity |].
  split; [exact text_to_time_bare_number |].
  split; [exact text_to_time_pairs |].
  repeat split; vm_compute; reflexivity.
Qed.

(** The words of a piece "number unit" at the head of a text. *)
Lemma split_number_unit (n : N) (unit rest : string) :
  PyStr.is_word unit ->
  exists words,
    PyStr.split (PyStr.join " " ((PyStr.str_of_N n ++ " " ++ unit) :: nil)
                 ++ rest)
    = PyStr.str_of_N n :: words
    /\ (rest = "" -> words = [unit])
    /\ (forall rest', rest = String " " rest' ->
        words = unit :: PyStr.split rest').
Proof.
  intros [Hne Hunit]. unfold PyStr.split.
  cbn [PyStr.join]. rewrite !string_app_assoc.
  destruct (str_of_N_is_word n) as [Hn Hdigits].
  rewrite (split_from_word _ Hdigits). cbn [append].
  cbn [PyStr.split_from]. change (PyStr.isspace " ") with true. cbv iota.
  destruct (String.eqb_spec (PyStr.str_of_N n) ""); [contradiction |].
  eexists. split; [reflexivity |].
  rewrite (split_from_word _ Hunit). cbn [append]. split.
  - intros ->. cbn [PyStr.split_from].
    destruct (String.eqb_spec unit ""); [contradiction | reflexivity].
  - intros rest' ->. cbn [PyStr.split_from].
    change (PyStr.isspace " ") with true. cbv iota.
    destruct (String.eqb_spec unit ""); [contradiction | reflexivity].
Qed.

Lemma join_cons (sep x : string) (l : list string) :
  PyStr.join sep (x :: l)
  = x ++ match l with
         | [] => ""
         | _ :: _ => sep ++ PyStr.join sep l
         end.
Proof.
  destruct l as [| y l]; cbn [PyStr.join];
    [now rewrite string_app_empty_r | reflexivity].
Qed.

(** From one hour on, the rendering starts with the number of whole hours
    in the duration, days included. *)
Lemma format_time_ns_hours (time_ns : N) :
  (3600 * 1000000000 <= time_ns)%N ->
  exists rest,
    PyStr.split (format_time_ns time_ns)
    = PyStr.str_of_N (time_ns / (3600 * 1000000000)) :: "h" :: rest.
Proof.
  intros Hhour. unfold format_time_ns.
  assert (Hsec : (sec_ns <=? time_ns)%N = true).
  { apply N.leb_le. apply N.le_trans with (2 := Hhour). vm_compute.
    discriminate. }
  rewrite Hsec. cbv zeta.
  change hour_ns with (3600 * 1000000000)%N.
  assert (Hh : (time_ns / (3600 * 1000000000) =? 0)%N = false).
  { apply N.eqb_neq. intros H0.
    apply N.div_small_iff in H0; [| discriminate].
    apply N.lt_nge in H0. contradiction. }
  rewrite Hh.
  generalize (time_ns / (3600 * 1000000000))%N. intros hours.
  match goal with
  | |- context [([?x] ++ ?l)%list] =>
      change ([x] ++ l)%list with (x :: l); generalize l
  end.
  intros pieces. rewrite join_cons.
  destruct (split_number_unit hours "h"
              match pieces with
              | [] => ""
              | _ :: _ => " " ++ PyStr.join " " pieces
              end) as [words [Hsplit [Hnil Hcons]]].
  { split; [discriminate | reflexivity]. }
  cbn [PyStr.join append] in Hsplit |- *. rewrite Hsplit.
  destruct pieces as [| piece pieces].
  - rewrite (Hnil eq_refl). now exists [].
  - rewrite (Hcons _ eq_refl). eexists. reflexivity.
Qed.

(** C9.  The approximate rendering of a duration has no unit [d]: no word
    of it is [d] (the letter does not even occur).  Days are folded into
    hours: from one hour on, the first two words are the number of whole
    hours of the duration, however many days that is, and [h]; three days
    and two hours are rendered as 74 hours. *)
Theorem format_time_ns_never_days :
  (forall time_ns : N,
     PyStr.has_word "d" (format_time_ns time_ns) = false
     /\ PyStr.occurs "d"%char (format_time_ns time_ns) = false)
  /\ (forall time_ns : N,
        (3600 * 1000000000 <= time_ns)%N ->
        exists rest,
          PyStr.split (format_time_ns time_ns)
          = PyStr.str_of_N (time_ns / (3600 * 1000000000)) :: "h" :: rest)
  /\ format_time_ns (3 * day_ns + 2 * hour_ns) = "74 h".
Proof.
  split; [| split; [exact format_time_ns_hours | reflexivity]].
  intros time_ns. split; [| apply format_time_ns_no_d].
  unfold PyStr.has_word.
  destruct (existsb (String.eqb "d") (PyStr.split (format_time_ns time_ns)))
    eqn:Hex; [| reflexivity].
  apply existsb_exists in Hex. destruct Hex as [w [Hin Hw]].
  apply String.eqb_eq in Hw. subst w.
  pose proof (split_from_occurs "d"%char _ "" "d" Hin eq_refl) as H.
  simpl in H. now rewrite format_time_ns_no_d in H.
Qed.

End ValueParser.

(** * Properties of the byte parser *)

Section BytesParser.
Import DamoFmtStr.
Local Open Scope N_scope.

Lemma pow2_num_pos (e : Z) : 0 < pow2_num e.
Proof. unfold pow2_num. apply N.neq_0_lt_0, N.pow_nonzero. discriminate. Qed.

Lemma pow2_den_pos (e : Z) : 0 < pow2_den e.
Proof. unfold pow2_den. apply N.neq_0_lt_0, N.pow_nonzero. discriminate. Qed.

(** [2^a = 2^e * 2^(a - e)], on the fractions. *)
Lemma pow2_split (e : Z) (a : N) :
  (e <= Z.of_N a)%Z ->
  2 ^ a * pow2_den e = pow2_num e * 2 ^ Z.to_N (Z.of_N a - e).
Proof.
  intros Hle. unfold pow2_num, pow2_den.
  destruct (Z.le_gt_cases 0 e) as [Hpos | Hneg].
  - replace (Z.to_N (- e)) with 0 by lia.
    rewrite N.pow_0_r, N.mul_1_r, <- N.pow_add_r.
    f_equal. lia.
  - replace (Z.to_N e) with 0 by lia.
    rewrite N.pow_0_r, N.mul_1_l, <- N.pow_add_r.
    f_equal. lia.
Qed.

Lemma log2_bounds (n : N) :
  0 < n -> 2 ^ N.log2 n <= n /\ n < 2 ^ (N.log2 n + 1).
Proof.
  intros Hn. destruct (N.log2_spec n Hn) as [Hlow Hhigh].
  split; [exact Hlow |]. now rewrite N.add_1_r.
Qed.

(** [2^(log2_ratio num den) <= num / den]. *)
Lemma log2_ratio_le (num den : N) :
  0 < num -> 0 < den ->
  den * pow2_num (log2_ratio num den)
  <= num * pow2_den (log2_ratio num den).
Proof.
  intros Hnum Hden. unfold log2_ratio.
  set (c := (Z.of_N (N.log2 num) - Z.of_N (N.log2 den))%Z).
  destruct (den * pow2_num c <=? num * pow2_den c) eqn:Htest.
  - now apply N.leb_le.
  - clear Htest.
    destruct (log2_bounds num Hnum) as [Hnum_low _].
    destruct (log2_bounds den Hden) as [_ Hden_high].
    unfold pow2_num, pow2_den. subst c.
    destruct (N.lt_ge_cases (N.log2 den) (N.log2 num)) as [Hlt | Hge].
    + replace (Z.to_N (- (Z.of_N (N.log2 num) - Z.of_N (N.log2 den) - 1)))
        with 0 by lia.
      replace (Z.to_N (Z.of_N (N.log2 num) - Z.of_N (N.log2 den) - 1))
        with (N.log2 num - (N.log2 den + 1)) by lia.
      rewrite N.pow_0_r, N.mul_1_r.
      apply N.le_trans with (2 := Hnum_low).
      replace (N.log2 num)
        with ((N.log2 den + 1) + (N.log2 num - (N.log2 den + 1))) at 2
        by lia.
      rewrite N.pow_add_r.
      apply N.mul_le_mono_r. now apply N.lt_le_incl.
    + replace (Z.to_N (Z.of_N (N.log2 num) - Z.of_N (N.log2 den) - 1))
        with 0 by lia.
      replace (Z.to_N (- (Z.of_N (N.log2 num) - Z.of_N (N.log2 den) - 1)))
        with ((N.log2 den + 1) - N.log2 num) by lia.
      rewrite N.pow_0_r, N.mul_1_r.
      apply N.le_trans with (2 ^ (N.log2 den + 1));
        [now apply N.lt_le_incl |].
      replace (N.log2 den + 1)
        with (N.log2 num + ((N.log2 den + 1) - N.log2 num)) at 1 by lia.
      rewrite N.pow_add_r.
      now apply N.mul_le_mono_r.
Qed.

(** [num / den < 2^(log2_ratio num den + 1)]. *)
Lemma log2_ratio_lt (num den : N) :
  0 < num -> 0 < den ->
  num * pow2_den (log2_ratio num den + 1)
  < den * pow2_num (log2_ratio num den + 1).
Proof.
  intros Hnum Hden. unfold log2_ratio.
  set (c := (Z.of_N (N.log2 num) - Z.of_N (N.log2 den))%Z).
  destruct (den * pow2_num c <=? num * pow2_den c) eqn:Htest.
  - clear Htest.
    destruct (log2_bounds num Hnum) as [_ Hnum_high].
    destruct (log2_bounds den Hden) as [Hden_low _].
    unfold pow2_num, pow2_den. subst c.
    destruct (N.le_gt_cases (N.log2 den) (N.log2 num + 1)) as [Hle | Hgt].
    + replace (Z.to_N (- (Z.of_N (N.log2 num) - Z.of_N (N.log2 den) + 1)))
        with 0 by lia.
      replace (Z.to_N (Z.of_N (N.log2 num) - Z.of_N (N.log2 den) + 1))
        with (N.log2 num + 1 - N.log2 den) by lia.
      rewrite N.pow_0_r, N.mul_1_r.
      apply N.lt_le_trans with (1 := Hnum_high).
      replace (N.log2 num + 1)
        with (N.log2 den + (N.log2 num + 1 - N.log2 den)) at 1 by lia.
      rewrite N.pow_add_r.
      now apply N.mul_le_mono_r.
    + replace (Z.to_N (Z.of_N (N.log2 num) - Z.of_N (N.log2 den) + 1))
        with 0 by lia.
      replace (Z.to_N (- (Z.of_N (N.log2 num) - Z.of_N (N.log2 den) + 1)))
        with (N.log2 den - (N.log2 num + 1)) by lia.
      rewrite N.pow_0_r, N.mul_1_r.
      apply N.lt_le_trans with (2 := Hden_low).
      replace (N.log2 den)
        with ((N.log2 num + 1) + (N.log2 den - (N.log2 num + 1))) at 2 by lia.
      rewrite N.pow_add_r.
      apply N.mul_lt_mono_pos_r; [| exact Hnum_high].
      apply N.neq_0_lt_0, N.pow_nonzero; discriminate.
  - apply N.leb_gt in Htest.
    now replace (c - 1 + 1)%Z with c by lia.
Qed.

(** Rounding does not go below a power of two that the number reaches. *)
Lemma round64_lower (num den a : N) :
  0 < den -> den * 2 ^ a <= num ->
  match round64 num den with
  | Finite vn vd => 0 < vd /\ vd * 2 ^ a <= vn
  | Infinite => True
  end.
Proof.
  intros Hden Hle.
  assert (Hpow : 0 < 2 ^ a) by (apply N.neq_0_lt_0, N.pow_nonzero; discriminate).
  assert (Hnum : 0 < num).
  { apply N.lt_le_trans with (2 := Hle). now apply N.mul_pos_pos. }
  unfold round64.
  destruct (N.eqb_spec num 0) as [-> | _]; [now apply N.lt_irrefl in Hnum |].
  pose proof (log2_ratio_le num den Hnum Hden) as Hlog.
  set (lg := log2_ratio num den) in *.
  set (e := Z.max (lg - 52) (-1074)).
  set (n0 := num * pow2_den e). set (d0 := den * pow2_num e).
  assert (Hd0 : 0 < d0) by (apply N.mul_pos_pos; [exact Hden | apply pow2_num_pos]).
  set (q := n0 / d0).
  set (mantissa := if (d0 <? 2 * (n0 mod d0)) || ((2 * (n0 mod d0) =? d0) && N.odd q)
                   then q + 1 else q).
  assert (Hm : q <= mantissa).
  { subst mantissa. destruct (_ || _); [lia | apply N.le_refl]. }
  cbv zeta.
  destruct (1024 <=? Z.of_N (N.log2 mantissa) + e)%Z; [exact I |].
  split; [apply pow2_den_pos |].
  apply N.le_trans with (q * pow2_num e);
    [| apply N.mul_le_mono_r; exact Hm].
  destruct (Z.le_gt_cases e (Z.of_N a)) as [Hea | Hea].
  - (* the exponent is at most [a] *)
    rewrite N.mul_comm, (pow2_split e a Hea), N.mul_comm.
    apply N.mul_le_mono_r.
    apply N.div_le_lower_bound; [lia |].
    subst d0 n0.
    rewrite <- N.mul_assoc, <- (pow2_split e a Hea).
    rewrite N.mul_assoc. apply N.mul_le_mono_r. exact Hle.
  - (* the exponent is above [a]: one unit of the mantissa is enough *)
    assert (He : e = (lg - 52)%Z) by lia.
    assert (Hq : 1 <= q).
    { apply N.div_le_lower_bound; [lia |]. rewrite N.mul_1_r.
      subst d0 n0. unfold pow2_num, pow2_den in *.
      replace (Z.to_N (- e)) with 0 by lia.
      replace (Z.to_N (- lg)) with 0 in Hlog by lia.
      rewrite N.pow_0_r, N.mul_1_r in *.
      apply N.le_trans with (2 := Hlog).
      apply N.mul_le_mono_l. apply N.pow_le_mono_r; [discriminate | lia]. }
    unfold pow2_num, pow2_den.
    replace (Z.to_N (- e)) with 0 by lia.
    rewrite N.pow_0_r, N.mul_1_l.
    apply N.le_trans with (1 * 2 ^ Z.to_N e);
      [| apply N.mul_le_mono_r; exact Hq].
    rewrite N.mul_1_l. apply N.pow_le_mono_r; [discriminate | lia].
Qed.

(** Just below a power of two, at most a quarter of the distance to the
    float before it away, rounding gives the power of two. *)
Lemma round64_lower_near (num den a : N) :
  0 < den -> den * (2 ^ a * (2 ^ 54 - 1)) <= num * 2 ^ 54 ->
  match round64 num den with
  | Finite vn vd => 0 < vd /\ vd * 2 ^ a <= vn
  | Infinite => True
  end.
Proof.
  intros Hden Hnear.
  destruct (N.le_gt_cases (den * 2 ^ a) num) as [Hle | Hlt];
    [now apply round64_lower |].
  assert (Hpow : 0 < 2 ^ a)
    by (apply N.neq_0_lt_0, N.pow_nonzero; discriminate).
  assert (Hnum : 0 < num).
  { destruct (N.eq_0_gt_0_cases num) as [-> | Hpos]; [| exact Hpos].
    exfalso. rewrite N.mul_0_l in Hnear. apply N.le_0_r in Hnear.
    apply N.eq_mul_0 in Hnear. destruct Hnear as [H0 | H0]; [lia |].
    apply N.eq_mul_0 in H0. destruct H0 as [H0 | H0]; [lia | discriminate]. }
  assert (Hhalf : den * 2 ^ a <= num * 2).
  { apply (N.mul_le_mono_pos_r _ _ (2 ^ 53)); [reflexivity |].
    replace (num * 2 * 2 ^ 53) with (num * 2 ^ 54)
      by (change (2 ^ 54) with (2 * 2 ^ 53); ring).
    apply N.le_trans with (2 := Hnear).
    rewrite <- N.mul_assoc. apply N.mul_le_mono_l.
    apply N.mul_le_mono_l. discriminate. }
  pose proof (log2_ratio_le num den Hnum Hden) as Hlog.
  pose proof (log2_ratio_lt num den Hnum Hden) as Hup.
  assert (Hlg : log2_ratio num den = (Z.of_N a - 1)%Z).
  { set (lg := log2_ratio num den) in *.
    unfold pow2_num, pow2_den in Hlog, Hup.
    destruct (Z.lt_trichotomy lg (Z.of_N a - 1)) as [Hsmall | [Heq | Hbig]];
      [exfalso | exact Heq | exfalso].
    - destruct (Z.le_gt_cases 0 (lg + 1)) as [Hpos | Hneg].
      + replace (Z.to_N (- (lg + 1))) with 0 in Hup by lia.
        rewrite N.pow_0_r, N.mul_1_r in Hup.
        assert (Hpows : 2 * 2 ^ Z.to_N (lg + 1) <= 2 ^ a).
        { rewrite <- N.pow_succ_r'. apply N.pow_le_mono_r; [discriminate | lia]. }
        nia.
      + replace (Z.to_N (lg + 1)) with 0 in Hup by lia.
        rewrite N.pow_0_r, N.mul_1_r in Hup.
        assert (Hpows : 2 <= 2 ^ Z.to_N (- (lg + 1))).
        { change 2 with (2 ^ 1) at 1.
          apply N.pow_le_mono_r; [discriminate | lia]. }
        nia.
    - replace (Z.to_N (- lg)) with 0 in Hlog by lia.
      rewrite N.pow_0_r, N.mul_1_r in Hlog.
      assert (Hpows : 2 ^ a <= 2 ^ Z.to_N lg)
        by (apply N.pow_le_mono_r; [discriminate | lia]).
      nia. }
  unfold round64.
  destruct (N.eqb_spec num 0) as [-> | _]; [now apply N.lt_irrefl in Hnum |].
  rewrite Hlg.
  set (e := Z.max (Z.of_N a - 1 - 52) (-1074)).
  assert (He : e = (Z.of_N a - 53)%Z) by lia.
  pose proof (pow2_split e a ltac:(lia)) as Hsplit.
  replace (Z.to_N (Z.of_N a - e)) with 53 in Hsplit by lia.
  pose proof (pow2_num_pos e) as Hpn. pose proof (pow2_den_pos e) as Hpd.
  set (n0 := num * pow2_den e). set (d0 := den * pow2_num e).
  assert (Hd0 : 0 < d0) by now apply N.mul_pos_pos.
  assert (H1 : n0 < d0 * 2 ^ 53).
  { subst n0 d0. rewrite <- N.mul_assoc, <- Hsplit, N.mul_assoc.
    now apply N.mul_lt_mono_pos_r. }
  assert (H2 : d0 * (2 ^ 54 - 1) <= 2 * n0).
  { apply (N.mul_le_mono_pos_r _ _ (2 ^ 53)); [reflexivity |].
    subst n0 d0.
    replace (den * pow2_num e * (2 ^ 54 - 1) * 2 ^ 53)
      with (den * (pow2_num e * 2 ^ 53) * (2 ^ 54 - 1)) by ring.
    rewrite <- Hsplit.
    replace (2 * (num * pow2_den e) * 2 ^ 53)
      with (num * 2 ^ 54 * pow2_den e)
      by (change (2 ^ 54) with (2 * 2 ^ 53); ring).
    replace (den * (2 ^ a * pow2_den e) * (2 ^ 54 - 1))
      with (den * (2 ^ a * (2 ^ 54 - 1)) * pow2_den e) by ring.
    now apply N.mul_le_mono_r. }
  pose proof (N.div_mod n0 d0 ltac:(lia)) as Hdiv.
  pose proof (N.mod_lt n0 d0 ltac:(lia)) as Hmod.
  set (q := n0 / d0) in *. set (r := n0 mod d0) in *.
  assert (Hq : q = 2 ^ 53 - 1).
  { assert (Hqlt : q < 2 ^ 53).
    { apply N.Div0.div_lt_upper_bound. exact H1. }
    assert (Hqge : 2 ^ 53 - 1 <= q).
    { change (2 ^ 54 - 1) with (2 * (2 ^ 53 - 1) + 1) in H2.
      generalize dependent (2 ^ 53 - 1). intros m Hm. nia. }
    change (2 ^ 53) with (N.succ (2 ^ 53 - 1)) in Hqlt. lia. }
  assert (Hr : d0 <= 2 * r).
  { rewrite Hq in Hdiv.
    change (2 ^ 54 - 1) with (2 * (2 ^ 53 - 1) + 1) in H2.
    generalize dependent (2 ^ 53 - 1). intros m; intros. nia. }
  cbv zeta.
  assert (Hup' : (d0 <? 2 * r) || ((2 * r =? d0) && N.odd q) = true).
  { destruct (N.ltb_spec d0 (2 * r)) as [_ | Hge]; [reflexivity |].
    replace (2 * r =? d0) with true by (symmetry; apply N.eqb_eq; lia).
    rewrite Hq. reflexivity. }
  rewrite Hup', Hq.
  change (2 ^ 53 - 1 + 1) with (2 ^ 53).
  destruct (1024 <=? Z.of_N (N.log2 (2 ^ 53)) + e)%Z; [exact I |].
  split; [exact Hpd |].
  rewrite (N.mul_comm (pow2_den e)), Hsplit. lia.
Qed.

Lemma log2_ratio_exact (n b den : N) :
  0 < n -> 0 < den ->
  log2_ratio (n * 2 ^ b * den) den = Z.of_N (N.log2 n + b).
Proof.
  intros Hn Hden.
  destruct (log2_bounds n Hn) as [Hlow Hhigh].
  assert (Hpow : 0 < 2 ^ b)
    by (apply N.neq_0_lt_0, N.pow_nonzero; discriminate).
  assert (Hscaled : 0 < n * 2 ^ b) by now apply N.mul_pos_pos.
  assert (Hlog : N.log2 (n * 2 ^ b) = b + N.log2 n)
    by (apply N.log2_mul_pow2; [exact Hn | apply N.le_0_l]).
  pose proof (N.log2_mul_below (n * 2 ^ b) den Hscaled Hden) as Hbelow.
  pose proof (N.log2_mul_above (n * 2 ^ b) den (N.le_0_l _) (N.le_0_l _))
    as Habove.
  rewrite Hlog in Hbelow, Habove.
  unfold log2_ratio.
  set (c := (Z.of_N (N.log2 (n * 2 ^ b * den)) - Z.of_N (N.log2 den))%Z).
  assert (Hc : c = Z.of_N (N.log2 n + b)
               \/ c = Z.of_N (N.log2 n + b + 1)) by lia.
  unfold pow2_num, pow2_den.
  destruct Hc as [-> | ->].
  - replace (Z.to_N (- Z.of_N (N.log2 n + b))) with 0 by lia.
    rewrite N2Z.id, N.pow_0_r, N.mul_1_r.
    destruct (N.leb_spec (den * 2 ^ (N.log2 n + b)) (n * 2 ^ b * den))
      as [_ | Hcontra]; [reflexivity |].
    exfalso. apply (N.lt_irrefl (n * 2 ^ b * den)).
    apply N.lt_le_trans with (1 := Hcontra).
    rewrite N.pow_add_r, (N.mul_comm den).
    apply N.mul_le_mono_r. now apply N.mul_le_mono_r.
  - replace (Z.to_N (- Z.of_N (N.log2 n + b + 1))) with 0 by lia.
    rewrite N2Z.id, N.pow_0_r, N.mul_1_r.
    destruct (N.leb_spec (den * 2 ^ (N.log2 n + b + 1)) (n * 2 ^ b * den))
      as [Hcontra | _]; [| lia].
    exfalso. apply (N.lt_irrefl (n * 2 ^ b * den)).
    apply N.lt_le_trans with (2 := Hcontra).
    rewrite (N.mul_comm den). apply N.mul_lt_mono_pos_r; [exact Hden |].
    replace (N.log2 n + b + 1) with ((N.log2 n + 1) + b) by lia.
    rewrite N.pow_add_r. now apply N.mul_lt_mono_pos_r.
Qed.

(** A number [n * 2^b] with [n] below [2^53] is a float: rounding it
    changes nothing. *)
Lemma round64_exact (n b den : N) :
  n < 2 ^ 53 -> 0 < den -> N.log2 n + b < 1024 ->
  exists vd, 0 < vd /\ round64 (n * 2 ^ b * den) den = Finite (n * 2 ^ b * vd) vd.
Proof.
  intros Hsmall Hden Hrange.
  destruct (N.eq_0_gt_0_cases n) as [-> | Hn].
  { exists 1. split; [reflexivity |]. reflexivity. }
  assert (Hpow : 0 < 2 ^ b)
    by (apply N.neq_0_lt_0, N.pow_nonzero; discriminate).
  assert (Hln : N.log2 n < 53) by now apply N.log2_lt_pow2.
  unfold round64.
  destruct (N.eqb_spec (n * 2 ^ b * den) 0) as [H0 | _].
  { exfalso. apply N.eq_mul_0 in H0. destruct H0 as [H0 | H0]; [| lia].
    apply N.eq_mul_0 in H0. lia. }
  rewrite (log2_ratio_exact n b den Hn Hden).
  set (e := Z.max (Z.of_N (N.log2 n + b) - 52) (-1074)).
  assert (He : e = (Z.of_N (N.log2 n + b) - 52)%Z) by lia.
  assert (Hsplit : 2 ^ b * pow2_den e = pow2_num e * 2 ^ (52 - N.log2 n)).
  { rewrite (pow2_split e b) by lia. f_equal. f_equal. lia. }
  set (q := n * 2 ^ (52 - N.log2 n)).
  assert (Hn0 : n * 2 ^ b * den * pow2_den e = q * (den * pow2_num e)).
  { subst q.
    replace (n * 2 ^ b * den * pow2_den e)
      with (n * den * (2 ^ b * pow2_den e)) by lia.
    rewrite Hsplit. lia. }
  assert (Hd0 : den * pow2_num e <> 0).
  { apply N.neq_mul_0. split; [lia |].
    pose proof (pow2_num_pos e). lia. }
  cbv zeta. rewrite Hn0.
  rewrite (N.div_mul q _ Hd0), (N.Div0.mod_mul q _).
  replace (den * pow2_num e <? 2 * 0) with false
    by (symmetry; apply N.ltb_ge; apply N.le_0_l).
  replace (2 * 0 =? den * pow2_num e) with false
    by (symmetry; apply N.eqb_neq; lia).
  cbn [orb andb].
  assert (Hlogq : N.log2 q = 52).
  { subst q. rewrite N.log2_mul_pow2; [lia | exact Hn | apply N.le_0_l]. }
  rewrite Hlogq.
  destruct (Z.leb_spec 1024 (Z.of_N 52 + e)) as [Hover | _]; [lia |].
  exists (pow2_den e). split; [apply pow2_den_pos |].
  f_equal. subst q.
  replace (n * 2 ^ b * pow2_den e) with (n * (2 ^ b * pow2_den e)) by lia.
  rewrite Hsplit. lia.
Qed.

Lemma first_char_differs (p : ascii -> bool) (c d : ascii) (s t : string) :
  p c = true -> p d = false -> (String c s =? String d t)%string = false.
Proof.
  intros Hc Hd. cbn [String.eqb].
  destruct (Ascii.eqb_spec c d) as [-> |]; [congruence | reflexivity].
Qed.

Lemma isspace_not_nr_char (c : ascii) :
  PyStr.isspace c = true -> is_nr_char c = false.
Proof.
  destruct c as [[] [] [] [] [] [] [] []]; intros H;
    first [reflexivity | discriminate H].
Qed.

Lemma lstrip_white_space (ws s : string) :
  PyStr.all_chars PyStr.isspace ws = true ->
  PyStr.lstrip (ws ++ s) = PyStr.lstrip s.
Proof.
  induction ws as [| c ws IH]; [reflexivity |].
  cbn [PyStr.all_chars append]. intros H.
  apply andb_true_iff in H. destruct H as [Hc Hws].
  cbn [PyStr.lstrip]. rewrite Hc. now apply IH.
Qed.

(** What the parser needs of a suffix of the table. *)
Lemma byte_unit_facts (sfx : string) (k : N) :
  In (sfx, k) byte_units ->
  PyStr.lstrip sfx = sfx
  /\ (if (sfx =? "")%string then Some 1 else unit_to_bytes sfx)
     = Some (1024 ^ k)
  /\ match sfx with
     | EmptyString => True
     | String c _ => is_nr_char c = false
     end
  /\ (sfx =? "min")%string = false
  /\ (sfx =? "max")%string = false
  /\ k <= 6.
Proof.
  cbn [byte_units In]. intros H.
  repeat (destruct H as [H | H];
          [injection H as <- <-;
           repeat split; try reflexivity; discriminate |]).
  contradiction.
Qed.

Lemma not_sentinel (nr_txt ws sfx sentinel : string) (k : N) :
  PyStr.all_chars is_nr_char nr_txt = true ->
  PyStr.all_chars PyStr.isspace ws = true ->
  In (sfx, k) byte_units ->
  sentinel = "min" \/ sentinel = "max" ->
  (nr_txt ++ ws ++ sfx =? sentinel)%string = false.
Proof.
  intros Hnr Hws Hin Hsentinel.
  destruct (byte_unit_facts sfx k Hin) as [_ [_ [_ [Hmin [Hmax _]]]]].
  destruct nr_txt as [| c nr_txt].
  - destruct ws as [| c ws].
    + destruct Hsentinel as [-> | ->]; assumption.
    + cbn [PyStr.all_chars] in Hws. apply andb_true_iff in Hws.
      destruct Hws as [Hc _].
      destruct Hsentinel as [-> | ->];
        apply (first_char_differs PyStr.isspace); first [exact Hc | reflexivity].
  - cbn [PyStr.all_chars] in Hnr. apply andb_true_iff in Hnr.
    destruct Hnr as [Hc _].
    destruct Hsentinel as [-> | ->];
      apply (first_char_differs is_nr_char); first [exact Hc | reflexivity].
Qed.

(** A number text, white space and a suffix of the table: the parser
    reads the number, and multiplies it by the multiplier of the
    suffix. *)
Lemma text_to_bytes_parts (nr_txt ws sfx : string) (k : N) :
  PyStr.all_chars is_nr_char nr_txt = true ->
  PyStr.all_chars PyStr.isspace ws = true ->
  In (sfx, k) byte_units ->
  text_to_bytes (nr_txt ++ ws ++ sfx) =
  (nr <- text_to_nr nr_txt ;;
   Some (clamped (int_of_product nr (1024 ^ k)))).
Proof.
  intros Hnr Hws Hin.
  unfold text_to_bytes.
  rewrite (not_sentinel nr_txt ws sfx "min" k Hnr Hws Hin) by now left.
  rewrite (not_sentinel nr_txt ws sfx "max" k Hnr Hws Hin) by now right.
  destruct (byte_unit_facts sfx k Hin) as [Hstrip [Hmult [Hfirst _]]].
  rewrite (span_app_stop is_nr_char nr_txt (ws ++ sfx) Hnr).
  - rewrite (lstrip_white_space ws sfx Hws), Hstrip, Hmult. reflexivity.
  - destruct ws as [| c ws]; [exact Hfirst |].
    cbn [PyStr.all_chars] in Hws. apply andb_true_iff in Hws.
    destruct Hws as [Hc _]. cbn [append]. now apply isspace_not_nr_char.
Qed.

Lemma clamped_bounded (product : option N) : clamped product <= ulong_max.
Proof.
  destruct product as [bytes |]; [apply N.le_min_r | apply N.le_refl].
Qed.

Lemma text_to_bytes_bounded (txt : string) (v : N) :
  text_to_bytes txt = Some v -> v <= ulong_max.
Proof.
  unfold text_to_bytes.
  destruct (txt =? "min")%string.
  { intros [= <-]. discriminate. }
  destruct (txt =? "max")%string.
  { intros [= <-]. apply N.le_refl. }
  destruct (span is_nr_char txt) as [nr_txt rest].
  intros H.
  apply bind_Some in H. destruct H as [nr [_ H]].
  apply bind_Some in H. destruct H as [mult [_ H]].
  injection H as <-. apply (clamped_bounded (int_of_product nr mult)).
Qed.

Lemma pow_1024 (k : N) : 1024 ^ k = 2 ^ (10 * k).
Proof. now rewrite N.pow_mul_r. Qed.

(** The float of a multiplier [2^b]. *)
Lemma round64_pow2 (b : N) :
  b < 1024 ->
  exists vd, 0 < vd /\ round64 (2 ^ b) 1 = Finite (2 ^ b * vd) vd.
Proof.
  intros Hb.
  destruct (round64_exact 1 b 1) as [vd [Hvd Hround]];
    [reflexivity | reflexivity | exact Hb |].
  exists vd. split; [exact Hvd |].
  now rewrite !N.mul_1_l, N.mul_1_r in Hround.
Qed.

(** A float of integral value [n] below [2^53], times [1024^k]: the
    product is exact. *)
Lemma int_of_product_exact (mantissa n k : N) (places : nat) :
  mantissa = n * 10 ^ N.of_nat places ->
  n < 2 ^ 53 -> k <= 6 ->
  int_of_product (NrFloat mantissa places) (1024 ^ k) = Some (n * 1024 ^ k).
Proof.
  intros -> Hn Hk.
  assert (Hlog : N.log2 n < 53).
  { destruct (N.eq_0_gt_0_cases n) as [-> | Hpos]; [reflexivity |].
    now apply N.log2_lt_pow2. }
  assert (Hden : 0 < 10 ^ N.of_nat places)
    by (apply N.neq_0_lt_0, N.pow_nonzero; discriminate).
  unfold int_of_product. rewrite pow_1024.
  destruct (round64_exact n 0 (10 ^ N.of_nat places) Hn Hden)
    as [vd1 [Hvd1 Hround1]]; [lia |].
  rewrite N.pow_0_r, !N.mul_1_r in Hround1. rewrite Hround1.
  destruct (round64_pow2 (10 * k)) as [vd2 [Hvd2 Hround2]]; [lia |].
  rewrite Hround2. cbn [float_mul].
  replace (n * vd1 * (2 ^ (10 * k) * vd2))
    with (n * 2 ^ (10 * k) * (vd1 * vd2)) by ring.
  destruct (round64_exact n (10 * k) (vd1 * vd2) Hn)
    as [vd3 [Hvd3 Hround3]]; [now apply N.mul_pos_pos | lia |].
  rewrite Hround3. cbn [float_trunc].
  rewrite N.div_mul by lia. reflexivity.
Qed.

(** A float whose exact product with [1024^k] reaches [2^64 - 1]: the
    float product reaches [2^64], or is infinite. *)
Lemma int_of_product_clamped (mantissa k : N) (places : nat) :
  k <= 6 ->
  (2 ^ 64 - 1) * 10 ^ N.of_nat places <= mantissa * 1024 ^ k ->
  clamped (int_of_product (NrFloat mantissa places) (1024 ^ k)) = ulong_max.
Proof.
  intros Hk Hexceeds.
  assert (Hden : 0 < 10 ^ N.of_nat places)
    by (apply N.neq_0_lt_0, N.pow_nonzero; discriminate).
  assert (Hpow : 0 < 2 ^ (10 * k))
    by (apply N.neq_0_lt_0, N.pow_nonzero; discriminate).
  assert (Hsplit : 2 ^ 64 = 2 ^ (64 - 10 * k) * 2 ^ (10 * k)).
  { rewrite <- N.pow_add_r. f_equal. lia. }
  rewrite pow_1024 in *.
  assert (Hfirst : 10 ^ N.of_nat places * (2 ^ (64 - 10 * k) * (2 ^ 54 - 1))
                   <= mantissa * 2 ^ 54).
  { apply (N.mul_le_mono_pos_r _ _ (2 ^ (10 * k)) Hpow).
    replace (10 ^ N.of_nat places * (2 ^ (64 - 10 * k) * (2 ^ 54 - 1))
             * 2 ^ (10 * k))
      with (2 ^ (64 - 10 * k) * 2 ^ (10 * k) * (2 ^ 54 - 1)
            * 10 ^ N.of_nat places) by ring.
    rewrite <- Hsplit.
    replace (mantissa * 2 ^ 54 * 2 ^ (10 * k))
      with (2 ^ 54 * (mantissa * 2 ^ (10 * k))) by ring.
    apply N.le_trans
      with (2 ^ 54 * ((2 ^ 64 - 1) * 10 ^ N.of_nat places));
      [| now apply N.mul_le_mono_l].
    rewrite N.mul_assoc. apply N.mul_le_mono_r. discriminate. }
  unfold int_of_product.
  pose proof (round64_lower_near mantissa (10 ^ N.of_nat places)
                (64 - 10 * k) Hden Hfirst) as Hlow1.
  destruct (round64 mantissa (10 ^ N.of_nat places)) as [vn1 vd1 |];
    [| reflexivity].
  destruct Hlow1 as [Hvd1 Hlow1].
  destruct (round64_pow2 (10 * k)) as [vd2 [Hvd2 Hround2]]; [lia |].
  rewrite Hround2. cbn [float_mul].
  assert (Hsecond : vd1 * vd2 * 2 ^ 64 <= vn1 * (2 ^ (10 * k) * vd2)).
  { rewrite Hsplit.
    replace (vd1 * vd2 * (2 ^ (64 - 10 * k) * 2 ^ (10 * k)))
      with (vd1 * 2 ^ (64 - 10 * k) * (2 ^ (10 * k) * vd2)) by ring.
    now apply N.mul_le_mono_r. }
  pose proof (round64_lower _ _ 64 (N.mul_pos_pos _ _ Hvd1 Hvd2) Hsecond)
    as Hlow3.
  destruct (round64 (vn1 * (2 ^ (10 * k) * vd2)) (vd1 * vd2))
    as [vn3 vd3 |]; [| reflexivity].
  destruct Hlow3 as [Hvd3 Hlow3].
  cbn [float_trunc clamped]. apply N.min_r.
  apply N.le_trans with (2 ^ 64); [discriminate |].
  apply N.div_le_lower_bound; [lia | exact Hlow3].
Qed.

(** [2^z2 / 2^z1 = 2^(z2 - z1)], on the fractions. *)
Lemma pow2_ratio (z1 z2 : Z) :
  (z1 <= z2)%Z ->
  pow2_num z2 * pow2_den z1
  = pow2_num z1 * pow2_den z2 * 2 ^ Z.to_N (z2 - z1).
Proof.
  intros Hle. unfold pow2_num, pow2_den.
  rewrite <- !N.pow_add_r. f_equal. lia.
Qed.

(** [2^z <= num / den] goes down with [z]. *)
Lemma pow2_le_ratio_mono (num den : N) (z1 z2 : Z) :
  (z1 <= z2)%Z ->
  den * pow2_num z2 <= num * pow2_den z2 ->
  den * pow2_num z1 <= num * pow2_den z1.
Proof.
  intros Hle H2.
  pose proof (pow2_den_pos z2) as Hpd.
  apply (N.mul_le_mono_pos_r _ _ (pow2_den z2) Hpd).
  apply N.le_trans with (den * (pow2_num z2 * pow2_den z1)).
  - rewrite (pow2_ratio z1 z2 Hle).
    assert (Hpow : 1 <= 2 ^ Z.to_N (z2 - z1)).
    { pose proof (N.pow_nonzero 2 (Z.to_N (z2 - z1))) as Hnz. lia. }
    rewrite <- N.mul_assoc. apply N.mul_le_mono_l.
    rewrite <- N.mul_assoc. apply N.mul_le_mono_l.
    rewrite <- (N.mul_1_r (pow2_den z2)) at 1.
    now apply N.mul_le_mono_l.
  - replace (den * (pow2_num z2 * pow2_den z1))
      with (den * pow2_num z2 * pow2_den z1) by ring.
    replace (num * pow2_den z1 * pow2_den z2)
      with (num * pow2_den z2 * pow2_den z1) by ring.
    now apply N.mul_le_mono_r.
Qed.

(** [log2_ratio num den] is the one [z] with [2^z <= num / den < 2^(z+1)]. *)
Lemma log2_ratio_unique (num den : N) (z : Z) :
  0 < num -> 0 < den ->
  den * pow2_num z <= num * pow2_den z ->
  num * pow2_den (z + 1) < den * pow2_num (z + 1) ->
  log2_ratio num den = z.
Proof.
  intros Hnum Hden Hlow Hhigh.
  pose proof (log2_ratio_le num den Hnum Hden) as Hlog.
  pose proof (log2_ratio_lt num den Hnum Hden) as Hup.
  set (lg := log2_ratio num den) in *.
  destruct (Z.lt_trichotomy lg z) as [Hlt | [Heq | Hgt]];
    [exfalso | exact Heq | exfalso].
  - pose proof (pow2_le_ratio_mono num den (lg + 1) z ltac:(lia) Hlow). lia.
  - pose proof (pow2_le_ratio_mono num den (z + 1) lg ltac:(lia) Hlog). lia.
Qed.

(** The rounding, as its mantissa [m] and exponent [e]: [m * 2^e] is at
    most half a unit [2^e] away from [num / den]; [m] has at most 53 bits,
    and when the exponent is not the least one, exactly 53. *)
Lemma round64_spec (num den : N) :
  0 < num -> 0 < den ->
  let e := Z.max (log2_ratio num den - 52) (-1074) in
  let n0 := num * pow2_den e in
  let d0 := den * pow2_num e in
  exists m,
    round64 num den
    = (if (1024 <=? Z.of_N (N.log2 m) + e)%Z then Infinite
       else Finite (m * pow2_num e) (pow2_den e))
    /\ 2 * (m * d0) <= 2 * n0 + d0
    /\ 2 * n0 <= 2 * (m * d0) + d0
    /\ m <= 2 ^ 53
    /\ (e = (log2_ratio num den - 52)%Z -> d0 * 2 ^ 52 <= n0).
Proof.
  intros Hnum Hden.
  pose proof (log2_ratio_le num den Hnum Hden) as Hlog.
  pose proof (log2_ratio_lt num den Hnum Hden) as Hup.
  unfold round64.
  destruct (N.eqb_spec num 0) as [-> | _]; [now apply N.lt_irrefl in Hnum |].
  set (lg := log2_ratio num den) in *.
  set (e := Z.max (lg - 52) (-1074)).
  cbv zeta.
  pose proof (pow2_num_pos e) as Hpn. pose proof (pow2_den_pos e) as Hpd.
  set (n0 := num * pow2_den e). set (d0 := den * pow2_num e).
  assert (Hd0 : 0 < d0) by now apply N.mul_pos_pos.
  assert (Hbelow : n0 < d0 * 2 ^ 53).
  { pose proof (pow2_den_pos (lg + 1)) as Hpl.
    apply (N.mul_lt_mono_pos_r (pow2_den (lg + 1)) _ _ Hpl).
    subst n0 d0.
    destruct (Z.le_gt_cases e (lg + 1)) as [Hle | Hgt].
    - pose proof (pow2_ratio e (lg + 1) Hle) as Hratio.
      apply N.lt_le_trans with (den * pow2_num (lg + 1) * pow2_den e).
      + replace (num * pow2_den e * pow2_den (lg + 1))
          with (num * pow2_den (lg + 1) * pow2_den e) by ring.
        now apply N.mul_lt_mono_pos_r.
      + rewrite <- N.mul_assoc, Hratio.
        replace (den * pow2_num e * 2 ^ 53 * pow2_den (lg + 1))
          with (den * (pow2_num e * pow2_den (lg + 1) * 2 ^ 53)) by ring.
        apply N.mul_le_mono_l. apply N.mul_le_mono_l.
        apply N.pow_le_mono_r; [discriminate | lia].
    - pose proof (pow2_ratio (lg + 1) e ltac:(lia)) as Hratio.
      apply N.lt_le_trans with (den * pow2_num (lg + 1) * pow2_den e).
      + replace (num * pow2_den e * pow2_den (lg + 1))
          with (num * pow2_den (lg + 1) * pow2_den e) by ring.
        now apply N.mul_lt_mono_pos_r.
      + replace (den * pow2_num e * 2 ^ 53 * pow2_den (lg + 1))
          with (den * (pow2_num e * pow2_den (lg + 1)) * 2 ^ 53) by ring.
        rewrite Hratio.
        pose proof (N.pow_nonzero 2 (Z.to_N (e - (lg + 1)))) as Hnz.
        generalize dependent (2 ^ Z.to_N (e - (lg + 1))). intros w; intros.
        generalize (pow2_num (lg + 1)) (pow2_den e). intros u v. nia. }
  pose proof (N.div_mod n0 d0 ltac:(lia)) as Hdiv.
  pose proof (N.mod_lt n0 d0 ltac:(lia)) as Hmod.
  assert (Hq : n0 / d0 < 2 ^ 53)
    by (apply N.Div0.div_lt_upper_bound; exact Hbelow).
  set (q := n0 / d0) in *. set (r := n0 mod d0) in *.
  exists (if (d0 <? 2 * r) || ((2 * r =? d0) && N.odd q) then q + 1 else q).
  split; [reflexivity |].
  assert (Hnormal : e = (lg - 52)%Z -> d0 * 2 ^ 52 <= n0).
  { intros He. subst n0 d0.
    pose proof (pow2_ratio e lg ltac:(lia)) as Hratio.
    replace (Z.to_N (lg - e)) with 52 in Hratio by lia.
    pose proof (pow2_den_pos lg) as Hpl.
    apply (N.mul_le_mono_pos_r _ _ (pow2_den lg) Hpl).
    replace (den * pow2_num e * 2 ^ 52 * pow2_den lg)
      with (den * (pow2_num e * pow2_den lg * 2 ^ 52)) by ring.
    rewrite <- Hratio.
    replace (den * (pow2_num lg * pow2_den e))
      with (den * pow2_num lg * pow2_den e) by ring.
    replace (num * pow2_den e * pow2_den lg)
      with (num * pow2_den lg * pow2_den e) by ring.
    now apply N.mul_le_mono_r. }
  destruct (N.ltb_spec d0 (2 * r)) as [Hround | Hround]; cbn [orb].
  - repeat split; [nia | nia | lia | exact Hnormal].
  - destruct (N.eqb_spec (2 * r) d0) as [Htie | Hno]; cbn [andb].
    + destruct (N.odd q); repeat split;
        first [exact Hnormal | lia | nia].
    + repeat split; [nia | nia | lia | exact Hnormal].
Qed.

(** A number [m * 2^z] with [m] below [2^53] and [z] not below the least
    exponent is a float: rounding keeps its value, unless it is too large
    for a float. *)
Lemma round64_dyadic (m : N) (z : Z) (num den : N) :
  0 < m -> m < 2 ^ 53 -> (-1074 <= z)%Z -> 0 < den ->
  num * pow2_den z = m * pow2_num z * den ->
  match round64 num den with
  | Finite vn vd => 0 < vd /\ vn * den = num * vd
  | Infinite => 2 ^ 64 * den <= num
  end.
Proof.
  intros Hm Hsmall Hz Hden Hvalue.
  pose proof (pow2_num_pos z) as Hpnz. pose proof (pow2_den_pos z) as Hpdz.
  assert (Hnum : 0 < num).
  { destruct (N.eq_0_gt_0_cases num) as [-> | Hpos]; [| exact Hpos].
    exfalso. rewrite N.mul_0_l in Hvalue. symmetry in Hvalue.
    apply N.eq_mul_0 in Hvalue. destruct Hvalue as [H0 | H0]; [| lia].
    apply N.eq_mul_0 in H0. lia. }
  destruct (log2_bounds m Hm) as [Hlow Hhigh].
  assert (Hlm : N.log2 m < 53) by now apply N.log2_lt_pow2.
  set (lm := Z.of_N (N.log2 m)).
  assert (Hlg : log2_ratio num den = (lm + z)%Z).
  { apply log2_ratio_unique; [exact Hnum | exact Hden | |].
    - pose proof (pow2_ratio z (lm + z) ltac:(lia)) as Hratio.
      replace (Z.to_N (lm + z - z)) with (N.log2 m) in Hratio by lia.
      apply (N.mul_le_mono_pos_r _ _ (pow2_den z) Hpdz).
      replace (den * pow2_num (lm + z) * pow2_den z)
        with (den * (pow2_num (lm + z) * pow2_den z)) by ring.
      rewrite Hratio.
      replace (num * pow2_den (lm + z) * pow2_den z)
        with (num * pow2_den z * pow2_den (lm + z)) by ring.
      rewrite Hvalue.
      replace (den * (pow2_num z * pow2_den (lm + z) * 2 ^ N.log2 m))
        with (2 ^ N.log2 m * (pow2_num z * den * pow2_den (lm + z))) by ring.
      replace (m * pow2_num z * den * pow2_den (lm + z))
        with (m * (pow2_num z * den * pow2_den (lm + z))) by ring.
      now apply N.mul_le_mono_r.
    - pose proof (pow2_ratio z (lm + z + 1) ltac:(lia)) as Hratio.
      replace (Z.to_N (lm + z + 1 - z)) with (N.log2 m + 1) in Hratio by lia.
      apply (N.mul_lt_mono_pos_r (pow2_den z) _ _ Hpdz).
      replace (den * pow2_num (lm + z + 1) * pow2_den z)
        with (den * (pow2_num (lm + z + 1) * pow2_den z)) by ring.
      rewrite Hratio.
      replace (num * pow2_den (lm + z + 1) * pow2_den z)
        with (num * pow2_den z * pow2_den (lm + z + 1)) by ring.
      rewrite Hvalue.
      replace (den * (pow2_num z * pow2_den (lm + z + 1) * 2 ^ (N.log2 m + 1)))
        with (2 ^ (N.log2 m + 1) * (pow2_num z * den * pow2_den (lm + z + 1)))
        by ring.
      replace (m * pow2_num z * den * pow2_den (lm + z + 1))
        with (m * (pow2_num z * den * pow2_den (lm + z + 1))) by ring.
      apply N.mul_lt_mono_pos_r; [| exact Hhigh].
      apply N.mul_pos_pos; [now apply N.mul_pos_pos | apply pow2_den_pos]. }
  unfold round64.
  destruct (N.eqb_spec num 0) as [-> | _]; [now apply N.lt_irrefl in Hnum |].
  rewrite Hlg.
  set (e := Z.max (lm + z - 52) (-1074)).
  assert (He : (e <= z)%Z) by lia.
  pose proof (pow2_num_pos e) as Hpn. pose proof (pow2_den_pos e) as Hpd.
  pose proof (pow2_ratio e z He) as Hratio.
  set (q := m * 2 ^ Z.to_N (z - e)).
  assert (Hn0 : num * pow2_den e = q * (den * pow2_num e)).
  { apply (N.mul_cancel_r _ _ (pow2_den z)); [lia |].
    replace (num * pow2_den e * pow2_den z)
      with (num * pow2_den z * pow2_den e) by ring.
    rewrite Hvalue. subst q.
    replace (m * pow2_num z * den * pow2_den e)
      with (m * den * (pow2_num z * pow2_den e)) by ring.
    rewrite Hratio. ring. }
  assert (Hd0 : den * pow2_num e <> 0) by (apply N.neq_mul_0; lia).
  cbv zeta. rewrite Hn0.
  rewrite (N.div_mul q _ Hd0), (N.Div0.mod_mul q _).
  replace (den * pow2_num e <? 2 * 0) with false
    by (symmetry; apply N.ltb_ge; apply N.le_0_l).
  replace (2 * 0 =? den * pow2_num e) with false
    by (symmetry; apply N.eqb_neq; lia).
  cbn [orb andb].
  assert (Hlogq : N.log2 q = Z.to_N (z - e) + N.log2 m).
  { subst q. apply N.log2_mul_pow2; [exact Hm | apply N.le_0_l]. }
  rewrite Hlogq.
  destruct (Z.leb_spec 1024 (Z.of_N (Z.to_N (z - e) + N.log2 m) + e))
    as [Hover | _].
  - assert (Hbig : (64 <= z)%Z) by lia.
    unfold pow2_num, pow2_den in Hvalue.
    replace (Z.to_N (- z)) with 0 in Hvalue by lia.
    rewrite N.pow_0_r, N.mul_1_r in Hvalue. rewrite Hvalue.
    apply N.mul_le_mono_r.
    apply N.le_trans with (1 * 2 ^ Z.to_N z);
      [| apply N.mul_le_mono_r; lia].
    rewrite N.mul_1_l. apply N.pow_le_mono_r; [discriminate | lia].
  - split; [exact Hpd |].
    rewrite Hn0. ring.
Qed.

(** A float times the float of [2^b]: the product keeps its value, unless
    it is too large for a float. *)
Lemma float_mul_pow2 (m : N) (e : Z) (b vd2 : N) :
  m <= 2 ^ 53 -> (-1074 <= e)%Z -> 0 < vd2 ->
  match float_mul (Finite (m * pow2_num e) (pow2_den e))
                  (Finite (2 ^ b * vd2) vd2) with
  | Finite vn vd => 0 < vd /\ vn * pow2_den e = m * pow2_num e * 2 ^ b * vd
  | Infinite => 2 ^ 64 * pow2_den e <= m * pow2_num e * 2 ^ b
  end.
Proof.
  intros Hm He Hvd2. cbn [float_mul].
  pose proof (pow2_num_pos e) as Hpn. pose proof (pow2_den_pos e) as Hpd.
  assert (Hden : 0 < pow2_den e * vd2) by now apply N.mul_pos_pos.
  destruct (N.eq_0_gt_0_cases m) as [-> | Hpos].
  { rewrite !N.mul_0_l. unfold round64. cbn [N.eqb].
    split; [reflexivity | reflexivity]. }
  set (num := m * pow2_num e * (2 ^ b * vd2)).
  set (den := pow2_den e * vd2) in *.
  assert (Hdyadic : match round64 num den with
                    | Finite vn vd => 0 < vd /\ vn * den = num * vd
                    | Infinite => 2 ^ 64 * den <= num
                    end).
  { apply N.lt_eq_cases in Hm. destruct Hm as [Hlt | ->].
    - apply (round64_dyadic m (e + Z.of_N b)); try assumption; [lia |].
      pose proof (pow2_ratio e (e + Z.of_N b) ltac:(lia)) as Hratio.
      replace (Z.to_N (e + Z.of_N b - e)) with b in Hratio by lia.
      subst num den.
      replace (m * pow2_num (e + Z.of_N b) * (pow2_den e * vd2))
        with (m * vd2 * (pow2_num (e + Z.of_N b) * pow2_den e)) by ring.
      rewrite Hratio. ring.
    - apply (round64_dyadic 1 (e + Z.of_N b + 53));
        [reflexivity | reflexivity | lia | exact Hden |].
      pose proof (pow2_ratio e (e + Z.of_N b + 53) ltac:(lia)) as Hratio.
      replace (Z.to_N (e + Z.of_N b + 53 - e)) with (b + 53) in Hratio by lia.
      rewrite N.pow_add_r in Hratio.
      subst num den.
      replace (1 * pow2_num (e + Z.of_N b + 53) * (pow2_den e * vd2))
        with (vd2 * (pow2_num (e + Z.of_N b + 53) * pow2_den e)) by ring.
      rewrite Hratio. ring. }
  destruct (round64 num den) as [vn vd |].
  - destruct Hdyadic as [Hvd Hvalue]. split; [exact Hvd |].
    apply (N.mul_cancel_r _ _ vd2); [lia |].
    subst num den.
    replace (vn * pow2_den e * vd2) with (vn * (pow2_den e * vd2)) by ring.
    rewrite Hvalue. ring.
  - apply (N.mul_le_mono_pos_r _ _ vd2 Hvd2).
    subst num den.
    replace (2 ^ 64 * pow2_den e * vd2) with (2 ^ 64 * (pow2_den e * vd2))
      by ring.
    apply N.le_trans with (1 := Hdyadic). apply N.eq_le_incl. ring.
Qed.

(** Half a unit of a mantissa of 53 bits is a relative [2^-53]. *)
Lemma half_unit_relative (c m d0 n0 : N) :
  2 * (m * d0) <= 2 * n0 + d0 ->
  2 * n0 <= 2 * (m * d0) + d0 ->
  d0 * c <= n0 ->
  m * d0 * (2 * c) <= n0 * (2 * c + 1)
  /\ n0 * (2 * c - 1) <= m * d0 * (2 * c).
Proof.
  intros Hup Hlow Hnormal.
  assert (Hup' : 2 * (m * d0) * c <= (2 * n0 + d0) * c)
    by now apply N.mul_le_mono_r.
  assert (Hlow' : 2 * n0 * c <= (2 * (m * d0) + d0) * c)
    by now apply N.mul_le_mono_r.
  split; [lia |].
  destruct (N.eq_0_gt_0_cases c) as [-> | Hc]; [cbn; lia |].
  replace (n0 * (2 * c - 1)) with (2 * n0 * c - n0)
    by (rewrite N.mul_sub_distr_l; lia).
  lia.
Qed.

(** The byte count of a float and a multiplier [1024^k]: the integer part
    of a number within a relative [2^-53] of the exact product, unless it
    is clamped. *)
Lemma int_of_product_near (mantissa k : N) (places : nat) :
  k <= 6 ->
  clamped (int_of_product (NrFloat mantissa places) (1024 ^ k))
  * (10 ^ N.of_nat places * 2 ^ 53)
  <= mantissa * 1024 ^ k * (2 ^ 53 + 1)
  /\ (clamped (int_of_product (NrFloat mantissa places) (1024 ^ k))
      = ulong_max
      \/ mantissa * 1024 ^ k * (2 ^ 53 - 1)
         < (clamped (int_of_product (NrFloat mantissa places) (1024 ^ k)) + 1)
           * (10 ^ N.of_nat places * 2 ^ 53)).
Proof.
  intros Hk.
  assert (Hden : 0 < 10 ^ N.of_nat places)
    by (apply N.neq_0_lt_0, N.pow_nonzero; discriminate).
  rewrite pow_1024. unfold int_of_product.
  assert (Hb : 10 * k <= 60) by lia.
  set (b := 10 * k) in *. set (D := 10 ^ N.of_nat places) in *.
  assert (Hpow : 0 < 2 ^ b)
    by (apply N.neq_0_lt_0, N.pow_nonzero; discriminate).
  assert (Hpow60 : 2 ^ b <= 2 ^ 60)
    by (apply N.pow_le_mono_r; [discriminate | exact Hb]).
  destruct (round64_pow2 b) as [vd2 [Hvd2 Hround2]]; [lia |].
  rewrite Hround2.
  destruct (N.eq_0_gt_0_cases mantissa) as [-> | Hpos].
  { assert (Hzero : clamped (float_trunc
                               (float_mul (round64 0 D)
                                          (Finite (2 ^ b * vd2) vd2))) = 0).
    { change (round64 0 D) with (Finite 0 1). cbn [float_mul].
      rewrite N.mul_0_l. reflexivity. }
    rewrite Hzero.
    split; [apply N.le_0_l |]. right. rewrite !N.mul_0_l.
    apply N.mul_pos_pos; [reflexivity |].
    apply N.mul_pos_pos; [exact Hden | reflexivity]. }
  destruct (round64_spec mantissa D Hpos Hden)
    as [m [Hround [Hup [Hlow [Hm Hnormal]]]]].
  set (e := Z.max (log2_ratio mantissa D - 52) (-1074)) in *.
  pose proof (pow2_num_pos e) as Hpn. pose proof (pow2_den_pos e) as Hpd.
  assert (Hlogm : N.log2 m <= 53).
  { change 53 with (N.log2 (2 ^ 53)). now apply N.log2_le_mono. }
  (* in the normal range, the relative error of the rounding *)
  assert (Hrel : e = (log2_ratio mantissa D - 52)%Z ->
                 m * (D * pow2_num e) * 2 ^ 53
                 <= mantissa * pow2_den e * (2 ^ 53 + 1)
                 /\ mantissa * pow2_den e * (2 ^ 53 - 1)
                    <= m * (D * pow2_num e) * 2 ^ 53).
  { intros He. change (2 ^ 53) with (2 * 2 ^ 52).
    apply half_unit_relative; [exact Hup | exact Hlow | now apply Hnormal]. }
  rewrite Hround.
  destruct (Z.leb_spec 1024 (Z.of_N (N.log2 m) + e)) as [Hover | Hfits].
  - (* the float of the number is infinite *)
    cbn [float_mul float_trunc clamped].
    split; [| now left].
    assert (He : e = (log2_ratio mantissa D - 52)%Z) by lia.
    specialize (Hnormal He).
    unfold pow2_num, pow2_den in Hnormal.
    replace (Z.to_N (- e)) with 0 in Hnormal by lia.
    rewrite N.pow_0_r, N.mul_1_r in Hnormal.
    assert (Hbig : 2 ^ 12 <= 2 ^ Z.to_N e)
      by (apply N.pow_le_mono_r; [discriminate | lia]).
    assert (Hmant : D * 2 ^ 64 <= mantissa).
    { apply N.le_trans with (2 := Hnormal).
      rewrite <- N.mul_assoc. apply N.mul_le_mono_l.
      change (2 ^ 64) with (2 ^ 12 * 2 ^ 52).
      now apply N.mul_le_mono_r. }
    apply N.le_trans with (D * 2 ^ 64 * 2 ^ 53).
    + replace (D * 2 ^ 64 * 2 ^ 53) with (2 ^ 64 * (D * 2 ^ 53)) by ring.
      apply N.mul_le_mono_r. vm_compute. discriminate.
    + apply N.le_trans with (mantissa * 2 ^ 53);
        [now apply N.mul_le_mono_r |].
      apply N.mul_le_mono; [| lia].
      rewrite <- (N.mul_1_r mantissa) at 1. apply N.mul_le_mono_l. lia.
  - pose proof (float_mul_pow2 m e b vd2 Hm ltac:(lia) Hvd2) as Hmul.
    destruct (float_mul (Finite (m * pow2_num e) (pow2_den e))
                        (Finite (2 ^ b * vd2) vd2)) as [vn3 vd3 |].
    + (* a finite product *)
      destruct Hmul as [Hvd3 Hvalue].
      cbn [float_trunc clamped].
      pose proof (N.Div0.mul_div_le vn3 vd3) as Hfloor.
      pose proof (N.mul_succ_div_gt vn3 vd3 ltac:(lia)) as Hceil.
      set (v0 := vn3 / vd3) in *.
      assert (Hfloor' : v0 * pow2_den e <= m * pow2_num e * 2 ^ b).
      { apply (N.mul_le_mono_pos_r _ _ vd3 Hvd3). rewrite <- Hvalue.
        replace (v0 * pow2_den e * vd3) with (vd3 * v0 * pow2_den e) by ring.
        now apply N.mul_le_mono_r. }
      assert (Hceil' : m * pow2_num e * 2 ^ b < (v0 + 1) * pow2_den e).
      { apply (N.mul_lt_mono_pos_r vd3 _ _ Hvd3). rewrite <- Hvalue.
        replace ((v0 + 1) * pow2_den e * vd3)
          with (vd3 * N.succ v0 * pow2_den e) by (rewrite <- N.add_1_r; ring).
        now apply N.mul_lt_mono_pos_r. }
      assert (Hboth : v0 * (D * 2 ^ 53) <= mantissa * 2 ^ b * (2 ^ 53 + 1)
                      /\ mantissa * 2 ^ b * (2 ^ 53 - 1)
                         < (v0 + 1) * (D * 2 ^ 53)).
      { destruct (Z.eq_dec e (log2_ratio mantissa D - 52)) as [He | He].
        - destruct (Hrel He) as [Hrel_up Hrel_low]. split.
          + apply (N.mul_le_mono_pos_r _ _ (pow2_den e) Hpd).
            apply N.le_trans
              with (m * pow2_num e * 2 ^ b * (D * 2 ^ 53)).
            * replace (v0 * (D * 2 ^ 53) * pow2_den e)
                with (v0 * pow2_den e * (D * 2 ^ 53)) by ring.
              now apply N.mul_le_mono_r.
            * replace (m * pow2_num e * 2 ^ b * (D * 2 ^ 53))
                with (m * (D * pow2_num e) * 2 ^ 53 * 2 ^ b) by ring.
              replace (mantissa * 2 ^ b * (2 ^ 53 + 1) * pow2_den e)
                with (mantissa * pow2_den e * (2 ^ 53 + 1) * 2 ^ b) by ring.
              now apply N.mul_le_mono_r.
          + apply (N.mul_lt_mono_pos_r (pow2_den e) _ _ Hpd).
            apply N.le_lt_trans
              with (m * pow2_num e * 2 ^ b * (D * 2 ^ 53)).
            * replace (m * pow2_num e * 2 ^ b * (D * 2 ^ 53))
                with (m * (D * pow2_num e) * 2 ^ 53 * 2 ^ b) by ring.
              replace (mantissa * 2 ^ b * (2 ^ 53 - 1) * pow2_den e)
                with (mantissa * pow2_den e * (2 ^ 53 - 1) * 2 ^ b) by ring.
              now apply N.mul_le_mono_r.
            * replace ((v0 + 1) * (D * 2 ^ 53) * pow2_den e)
                with ((v0 + 1) * pow2_den e * (D * 2 ^ 53)) by ring.
              apply N.mul_lt_mono_pos_r; [| exact Hceil'].
              apply N.mul_pos_pos; [exact Hden | reflexivity].
        - (* the least exponent: the product is below one *)
          assert (He' : e = (-1074)%Z) by lia.
          rewrite He' in *.
          change (pow2_num (-1074)) with 1 in *.
          change (pow2_den (-1074)) with (2 ^ 115 * 2 ^ 959) in *.
          rewrite !N.mul_1_r in *.
          assert (Hsmall : m * 2 ^ b <= 2 ^ 113).
          { change (2 ^ 113) with (2 ^ 53 * 2 ^ 60).
            now apply N.mul_le_mono. }
          assert (Hv0 : v0 = 0).
          { destruct (N.eq_0_gt_0_cases v0) as [H0 | Hv]; [exact H0 |].
            exfalso.
            assert (H1 : 1 * (2 ^ 115 * 2 ^ 959) <= v0 * (2 ^ 115 * 2 ^ 959))
              by (apply N.mul_le_mono_r; lia).
            assert (H2 : 2 ^ 115 * 1 <= 2 ^ 115 * 2 ^ 959)
              by (apply N.mul_le_mono_l; discriminate).
            assert (H3 : 2 ^ 113 < 2 ^ 115 * 1) by reflexivity.
            lia. }
          rewrite Hv0. split; [apply N.le_0_l |].
          rewrite N.add_0_l, N.mul_1_l.
          (* [2 * mantissa * 2^1074 <= (2 * m + 1) * D] *)
          assert (Hm' : 2 * (m * D) + D <= 2 ^ 55 * D).
          { replace (2 * (m * D) + D) with ((2 * m + 1) * D) by ring.
            apply N.mul_le_mono_r.
            apply N.le_trans with (2 * 2 ^ 53 + 1); [lia | discriminate]. }
          assert (Hchain : mantissa * (2 ^ 115 * 2 ^ 959) <= 2 ^ 54 * D).
          { apply (N.mul_le_mono_pos_l _ _ 2); [reflexivity |].
            rewrite (N.mul_assoc 2 (2 ^ 54)).
            change (2 * 2 ^ 54) with (2 ^ 55).
            now apply N.le_trans with (2 := Hm'). }
          assert (Hscale : mantissa * 2 ^ b * (2 ^ 53 - 1) * 2 ^ 2
                           <= mantissa * (2 ^ 115 * 1)).
          { replace (mantissa * 2 ^ b * (2 ^ 53 - 1) * 2 ^ 2)
              with (mantissa * (2 ^ b * ((2 ^ 53 - 1) * 2 ^ 2))) by ring.
            apply N.mul_le_mono_l.
            apply N.le_trans with (2 ^ 60 * ((2 ^ 53 - 1) * 2 ^ 2));
              [now apply N.mul_le_mono_r | vm_compute; discriminate]. }
          assert (Hgrow : mantissa * (2 ^ 115 * 1)
                          <= mantissa * (2 ^ 115 * 2 ^ 959)).
          { apply N.mul_le_mono_l. apply N.mul_le_mono_l. discriminate. }
          assert (Hfinal : mantissa * 2 ^ b * (2 ^ 53 - 1) * 2 ^ 2
                           <= 2 ^ 54 * D) by lia.
          replace (2 ^ 54 * D) with (2 * (D * 2 ^ 53)) in Hfinal
            by (change (2 ^ 54) with (2 * 2 ^ 53); ring).
          change (2 ^ 2) with 4 in Hfinal.
          assert (Hc : 0 < D * 2 ^ 53)
            by (apply N.mul_pos_pos; [exact Hden | reflexivity]).
          lia. }
      destruct Hboth as [Hupper Hlower].
      destruct (N.le_gt_cases v0 ulong_max) as [Hin | Hout].
      * rewrite (N.min_l _ _ Hin). split; [exact Hupper | now right].
      * rewrite (N.min_r _ _ (N.lt_le_incl _ _ Hout)).
        split; [| now left].
        apply N.le_trans with (2 := Hupper).
        apply N.mul_le_mono_r. now apply N.lt_le_incl.
    + (* an infinite product *)
      cbn [float_trunc clamped]. split; [| now left].
      destruct (Z.eq_dec e (log2_ratio mantissa D - 52)) as [He | He].
      * destruct (Hrel He) as [Hrel_up _].
        apply (N.mul_le_mono_pos_r _ _ (pow2_den e) Hpd).
        apply N.le_trans with (2 ^ 64 * pow2_den e * (D * 2 ^ 53)).
        -- replace (ulong_max * (D * 2 ^ 53) * pow2_den e)
             with (ulong_max * (pow2_den e * (D * 2 ^ 53))) by ring.
           rewrite <- N.mul_assoc. apply N.mul_le_mono_r. vm_compute.
           discriminate.
        -- apply N.le_trans with (m * pow2_num e * 2 ^ b * (D * 2 ^ 53));
             [now apply N.mul_le_mono_r |].
           replace (m * pow2_num e * 2 ^ b * (D * 2 ^ 53))
             with (m * (D * pow2_num e) * 2 ^ 53 * 2 ^ b) by ring.
           replace (mantissa * 2 ^ b * (2 ^ 53 + 1) * pow2_den e)
             with (mantissa * pow2_den e * (2 ^ 53 + 1) * 2 ^ b) by ring.
           now apply N.mul_le_mono_r.
      * exfalso.
        assert (He' : e = (-1074)%Z) by lia.
        rewrite He' in Hmul.
        change (pow2_num (-1074)) with 1 in Hmul.
        change (pow2_den (-1074)) with (2 ^ 114 * 2 ^ 960) in Hmul.
        rewrite N.mul_1_r in Hmul.
        assert (Hsmall : m * 2 ^ b <= 2 ^ 113).
        { change (2 ^ 113) with (2 ^ 53 * 2 ^ 60).
          now apply N.mul_le_mono. }
        assert (H1 : 2 ^ 64 * (2 ^ 114 * 1) <= 2 ^ 64 * (2 ^ 114 * 2 ^ 960)).
        { apply N.mul_le_mono_l. apply N.mul_le_mono_l. discriminate. }
        assert (H3 : 2 ^ 113 < 2 ^ 64 * (2 ^ 114 * 1)) by reflexivity.
        lia.
Qed.

Lemma suffix_pair_units (a b : string) (n : N) :
  In (a, b, n) suffix_pairs -> In (a, n) byte_units /\ In (b, n) byte_units.
Proof.
  cbn [suffix_pairs In]. intros H.
  repeat (destruct H as [H | H];
          [injection H as <- <- <-; split; cbn [byte_units In]; auto 20 |]).
  contradiction.
Qed.

(** C5.  The byte parser, on a number followed by optional white space and
    an optional suffix ([byte_units] has the suffixes, the absent one
    included, with the exponent [k] of their multiplier [1024^k]):
    - an integer [n] gives [n * 1024^k], and [2^64 - 1] when that is
      larger, whether the suffix is spaced, abuts or is absent;
    - so does a number with a decimal point whose value is an integer [n]
      below [2^53];
    - a number with a decimal point whose product with [1024^k] reaches
      [2^64 - 1] gives [2^64 - 1];
    - a number with a decimal point, of value [mantissa / 10^places],
      gives the integer part [v] of a number within a relative [2^-53]
      (one rounding of a float) of the exact product [x] of the value and
      [1024^k]: [v <= x * (1 + 2^-53)], and [x * (1 - 2^-53) < v + 1]
      unless [v] is the clamp [2^64 - 1];
    - every number that [text_to_nr] reads gives a result, and no result
      is above [2^64 - 1]: nothing fails and nothing wraps;
    - the two suffixes of a pair give the same result on every text;
    - the three values of the specification. *)
Theorem text_to_bytes_synonyms_and_clamp :
  (forall (n : N) (ws sfx : string) (k : N),
     PyStr.all_chars PyStr.isspace ws = true ->
     In (sfx, k) byte_units ->
     text_to_bytes (PyStr.str_of_N n ++ ws ++ sfx)
     = Some (N.min (n * 1024 ^ k) (2 ^ 64 - 1)))
  /\ (forall (nr_txt ws sfx : string) (n k : N),
        PyStr.all_chars is_nr_char nr_txt = true ->
        PyStr.all_chars PyStr.isspace ws = true ->
        In (sfx, k) byte_units ->
        text_to_nr nr_txt = Some (NrInt n) ->
        text_to_bytes (nr_txt ++ ws ++ sfx)
        = Some (N.min (n * 1024 ^ k) (2 ^ 64 - 1)))
  /\ (forall (nr_txt ws sfx : string) (mantissa n k : N) (places : nat),
        PyStr.all_chars is_nr_char nr_txt = true ->
        PyStr.all_chars PyStr.isspace ws = true ->
        In (sfx, k) byte_units ->
        text_to_nr nr_txt = Some (NrFloat mantissa places) ->
        mantissa = n * 10 ^ N.of_nat places ->
        n < 2 ^ 53 ->
        text_to_bytes (nr_txt ++ ws ++ sfx)
        = Some (N.min (n * 1024 ^ k) (2 ^ 64 - 1)))
  /\ (forall (nr_txt ws sfx : string) (mantissa k : N) (places : nat),
        PyStr.all_chars is_nr_char nr_txt = true ->
        PyStr.all_chars PyStr.isspace ws = true ->
        In (sfx, k) byte_units ->
        text_to_nr nr_txt = Some (NrFloat mantissa places) ->
        (2 ^ 64 - 1) * 10 ^ N.of_nat places <= mantissa * 1024 ^ k ->
        text_to_bytes (nr_txt ++ ws ++ sfx) = Some (2 ^ 64 - 1))
  /\ (forall (nr_txt ws sfx : string) (mantissa k : N) (places : nat),
        PyStr.all_chars is_nr_char nr_txt = true ->
        PyStr.all_chars PyStr.isspace ws = true ->
        In (sfx, k) byte_units ->
        text_to_nr nr_txt = Some (NrFloat mantissa places) ->
        exists v,
          text_to_bytes (nr_txt ++ ws ++ sfx) = Some v
          /\ v * (10 ^ N.of_nat places * 2 ^ 53)
             <= mantissa * 1024 ^ k * (2 ^ 53 + 1)
          /\ (v = 2 ^ 64 - 1
              \/ mantissa * 1024 ^ k * (2 ^ 53 - 1)
                 < (v + 1) * (10 ^ N.of_nat places * 2 ^ 53)))
  /\ (forall (nr_txt ws sfx : string) (k : N) (nr : number),
        PyStr.all_chars is_nr_char nr_txt = true ->
        PyStr.all_chars PyStr.isspace ws = true ->
        In (sfx, k) byte_units ->
        text_to_nr nr_txt = Some nr ->
        exists v,
          text_to_bytes (nr_txt ++ ws ++ sfx) = Some v /\ v <= 2 ^ 64 - 1)
  /\ (forall (txt : string) (v : N),
        text_to_bytes txt = Some v -> v <= 2 ^ 64 - 1)
  /\ (forall (nr_txt ws a b : string) (n : N),
        PyStr.all_chars is_nr_char nr_txt = true ->
        PyStr.all_chars PyStr.isspace ws = true ->
        In (a, b, n) suffix_pairs ->
        text_to_bytes (nr_txt ++ ws ++ a) = text_to_bytes (nr_txt ++ ws ++ b))
  /\ text_to_bytes "2 MiB" = Some (2 * 2 ^ 20)
  /\ text_to_bytes "2 M" = Some (2 * 2 ^ 20)
  /\ text_to_bytes "16384.000 PiB" = Some (2 ^ 64 - 1).
Proof.
  assert (Hint : forall (nr_txt ws sfx : string) (n k : N),
             PyStr.all_chars is_nr_char nr_txt = true ->
             PyStr.all_chars PyStr.isspace ws = true ->
             In (sfx, k) byte_units ->
             text_to_nr nr_txt = Some (NrInt n) ->
             text_to_bytes (nr_txt ++ ws ++ sfx)
             = Some (N.min (n * 1024 ^ k) (2 ^ 64 - 1))).
  { intros nr_txt ws sfx n k Hnr Hws Hin Hval.
    rewrite (text_to_bytes_parts nr_txt ws sfx k Hnr Hws Hin), Hval.
    reflexivity. }
  split; [| split; [exact Hint |]].
  { intros n ws sfx k Hws Hin.
    apply Hint; [| exact Hws | exact Hin | apply text_to_nr_digits].
    apply (all_chars_impl PyStr.isdigit); [apply isdigit_is_nr_char |].
    apply str_of_N_digits. }
  split.
  { intros nr_txt ws sfx mantissa n k places Hnr Hws Hin Hval Hm Hn.
    destruct (byte_unit_facts sfx k Hin) as [_ [_ [_ [_ [_ Hk]]]]].
    rewrite (text_to_bytes_parts nr_txt ws sfx k Hnr Hws Hin), Hval.
    cbn [bind].
    now rewrite (int_of_product_exact mantissa n k places Hm Hn Hk). }
  split.
  { intros nr_txt ws sfx mantissa k places Hnr Hws Hin Hval Hexceeds.
    destruct (byte_unit_facts sfx k Hin) as [_ [_ [_ [_ [_ Hk]]]]].
    rewrite (text_to_bytes_parts nr_txt ws sfx k Hnr Hws Hin), Hval.
    cbn [bind].
    now rewrite (int_of_product_clamped mantissa k places Hk Hexceeds). }
  split.
  { intros nr_txt ws sfx mantissa k places Hnr Hws Hin Hval.
    destruct (byte_unit_facts sfx k Hin) as [_ [_ [_ [_ [_ Hk]]]]].
    rewrite (text_to_bytes_parts nr_txt ws sfx k Hnr Hws Hin), Hval.
    cbn [bind]. eexists. split; [reflexivity |].
    exact (int_of_product_near mantissa k places Hk). }
  split.
  { intros nr_txt ws sfx k nr Hnr Hws Hin Hval.
    rewrite (text_to_bytes_parts nr_txt ws sfx k Hnr Hws Hin), Hval.
    eexists. split; [reflexivity |].
    apply (clamped_bounded (int_of_product nr (1024 ^ k))). }
  split; [exact text_to_bytes_bounded |].
  split.
  { intros nr_txt ws a b n Hnr Hws Hin.
    destruct (suffix_pair_units a b n Hin) as [Ha Hb].
    rewrite (text_to_bytes_parts nr_txt ws a n Hnr Hws Ha).
    now rewrite (text_to_bytes_parts nr_txt ws b n Hnr Hws Hb). }
  repeat split; vm_compute; reflexivity.
Qed.

End BytesParser.

(** * The theorems at concrete inputs

    The decoders run on the instance [example_collaborators]. *)

Lemma field_count_gate_witness :
  In (length (PyStr.split example_line_v0)) [7; 9; 12; 17; 18]%nat
  /\ damo_single_line_scheme_to_damos "min max" "1" =
     (None, Some "expected [7, 9, 12, 17, 18] fields, but 'min max'").
Proof.
  split.
  - apply (proj1 (field_count_gate example_line_v0 "0") example_scheme_v0).
    vm_compute. reflexivity.
  - apply (proj2 (field_count_gate "min max" "1")).
    vm_compute. intros H.
    repeat (destruct H as [H | H]; [discriminate H |]). exact H.
Defined.

Lemma v4_field_layout_witness :
  field_as text_to_ms (PyStr.split example_line_v4) 7
  = Some (time_ms (quotas example_scheme_v4))
  /\ time_ms (quotas example_scheme_v4) = 10%Z
  /\ sz_bytes (quotas example_scheme_v4) = (2 ^ 30)%Z
  /\ time_ms (quotas example_scheme_v3)
     = time_ms (quotas default_damos_scheme)
  /\ sz_bytes (quotas example_scheme_v3) = (2 ^ 30)%Z.
Proof.
  assert (H4 : damo_single_line_scheme_to_damos example_line_v4 "0"
               = (Some example_scheme_v4, None))
    by (vm_compute; reflexivity).
  assert (H3 : damo_single_line_scheme_to_damos example_line_v3 "0"
               = (Some example_scheme_v3, None))
    by (vm_compute; reflexivity).
  pose proof (v4_field_layout example_line_v4 "0" example_scheme_v4 H4)
    as L4.
  pose proof (v4_field_layout example_line_v3 "0" example_scheme_v3 H3)
    as L3.
  cbv zeta in L4, L3.
  destruct L4 as [L4 _]. destruct L3 as [_ L3].
  assert (E4 : length (PyStr.split example_line_v4) = 18%nat)
    by (vm_compute; reflexivity).
  assert (E3 : length (PyStr.split example_line_v3) = 17%nat)
    by (vm_compute; reflexivity).
  specialize (L4 E4). specialize (L3 E3).
  split; [exact (proj1 L4) |].
  split; [reflexivity |].
  split; [reflexivity |].
  split; [exact (proj1 L3) | reflexivity].
Defined.

Lemma standalone_versions_agree_witness :
  damo_single_line_scheme_to_damos example_line_v4 "0"
  = (Some example_scheme_v4, None)
  /\ damo_single_line_scheme_to_damos example_line_v1 "0"
     = (Some example_scheme_v1, None)
  /\ damo_single_line_scheme_to_damos example_bad_line "0"
     = (None, Some "wrong input field").
Proof.
  split; [| split].
  - apply (proj1 (standalone_versions_agree example_line_v4 "0"
                    fields_to_v4_scheme eq_refl)).
    vm_compute. reflexivity.
  - apply (proj1 (standalone_versions_agree example_line_v1 "0"
                    fields_to_v1_scheme eq_refl)).
    vm_compute. reflexivity.
  - apply (proj2 (standalone_versions_agree example_bad_line "0"
                    fields_to_v0_scheme eq_refl)).
    vm_compute. reflexivity.
Defined.

Lemma line_decoder_drops_name_witness :
  damo_single_line_scheme_to_damos example_line_v1 "4"
  = (Some example_scheme_v1, None)
  /\ name example_scheme_v1 = "0".
Proof.
  assert (H : damo_single_line_scheme_to_damos example_line_v1 "4"
              = (Some example_scheme_v1, None))
    by (vm_compute; reflexivity).
  split; [exact H |].
  exact (line_decoder_drops_name example_line_v1 "4" example_scheme_v1 H).
Defined.

Lemma line_fallback_all_or_nothing_witness :
  (exists p err,
     In p (nonblank_lines 0
             (damo_schemes_lines_except_comments
                (input_text example_bad_document)))
     /\ decode_numbered p = (None, Some err)
     /\ damo_schemes_to_damos example_bad_document
        = Exited (fatal_message err) 1)
  /\ (exists records,
        damo_schemes_to_damos example_document
        = Returned (map Some records)
        /\ Forall2 (fun p r => decode_numbered p = (Some r, None))
             (nonblank_lines 0
                (damo_schemes_lines_except_comments
                   (input_text example_document)))
             records).
Proof.
  assert (Jbad : json_attempt
                   (damo_schemes_lines_except_comments
                      (input_text example_bad_document)) = None)
    by (vm_compute; reflexivity).
  assert (Jgood : json_attempt
                    (damo_schemes_lines_except_comments
                       (input_text example_document)) = None)
    by (vm_compute; reflexivity).
  split.
  - apply (proj1 (line_fallback_all_or_nothing example_bad_document Jbad)).
    exists (1%nat, "min max"). split; [| reflexivity].
    vm_compute. right. left. reflexivity.
  - apply (proj2 (line_fallback_all_or_nothing example_document Jgood)).
    intros p Hin. vm_compute in Hin.
    destruct Hin as [<- | [<- | []]]; vm_compute; reflexivity.
Defined.

Lemma json_scalar_reaches_line_decoder_witness :
  damo_schemes_to_damos "1" =
  Exited ("given scheme is neither file nor proper scheme string "
          ++ "(expected [7, 9, 12, 17, 18] fields, but '1')") 1.
Proof.
  apply json_scalar_reaches_line_decoder; reflexivity.
Defined.

Lemma text_to_bytes_synonyms_and_clamp_witness :
  DamoFmtStr.text_to_bytes ("16384" ++ "" ++ "PiB") = Some (2 ^ 64 - 1)%N
  /\ DamoFmtStr.text_to_bytes ("1,234" ++ " " ++ "K")
     = Some (1234 * 1024)%N
  /\ DamoFmtStr.text_to_bytes ("2.0" ++ " " ++ "PiB")
     = Some (2 * 2 ^ 50)%N
  /\ DamoFmtStr.text_to_bytes ("18446744073709551615.5" ++ "" ++ "")
     = Some (2 ^ 64 - 1)%N
  /\ (exists v,
        DamoFmtStr.text_to_bytes ("1,234.457" ++ " " ++ "G") = Some v
        /\ (v * (10 ^ 3 * 2 ^ 53) <= 1234457 * 1024 ^ 3 * (2 ^ 53 + 1))%N
        /\ (v = 2 ^ 64 - 1
            \/ 1234457 * 1024 ^ 3 * (2 ^ 53 - 1)
               < (v + 1) * (10 ^ 3 * 2 ^ 53))%N)
  /\ (exists v,
        DamoFmtStr.text_to_bytes ("0.1" ++ "" ++ "E") = Some v
        /\ (v <= 2 ^ 64 - 1)%N)
  /\ (2048 <= 2 ^ 64 - 1)%N
  /\ DamoFmtStr.text_to_bytes ("1,234.457" ++ " " ++ "G")
     = DamoFmtStr.text_to_bytes ("1,234.457" ++ " " ++ "GiB").
Proof.
  destruct text_to_bytes_synonyms_and_clamp
    as [Hdigits [Hint [Hexact [Hclamp [Hnear [Htotal [Hbound [Hsyn _]]]]]]]].
  split; [| split; [| split; [| split; [| split; [| split; [| split]]]]]].
  - apply (Hdigits 16384%N "" "PiB" 5%N); [reflexivity |].
    cbn [DamoFmtStr.byte_units In]. auto 20.
  - apply (Hint "1,234" " " "K" 1234%N 1%N); try reflexivity.
    cbn [DamoFmtStr.byte_units In]. auto 20.
  - apply (Hexact "2.0" " " "PiB" 20%N 2%N 5%N 1%nat); try reflexivity.
    cbn [DamoFmtStr.byte_units In]. auto 20.
  - apply (Hclamp "18446744073709551615.5" "" ""
             184467440737095516155%N 0%N 1%nat); try reflexivity.
    + cbn [DamoFmtStr.byte_units In]. auto 20.
    + vm_compute. discriminate.
  - apply (Hnear "1,234.457" " " "G" 1234457%N 3%N 3%nat); try reflexivity.
    cbn [DamoFmtStr.byte_units In]. auto 20.
  - apply (Htotal "0.1" "" "E" 6%N (DamoFmtStr.NrFloat 1 1)); try reflexivity.
    cbn [DamoFmtStr.byte_units In]. auto 20.
  - apply (Hbound "2 K"). vm_compute. reflexivity.
  - apply (Hsyn "1,234.457" " " "G" "GiB" 3%N); try reflexivity.
    cbn [DamoFmtStr.suffix_pairs In]. auto 20.
Defined.

Lemma format_time_ns_never_days_witness :
  exists rest,
    PyStr.split (DamoFmtStr.format_time_ns (5 * DamoFmtStr.day_ns))
    = "120" :: "h" :: rest.
Proof.
  apply (proj1 (proj2 format_time_ns_never_days) (5 * DamoFmtStr.day_ns)%N).
  vm_compute. discriminate.
Defined.

Lemma text_to_time_sums_pairs_witness :
  DamoFmtStr.text_to_time
    (DamoFmtStr.pairs_text
       [(2, ("h", 3600000000000)); (1, ("m", 60000000000));
        (2, ("s", 1000000000))]%N) 1000
  = Some 7262000000%N.
Proof.
  destruct text_to_time_sums_pairs as [_ [_ [Hpairs _]]].
  rewrite Hpairs.
  - reflexivity.
  - discriminate.
  - repeat (apply Forall_cons; [simpl; auto 10 |]). apply Forall_nil.
Defined.

(** The document decoder on a document of two schemes: the second record
    was decoded at index 4 of the lines, and both records carry the name of
    the default scheme. *)
Example example_document_names :
  damo_schemes_to_damos example_document
  = Returned [Some example_scheme_v0; Some example_scheme_v1]
  /\ name example_scheme_v0 = "0" /\ name example_scheme_v1 = "0".
Proof. repeat split; vm_compute; reflexivity. Qed.

(** * The expected values of [tests/unittest/test_fmt_str.py]

    The modelled functions give the values the unit tests expect.  A
    float that a test expects is compared as the decimal of its literal;
    the float product [int(1234.457 * (1 << 30))] is 1325488110829. *)

Example test_format_nr :
  map DamoFmtStr.format_nr [123; 1234; 1234567]%N
  = ["123"; "1,234"; "1,234,567"].
Proof. vm_compute. reflexivity. Qed.

Example test_text_to_nr :
  map DamoFmtStr.text_to_nr ["12"; "1,234"; "1,234.567"; "1,234,567"]
  = [Some (DamoFmtStr.NrInt 12); Some (DamoFmtStr.NrInt 1234);
     Some (DamoFmtStr.NrFloat 1234567 3);
     Some (DamoFmtStr.NrInt 1234567)].
Proof. vm_compute. reflexivity. Qed.

Example test_format_time :
  map DamoFmtStr.format_time_ns
    [123; 123456; 123000; 123456789; 123000000; 123456789123;
     123000000000; 60000000000; 119000000000; 119123000000;
     7319123000000; 7200000000000; 266519123000000; 266400000000000;
     106624800000000000]%N
  = ["123 ns"; "123.456 us"; "123 us"; "123.457 ms"; "123 ms";
     "2 m 3.457 s"; "2 m 3 s"; "1 m"; "1 m 59 s"; "1 m 59.123 s";
     "2 h 1 m 59.123 s"; "2 h"; "74 h 1 m 59.123 s"; "74 h"; "29618 h"].
Proof. vm_compute. reflexivity. Qed.

Example test_text_to_time :
  map DamoFmtStr.text_to_ns ["1"; "1 ns"; "max"]
  = [Some 1; Some 1; Some DamoFmtStr.ulong_max]%N
  /\ map DamoFmtStr.text_to_us
       ["1 us"; "1234 us"; "1,234 us"; "1234us"; "1 ms"; "1 m 2 s";
        "2 h 1 m 2 s"; "3 d 2 h 1 m 2 s"; "134"; "max"]
     = [Some 1; Some 1234; Some 1234; Some 1234; Some 1000;
        Some (62 * 1000 * 1000);
        Some (7262 * 1000 * 1000);
        Some (3 * 24 * 60 * 60 * 1000 * 1000 + 7262 * 1000 * 1000);
        Some 134; Some DamoFmtStr.ulong_max]%N
  /\ map DamoFmtStr.text_to_ms ["134"; "max"]
     = [Some 134; Some DamoFmtStr.ulong_max]%N.
Proof. repeat split; vm_compute; reflexivity. Qed.

Example test_text_to_percent :
  map DamoFmtStr.text_to_percent
    ["10%"; "12.34%"; "12.34 %"; "1,234.567 %"; "1,234.567,89 %"]
  = [Some (DamoFmtStr.NrInt 10); Some (DamoFmtStr.NrFloat 1234 2);
     Some (DamoFmtStr.NrFloat 1234 2);
     Some (DamoFmtStr.NrFloat 1234567 3);
     Some (DamoFmtStr.NrFloat 123456789 5)].
Proof. vm_compute. reflexivity. Qed.

Example test_text_to_bytes :
  map DamoFmtStr.text_to_bytes
    ["123"; "123 B"; "2 K"; "2 KiB"; "2 M"; "2 MiB"; "2 G"; "1,234.457 G";
     "1,234.457 GiB"; "1,234.457"; "2 GiB"; "2 T"; "2 TiB"; "2 P"; "2 PiB";
     "2.0 PiB"; "16384.000 PiB"; "2.0 EiB"]
  = [Some 123; Some 123; Some 2048; Some 2048; Some (2 * 2 ^ 20);
     Some (2 * 2 ^ 20); Some (2 * 2 ^ 30); Some 1325488110829;
     Some 1325488110829; Some 1234; Some (2 * 2 ^ 30); Some (2 * 2 ^ 40);
     Some (2 * 2 ^ 40); Some (2 * 2 ^ 50); Some (2 * 2 ^ 50);
     Some (2 * 2 ^ 50); Some (2 ^ 64 - 1); Some (2 * 2 ^ 60)]%N.
Proof. vm_compute. reflexivity. Qed.

(** * The string operations on small inputs *)

Example split_words :
  PyStr.split "  min   max 80 " = ["min"; "max"; "80"].
Proof. reflexivity. Qed.

Example split_on_newline :
  PyStr.split_on PyStr.newline (document ["a"; ""; "b"]) = ["a"; ""; "b"].
Proof. reflexivity. Qed.

Example strip_comment : PyStr.strip "  # a b  " = "# a b".
Proof. reflexivity. Qed.

Example repr_expected_lengths :
  PyStr.repr_nat_list expected_lengths = "[7, 9, 12, 17, 18]".
Proof. reflexivity. Qed.

Example int_values :
  map PyStr.int ["-1_000"; "12a"; ""; "007"; " +5 "; "1__0"]
  = [Some (-1000)%Z; None; None; Some 7%Z; Some 5%Z; None].
Proof. vm_compute. reflexivity. Qed.

(** * Further properties of the line decoder *)

Section LineDecoderMore.
Context {VT : ValueTypes} {C : Collaborators}.

(** Under the gate on the field count, the [try] block always returns or
    raises: the last [return] of the function is never reached. *)
Lemma single_line_try_returns (fields : list string) :
  In (length fields) [7; 9; 12; 17; 18]%nat ->
  single_line_try fields <> Some None.
Proof.
  intros Hin H. unfold single_line_try in H.
  destruct (access_pattern_of_fields fields) as [ap |]; cbn [bind] in H;
    [| discriminate H].
  destruct (item fields 6) as [f6 |]; cbn [bind] in H; [| discriminate H].
  simpl in Hin.
  destruct Hin as [E | [E | [E | [E | [E | []]]]]]; rewrite <- E in H;
    cbn [Nat.eqb Nat.leb] in H;
    repeat match type of H with
           | context [bind ?e _] => destruct e; cbn [bind] in H
           end;
    discriminate H.
Qed.

(** X1.  The line decoder has two diagnostics only.  A line of an accepted
    field count fails with "wrong input field"; a line of another field
    count fails with the message that lists the accepted counts.  The
    message "unsupported version of single line scheme" is never
    returned. *)
Theorem line_decoder_diagnostics (line name err : string) :
  snd (damo_single_line_scheme_to_damos line name) = Some err ->
  (In (length (PyStr.split line)) [7; 9; 12; 17; 18]%nat
   /\ err = "wrong input field")
  \/ (~ In (length (PyStr.split line)) [7; 9; 12; 17; 18]%nat
      /\ err = "expected [7, 9, 12, 17, 18] fields, but '" ++ line ++ "'").
Proof.
  intros H.
  destruct (in_dec Nat.eq_dec (length (PyStr.split line))
              [7; 9; 12; 17; 18]%nat) as [Hin | Hnin].
  - left. split; [exact Hin |].
    rewrite (single_line_after_gate line name Hin) in H.
    pose proof (single_line_try_returns _ Hin) as Hret.
    destruct (single_line_try (PyStr.split line)) as [[scheme |] |];
      simpl in H.
    + discriminate H.
    + now contradiction Hret.
    + now injection H as <-.
  - right. split; [exact Hnin |].
    rewrite (single_line_rejected line name Hnin) in H.
    now injection H as <-.
Qed.

(** X2.  The line decoder returns a record and no diagnostic, or a
    diagnostic and no record: never both, and never neither. *)
Theorem line_decoder_record_xor_error (line name : string) :
  match damo_single_line_scheme_to_damos line name with
  | (Some _, None) | (None, Some _) => True
  | (Some _, Some _) | (None, None) => False
  end.
Proof.
  destruct (single_line_shape line name) as [[scheme H] | [err H]];
    rewrite H; exact I.
Qed.

(** X3.  Under an accepted field count the result depends on the fields
    only: two lines with the same fields, however they are spaced and
    whatever name is passed, decode to the same result. *)
Theorem line_decoder_depends_on_fields (line1 line2 name1 name2 : string) :
  PyStr.split line1 = PyStr.split line2 ->
  In (length (PyStr.split line1)) [7; 9; 12; 17; 18]%nat ->
  damo_single_line_scheme_to_damos line1 name1
  = damo_single_line_scheme_to_damos line2 name2.
Proof.
  intros Hsplit Hin.
  rewrite (single_line_after_gate line1 name1 Hin).
  rewrite Hsplit in Hin.
  rewrite (single_line_after_gate line2 name2 Hin).
  now rewrite Hsplit.
Qed.

End LineDecoderMore.

(** * Properties of the layouts and of the standalone functions *)

Section Layouts.
Context {VT : ValueTypes} {C : Collaborators}.

Ltac unbind :=
  repeat match goal with
         | H : context [bind ?e _] |- _ =>
             destruct e eqn:?; cbn [bind] in H; try discriminate H
         | H : Some _ = Some _ |- _ => injection H as H; subst
         end.

Ltac fields_of_length fields H :=
  repeat (destruct fields as [| ? fields]; simpl in H; try discriminate H).

Lemma layer_v1_head (fields : list string) (s s' : Damos) :
  layer_v1 fields s = Some s' ->
  access_pattern s' = access_pattern s /\ action s' = action s
  /\ filters s' = filters s.
Proof. unfold layer_v1. intros H. unbind. repeat split. Qed.

Lemma layer_v2_head (fields : list string) (s s' : Damos) :
  layer_v2 fields s = Some s' ->
  access_pattern s' = access_pattern s /\ action s' = action s
  /\ filters s' = filters s.
Proof. unfold layer_v2. intros H. unbind. repeat split. Qed.

Lemma layer_v3_head (fields : list string) (s s' : Damos) :
  layer_v3 fields s = Some s' ->
  access_pattern s' = access_pattern s /\ action s' = action s
  /\ filters s' = filters s.
Proof. unfold layer_v3. intros H. unbind. repeat split. Qed.

Lemma layer_v4_head (fields : list string) (s s' : Damos) :
  layer_v4 fields s = Some s' ->
  access_pattern s' = access_pattern s /\ action s' = action s
  /\ filters s' = filters s.
Proof. unfold layer_v4. intros H. unbind. repeat split. Qed.

Lemma optional_layer_head (b : bool) (layer : Damos -> option Damos)
  (s s' : Damos) :
  (forall t t', layer t = Some t' ->
     access_pattern t' = access_pattern t /\ action t' = action t
     /\ filters t' = filters t) ->
  (if b then layer s else Some s) = Some s' ->
  access_pattern s' = access_pattern s /\ action s' = action s
  /\ filters s' = filters s.
Proof.
  intros Hlayer H. destruct b.
  - now apply Hlayer.
  - injection H as <-. repeat split.
Qed.

(** What every [return] of the [try] block hands back: the access pattern
    of fields 0 to 5, the lowered field 6, and the filters of the default
    scheme. *)
Lemma single_line_try_head (fields : list string) (scheme : Damos) :
  single_line_try fields = Some (Some scheme) ->
  exists ap f6,
    access_pattern_of_fields fields = Some ap
    /\ item fields 6 = Some f6
    /\ access_pattern scheme = ap
    /\ action scheme = PyStr.lower f6
    /\ filters scheme = filters default_damos_scheme.
Proof.
  unfold single_line_try. intros H.
  destruct (access_pattern_of_fields fields) as [ap |]; cbn [bind] in H;
    [| discriminate H].
  destruct (item fields 6) as [f6 |]; cbn [bind] in H; [| discriminate H].
  exists ap, f6. split; [reflexivity |]. split; [reflexivity |].
  destruct (length fields =? 7)%nat.
  { injection H as <-. repeat split. }
  destruct (length fields <=? 17)%nat.
  { apply bind_Some in H. destruct H as [s1 [H1 H]].
    apply bind_Some in H. destruct H as [s2 [H2 H]].
    apply bind_Some in H. destruct H as [s3 [H3 H]].
    injection H as <-.
    apply optional_layer_head in H1; [| apply layer_v1_head].
    apply optional_layer_head in H2; [| apply layer_v2_head].
    apply optional_layer_head in H3; [| apply layer_v3_head].
    destruct H1 as [A1 [B1 F1]]. destruct H2 as [A2 [B2 F2]].
    destruct H3 as [A3 [B3 F3]].
    rewrite A3, A2, A1, B3, B2, B1, F3, F2, F1. repeat split. }
  destruct (length fields =? 18)%nat; [| discriminate H].
  apply bind_Some in H. destruct H as [s4 [H4 H]].
  injection H as <-.
  apply layer_v4_head in H4. destruct H4 as [A4 [B4 F4]].
  rewrite A4, B4, F4. repeat split.
Qed.

Lemma single_line_success_try (line name : string) (scheme : Damos) :
  damo_single_line_scheme_to_damos line name = (Some scheme, None) ->
  single_line_try (PyStr.split line) = Some (Some scheme).
Proof.
  unfold damo_single_line_scheme_to_damos. intros H.
  destruct (negb _); [discriminate H |].
  destruct (single_line_try (PyStr.split line)) as [[s |] |];
    try discriminate H.
  now injection H as <-.
Qed.

(** X4.  Whatever the version, a returned record has the access pattern
    of fields 0 to 5 (sizes through [text_to_bytes], frequencies through
    [text_to_percent] with the percent unit, ages through [text_to_us]
    with the microsecond unit), the lowered field 6 as its action, and the
    filters of the default scheme. *)
Theorem pattern_and_action_layout (line name : string) (scheme : Damos) :
  damo_single_line_scheme_to_damos line name = (Some scheme, None) ->
  let fields := PyStr.split line in
  let ap := access_pattern scheme in
  field_as text_to_bytes fields 0 = Some (min_sz_bytes ap)
  /\ field_as text_to_bytes fields 1 = Some (max_sz_bytes ap)
  /\ field_as text_to_percent fields 2 = Some (min_nr_accesses ap)
  /\ field_as text_to_percent fields 3 = Some (max_nr_accesses ap)
  /\ nr_accesses_unit ap = unit_percent
  /\ field_as text_to_us fields 4 = Some (min_age ap)
  /\ field_as text_to_us fields 5 = Some (max_age ap)
  /\ age_unit ap = unit_usec
  /\ option_map PyStr.lower (item fields 6) = Some (action scheme)
  /\ filters scheme = filters default_damos_scheme.
Proof.
  intros Hok fields ap. subst fields ap.
  apply single_line_success_try in Hok.
  destruct (single_line_try_head _ _ Hok)
    as [ap [f6 [Hap [Hf6 [Eap [Eact Efil]]]]]].
  rewrite Eap, Eact, Efil, Hf6. clear Hok Eap Eact Efil Hf6.
  unfold access_pattern_of_fields in Hap. unbind.
  unfold field_as.
  repeat match goal with
         | H : item _ _ = Some _ |- _ => rewrite H; clear H
         end.
  cbn [bind]. simpl. repeat split; assumption.
Qed.

Lemma lower_char_idempotent (c : ascii) :
  PyStr.lower_char (PyStr.lower_char c) = PyStr.lower_char c.
Proof. destruct c as [[] [] [] [] [] [] [] []]; reflexivity. Qed.

Lemma lower_idempotent (s : string) :
  PyStr.lower (PyStr.lower s) = PyStr.lower s.
Proof.
  induction s as [| c s IH]; simpl; [reflexivity |].
  now rewrite lower_char_idempotent, IH.
Qed.

(** X8.  The action of a returned record is in lower case: lowering it
    again changes nothing. *)
Theorem stored_action_is_lowered (line name : string) (scheme : Damos) :
  damo_single_line_scheme_to_damos line name = (Some scheme, None) ->
  PyStr.lower (action scheme) = action scheme.
Proof.
  intros Hok. apply single_line_success_try in Hok.
  destruct (single_line_try_head _ _ Hok)
    as [ap [f6 [_ [_ [_ [Eact _]]]]]].
  rewrite Eact. apply lower_idempotent.
Qed.

Lemma single_line_success_fields (line name : string)
  (vf : list string -> option Damos) (scheme : Damos) (count : nat) :
  damo_single_line_scheme_to_damos line name = (Some scheme, None) ->
  length (PyStr.split line) = count ->
  version_function count = Some vf ->
  vf (PyStr.split line) = Some scheme.
Proof.
  intros Hok Hlen Hvf.
  apply (single_line_success_version line name); [| exact Hok].
  now rewrite Hlen.
Qed.

(** X5.  A record decoded from a line of 7 fields has the quotas and the
    watermarks of the default scheme. *)
Theorem v0_line_keeps_defaults (line name : string) (scheme : Damos) :
  damo_single_line_scheme_to_damos line name = (Some scheme, None) ->
  length (PyStr.split line) = 7%nat ->
  quotas scheme = quotas default_damos_scheme
  /\ watermarks scheme = watermarks default_damos_scheme.
Proof.
  intros Hok Hlen.
  pose proof (single_line_success_fields line name fields_to_v0_scheme
                scheme 7 Hok Hlen eq_refl) as Hvf.
  unfold fields_to_v0_scheme in Hvf. unbind. split; reflexivity.
Qed.

(** X6.  On an accepted line of 9 fields, fields 7 and 8 are the size
    budget and the reset interval of the quotas; the time budget, the
    weights and the watermarks are those of the default scheme. *)
Theorem v1_field_layout (line name : string) (scheme : Damos) :
  damo_single_line_scheme_to_damos line name = (Some scheme, None) ->
  length (PyStr.split line) = 9%nat ->
  let fields := PyStr.split line in
  let q := quotas scheme in
  let q0 := quotas default_damos_scheme in
  field_as text_to_bytes fields 7 = Some (sz_bytes q)
  /\ field_as text_to_ms fields 8 = Some (reset_interval_ms q)
  /\ time_ms q = time_ms q0
  /\ weight_sz_permil q = weight_sz_permil q0
  /\ weight_nr_accesses_permil q = weight_nr_accesses_permil q0
  /\ weight_age_permil q = weight_age_permil q0
  /\ watermarks scheme = watermarks default_damos_scheme.
Proof.
  intros Hok Hlen fields q q0. subst fields q q0.
  pose proof (single_line_success_fields line name fields_to_v1_scheme
                scheme 9 Hok Hlen eq_refl) as Hvf.
  clear Hok. remember (PyStr.split line) as fields eqn:Hfields.
  clear Hfields. fields_of_length fields Hlen.
  unfold fields_to_v1_scheme, fields_to_v0_scheme, item in Hvf.
  simpl in Hvf. unbind.
  unfold field_as, item; simpl.
  repeat split; first [assumption | reflexivity].
Qed.

(** X7.  On an accepted line of 12 fields, fields 7 and 8 are the size
    budget and the reset interval, and fields 9 to 11 the three weights;
    the time budget and the watermarks are those of the default scheme. *)
Theorem v2_field_layout (line name : string) (scheme : Damos) :
  damo_single_line_scheme_to_damos line name = (Some scheme, None) ->
  length (PyStr.split line) = 12%nat ->
  let fields := PyStr.split line in
  let q := quotas scheme in
  field_as text_to_bytes fields 7 = Some (sz_bytes q)
  /\ field_as text_to_ms fields 8 = Some (reset_interval_ms q)
  /\ field_as int fields 9 = Some (weight_sz_permil q)
  /\ field_as int fields 10 = Some (weight_nr_accesses_permil q)
  /\ field_as int fields 11 = Some (weight_age_permil q)
  /\ time_ms q = time_ms (quotas default_damos_scheme)
  /\ watermarks scheme = watermarks default_damos_scheme.
Proof.
  intros Hok Hlen fields q. subst fields q.
  pose proof (single_line_success_fields line name fields_to_v2_scheme
                scheme 12 Hok Hlen eq_refl) as Hvf.
  clear Hok. remember (PyStr.split line) as fields eqn:Hfields.
  clear Hfields. fields_of_length fields Hlen.
  unfold fields_to_v2_scheme, fields_to_v1_scheme, fields_to_v0_scheme,
    item in Hvf.
  simpl in Hvf. unbind.
  unfold field_as, item; simpl.
  repeat split; first [assumption | reflexivity].
Qed.

Lemma item_Some_length (fields : list string) (i : nat) (f : string) :
  item fields i = Some f -> (i < length fields)%nat.
Proof.
  unfold item. intros H. apply nth_error_Some. rewrite H. discriminate.
Qed.

Ltac by_item i :=
  match goal with
  | H : item _ i = Some _ |- _ =>
      apply item_Some_length in H; simpl in H; lia
  end.

Lemma v0_needs_fields (fields : list string) (scheme : Damos) :
  fields_to_v0_scheme fields = Some scheme -> (7 <= length fields)%nat.
Proof. unfold fields_to_v0_scheme. intros H. unbind. by_item 6%nat. Qed.

Lemma v1_needs_fields (fields : list string) (scheme : Damos) :
  fields_to_v1_scheme fields = Some scheme -> (9 <= length fields)%nat.
Proof. unfold fields_to_v1_scheme. intros H. unbind. by_item 8%nat. Qed.

Lemma v2_needs_fields (fields : list string) (scheme : Damos) :
  fields_to_v2_scheme fields = Some scheme -> (12 <= length fields)%nat.
Proof. unfold fields_to_v2_scheme. intros H. unbind. by_item 11%nat. Qed.

Lemma v3_needs_fields (fields : list string) (scheme : Damos) :
  fields_to_v3_scheme fields = Some scheme -> (17 <= length fields)%nat.
Proof. unfold fields_to_v3_scheme. intros H. unbind. by_item 16%nat. Qed.

Lemma v4_needs_fields (fields : list string) (scheme : Damos) :
  fields_to_v4_scheme fields = Some scheme -> (18 <= length fields)%nat.
Proof. unfold fields_to_v4_scheme. intros H. unbind. by_item 17%nat. Qed.

Lemma raises_when_short (vf : list string -> option Damos) (count : nat)
  (fields : list string) :
  (forall scheme, vf fields = Some scheme -> (count <= length fields)%nat) ->
  (length fields < count)%nat -> vf fields = None.
Proof.
  intros Hneeds Hshort. destruct (vf fields) as [scheme |] eqn:H;
    [| reflexivity].
  specialize (Hneeds scheme eq_refl). lia.
Qed.

(** X9.  The standalone functions have no gate on the field count: on a
    list that is too short for their version (fewer than 7, 9, 12, 17 or
    18 fields) they raise. *)
Theorem version_functions_raise_when_short (fields : list string) :
  ((length fields < 7)%nat -> fields_to_v0_scheme fields = None)
  /\ ((length fields < 9)%nat -> fields_to_v1_scheme fields = None)
  /\ ((length fields < 12)%nat -> fields_to_v2_scheme fields = None)
  /\ ((length fields < 17)%nat -> fields_to_v3_scheme fields = None)
  /\ ((length fields < 18)%nat -> fields_to_v4_scheme fields = None).
Proof.
  repeat split; apply raises_when_short; intros scheme.
  - apply v0_needs_fields.
  - apply v1_needs_fields.
  - apply v2_needs_fields.
  - apply v3_needs_fields.
  - apply v4_needs_fields.
Qed.

Lemma item_app (fields extra : list string) (i : nat) :
  (i < length fields)%nat -> item (fields ++ extra)%list i = item fields i.
Proof. unfold item. intros H. now apply nth_error_app1. Qed.

(** X10.  The standalone functions read the fields of their version and
    no other: fields after the 7th (9th, 12th, 17th, 18th) do not change
    what they return. *)
Theorem version_functions_ignore_extra_fields (fields extra : list string) :
  ((7 <= length fields)%nat ->
   fields_to_v0_scheme (fields ++ extra)%list = fields_to_v0_scheme fields)
  /\ ((9 <= length fields)%nat ->
      fields_to_v1_scheme (fields ++ extra)%list
      = fields_to_v1_scheme fields)
  /\ ((12 <= length fields)%nat ->
      fields_to_v2_scheme (fields ++ extra)%list
      = fields_to_v2_scheme fields)
  /\ ((17 <= length fields)%nat ->
      fields_to_v3_scheme (fields ++ extra)%list
      = fields_to_v3_scheme fields)
  /\ ((18 <= length fields)%nat ->
      fields_to_v4_scheme (fields ++ extra)%list
      = fields_to_v4_scheme fields).
Proof.
  repeat split; intros Hlen;
    unfold fields_to_v4_scheme, fields_to_v3_scheme, fields_to_v2_scheme,
      fields_to_v1_scheme, fields_to_v0_scheme, access_pattern_of_fields;
    rewrite !(item_app fields extra) by lia; reflexivity.
Qed.

Ltac step_all_binds :=
  repeat match goal with
         | |- context [bind ?e _] => destruct e; cbn [bind]
         end.

(** X11.  The layout of 18 fields is the layout of 17 fields with the
    time budget inserted as field 7: on 17 fields and a time budget that
    converts, [fields_to_v4_scheme] on the list with the budget inserted
    returns the record of [fields_to_v3_scheme] with that time budget, and
    raises when [fields_to_v3_scheme] raises. *)
Theorem v4_is_v3_with_time_budget (fields : list string) (budget : string)
  (v : Z) :
  length fields = 17%nat ->
  text_to_ms budget = Some v ->
  fields_to_v4_scheme (firstn 7 fields ++ budget :: skipn 7 fields)%list
  = option_map (set_time_ms v) (fields_to_v3_scheme fields).
Proof.
  intros Hlen Hbudget.
  fields_of_length fields Hlen.
  cbn [firstn skipn app].
  unfold fields_to_v4_scheme, fields_to_v3_scheme, fields_to_v2_scheme,
    fields_to_v1_scheme, fields_to_v0_scheme, item.
  cbn [nth_error].
  destruct (access_pattern_of_fields _) as [ap |]; cbn [bind];
    [| reflexivity].
  rewrite Hbudget. cbn [bind]. step_all_binds; reflexivity.
Qed.

End Layouts.

(** * Further properties of the document decoder *)

Section DocumentDecoderMore.
Context {VT : ValueTypes} {C : Collaborators}.

Lemma decode_lines_blank (lines : list string) :
  forall (idx : nat) (damos_list : list (option Damos)),
  (forall l, In l lines -> PyStr.strip l = "") ->
  decode_lines idx lines damos_list = Returned damos_list.
Proof.
  induction lines as [| line rest IH]; intros idx damos_list Hblank;
    [reflexivity |].
  simpl. rewrite (Hblank line (or_introl eq_refl)). simpl.
  apply IH. intros l Hl. apply Hblank. now right.
Qed.

(** X12.  A document that has only comment lines and blank lines, and that
    the JSON path does not accept, decodes to the empty list. *)
Theorem blank_document_decodes_to_nothing (damo_schemes : string) :
  let lines :=
    damo_schemes_lines_except_comments (input_text damo_schemes) in
  json_attempt lines = None ->
  (forall l, In l lines -> PyStr.strip l = "") ->
  damo_schemes_to_damos damo_schemes = Returned [].
Proof.
  intros lines Hjson Hblank.
  unfold damo_schemes_to_damos. fold (input_text damo_schemes).
  fold lines. rewrite Hjson. now apply decode_lines_blank.
Qed.

Lemma try_map_Forall2 {A B : Type} (f : A -> option B) (l : list A) :
  forall l', try_map f l = Some l' ->
  Forall2 (fun x y => f x = Some y) l l'.
Proof.
  induction l as [| x l IH]; intros l' H; simpl in H.
  - injection H as <-. constructor.
  - apply bind_Some in H. destruct H as [y [Hy H]].
    apply bind_Some in H. destruct H as [ys [Hys H]].
    injection H as <-. constructor; [exact Hy | now apply IH].
Qed.

(** X13.  When the comment-stripped text is a JSON array and the converter
    accepts each of its elements, the document decoder returns the
    converted elements, one for each element and in the order of the
    array; the line decoder has no part in the result. *)
Theorem json_array_is_converted (damo_schemes : string)
  (objs : list pyobj) (converted : list Damos) :
  let lines :=
    damo_schemes_lines_except_comments (input_text damo_schemes) in
  json_loads (PyStr.join (String PyStr.newline "") lines)
  = Some (PyList objs) ->
  try_map kvpairs_to_Damos objs = Some converted ->
  damo_schemes_to_damos damo_schemes = Returned (map Some converted)
  /\ Forall2 (fun o d => kvpairs_to_Damos o = Some d) objs converted.
Proof.
  intros lines Hloads Hconv. split; [| now apply try_map_Forall2].
  unfold damo_schemes_to_damos. fold (input_text damo_schemes).
  fold lines. unfold json_attempt. rewrite Hloads. cbn [bind py_iter].
  now rewrite Hconv.
Qed.

Lemma find_first {A : Type} (f : A -> bool) (before after : list A) (x : A) :
  (forall y, In y before -> f y = false) ->
  f x = true ->
  find f (before ++ x :: after)%list = Some x.
Proof.
  intros Hbefore Hx. induction before as [| y before IH]; simpl.
  - now rewrite Hx.
  - rewrite (Hbefore y (or_introl eq_refl)).
    apply IH. intros z Hz. apply Hbefore. now right.
Qed.

(** X14.  On the line path the decoder stops at the first line that fails:
    the message it prints carries the diagnostic of that line, whatever
    the lines after it are. *)
Theorem first_failing_line_is_reported (damo_schemes : string)
  (before after : list (nat * string)) (p : nat * string) :
  let lines :=
    damo_schemes_lines_except_comments (input_text damo_schemes) in
  json_attempt lines = None ->
  nonblank_lines 0 lines = (before ++ p :: after)%list ->
  (forall q, In q before -> fails q = false) ->
  fails p = true ->
  exists err,
    decode_numbered p = (None, Some err)
    /\ damo_schemes_to_damos damo_schemes = Exited (fatal_message err) 1.
Proof.
  intros lines Hjson Hsplit Hbefore Hp.
  assert (Hfind : find fails (nonblank_lines 0 lines) = Some p).
  { rewrite Hsplit. now apply find_first. }
  destruct (decode_lines_first_failure lines 0 [] p Hfind)
    as [err [He Hexit]].
  exists err. split; [exact He |].
  unfold damo_schemes_to_damos. fold (input_text damo_schemes).
  fold lines. now rewrite Hjson.
Qed.

(** X15.  The document decoder leaves the process in one way only: with
    status 1, after the JSON path has failed, printing the fatal message
    with the diagnostic of a line that is neither blank nor a comment and
    that the line decoder rejects. *)
Theorem exits_only_on_a_failing_line (damo_schemes printed : string)
  (status : Z) :
  damo_schemes_to_damos damo_schemes = Exited printed status ->
  let lines :=
    damo_schemes_lines_except_comments (input_text damo_schemes) in
  status = 1%Z
  /\ json_attempt lines = None
  /\ exists p err,
       In p (nonblank_lines 0 lines)
       /\ decode_numbered p = (None, Some err)
       /\ printed = fatal_message err.
Proof.
  intros Hexit lines.
  unfold damo_schemes_to_damos in Hexit. fold (input_text damo_schemes) in Hexit.
  fold lines in Hexit.
  destruct (json_attempt lines) as [l |]; [discriminate Hexit |].
  destruct (find fails (nonblank_lines 0 lines)) as [p |] eqn:Hfind.
  - destruct (decode_lines_first_failure lines 0 [] p Hfind)
      as [err [He Hrun]].
    rewrite Hrun in Hexit. injection Hexit as <- <-.
    split; [reflexivity |]. split; [reflexivity |].
    exists p, err. apply find_some in Hfind. tauto.
  - rewrite (decode_lines_no_failure lines 0 [] Hfind) in Hexit.
    discriminate Hexit.
Qed.

(** The loop on two lists of lines with the same stripped non-blank
    lines. *)
Lemma decode_lines_same_nonblank (lines1 : list string) :
  forall (lines2 : list string) (idx1 idx2 : nat)
         (damos_list : list (option Damos)),
  map snd (nonblank_lines idx1 lines1) = map snd (nonblank_lines idx2 lines2) ->
  decode_lines idx1 lines1 damos_list = decode_lines idx2 lines2 damos_list.
Proof.
  induction lines1 as [| line1 rest1 IH1].
  - intros lines2. induction lines2 as [| line2 rest2 IH2];
      intros idx1 idx2 damos_list H; [reflexivity |].
    rewrite nonblank_lines_cons in H. cbn [decode_lines].
    destruct (PyStr.strip line2 =? "")%string; [| discriminate H].
    exact (IH2 idx1 (S idx2) damos_list H).
  - intros lines2 idx1 idx2 damos_list H.
    rewrite nonblank_lines_cons in H. cbn [decode_lines].
    destruct (PyStr.strip line1 =? "")%string eqn:Hblank1.
    { now apply IH1. }
    revert idx2 H.
    induction lines2 as [| line2 rest2 IH2]; intros idx2 H;
      [discriminate H |].
    rewrite nonblank_lines_cons in H. cbn [decode_lines].
    destruct (PyStr.strip line2 =? "")%string eqn:Hblank2.
    { now apply IH2. }
    cbn [map snd] in H. injection H as Hhead Htail.
    rewrite <- Hhead.
    change (damo_single_line_scheme_to_damos (PyStr.strip line1)
              (PyStr.str_of_nat idx2))
      with (damo_single_line_scheme_to_damos (PyStr.strip line1)
              (PyStr.str_of_nat idx1)).
    destruct (damo_single_line_scheme_to_damos (PyStr.strip line1)
                (PyStr.str_of_nat idx1)) as [damos [err |]];
      [reflexivity |].
    now apply IH1.
Qed.

(** X16.  On the line path the result depends on the stripped non-blank
    non-comment lines only, in their order: comments, blank lines, the
    white space around a line and the position of a line in the document
    do not matter. *)
Theorem line_path_depends_on_nonblank_lines (doc1 doc2 : string) :
  let lines1 := damo_schemes_lines_except_comments (input_text doc1) in
  let lines2 := damo_schemes_lines_except_comments (input_text doc2) in
  json_attempt lines1 = None ->
  json_attempt lines2 = None ->
  map snd (nonblank_lines 0 lines1) = map snd (nonblank_lines 0 lines2) ->
  damo_schemes_to_damos doc1 = damo_schemes_to_damos doc2.
Proof.
  intros lines1 lines2 Hjson1 Hjson2 Hsame.
  unfold damo_schemes_to_damos.
  fold (input_text doc1). fold (input_text doc2). fold lines1. fold lines2.
  rewrite Hjson1, Hjson2. now apply decode_lines_same_nonblank.
Qed.

End DocumentDecoderMore.

(** * The further properties at concrete inputs *)

Lemma line_decoder_diagnostics_witness :
  (In (length (PyStr.split example_bad_line)) [7; 9; 12; 17; 18]%nat
   /\ "wrong input field" = "wrong input field")
  /\ (~ In (length (PyStr.split "min max")) [7; 9; 12; 17; 18]%nat
      /\ "expected [7, 9, 12, 17, 18] fields, but 'min max'"
         = "expected [7, 9, 12, 17, 18] fields, but '" ++ "min max" ++ "'").
Proof.
  assert (Hbad : snd (damo_single_line_scheme_to_damos example_bad_line "0")
                 = Some "wrong input field")
    by (vm_compute; reflexivity).
  assert (Hcount : snd (damo_single_line_scheme_to_damos "min max" "0")
                   = Some "expected [7, 9, 12, 17, 18] fields, but 'min max'")
    by (vm_compute; reflexivity).
  split.
  - destruct (line_decoder_diagnostics example_bad_line "0" _ Hbad)
      as [H | [_ H]]; [exact H | discriminate H].
  - destruct (line_decoder_diagnostics "min max" "0" _ Hcount)
      as [[_ H] | H]; [discriminate H | exact H].
Defined.

Lemma line_decoder_depends_on_fields_witness :
  damo_single_line_scheme_to_damos example_line_v0 "0"
  = damo_single_line_scheme_to_damos example_spaced_line_v0 "7".
Proof.
  apply line_decoder_depends_on_fields.
  - vm_compute. reflexivity.
  - vm_compute. auto 10.
Defined.

Lemma pattern_and_action_layout_witness :
  option_map PyStr.lower (item (PyStr.split example_line_v1) 6)
  = Some (action example_scheme_v1)
  /\ action example_scheme_v1 = "nohugepage"
  /\ field_as text_to_bytes (PyStr.split example_line_v1) 0
     = Some (min_sz_bytes (access_pattern example_scheme_v1))
  /\ min_sz_bytes (access_pattern example_scheme_v1) = (2 * 2 ^ 20)%Z.
Proof.
  assert (H : damo_single_line_scheme_to_damos example_line_v1 "0"
              = (Some example_scheme_v1, None))
    by (vm_compute; reflexivity).
  pose proof (pattern_and_action_layout example_line_v1 "0"
                example_scheme_v1 H) as L.
  cbv zeta in L.
  destruct L as [L0 [_ [_ [_ [_ [_ [_ [_ [L6 _]]]]]]]]].
  split; [exact L6 |]. split; [reflexivity |].
  split; [exact L0 | reflexivity].
Defined.

Lemma v0_line_keeps_defaults_witness :
  quotas example_scheme_v0 = quotas default_damos_scheme
  /\ watermarks example_scheme_v0 = watermarks default_damos_scheme.
Proof.
  assert (H : damo_single_line_scheme_to_damos example_line_v0 "0"
              = (Some example_scheme_v0, None))
    by (vm_compute; reflexivity).
  assert (E : length (PyStr.split example_line_v0) = 7%nat)
    by (vm_compute; reflexivity).
  exact (v0_line_keeps_defaults example_line_v0 "0" example_scheme_v0 H E).
Defined.

Lemma v1_field_layout_witness :
  field_as text_to_bytes (PyStr.split example_line_v1) 7
  = Some (sz_bytes (quotas example_scheme_v1))
  /\ sz_bytes (quotas example_scheme_v1) = (2 ^ 30)%Z
  /\ watermarks example_scheme_v1 = watermarks default_damos_scheme.
Proof.
  assert (H : damo_single_line_scheme_to_damos example_line_v1 "0"
              = (Some example_scheme_v1, None))
    by (vm_compute; reflexivity).
  assert (E : length (PyStr.split example_line_v1) = 9%nat)
    by (vm_compute; reflexivity).
  pose proof (v1_field_layout example_line_v1 "0" example_scheme_v1 H E)
    as L.
  cbv zeta in L.
  destruct L as [L7 [_ [_ [_ [_ [_ Lw]]]]]].
  split; [exact L7 |]. split; [reflexivity | exact Lw].
Defined.

Lemma v2_field_layout_witness :
  field_as int (PyStr.split example_line_v2) 11
  = Some (weight_age_permil (quotas example_scheme_v2))
  /\ weight_age_permil (quotas example_scheme_v2) = 3%Z
  /\ watermarks example_scheme_v2 = watermarks default_damos_scheme.
Proof.
  assert (H : damo_single_line_scheme_to_damos example_line_v2 "0"
              = (Some example_scheme_v2, None))
    by (vm_compute; reflexivity).
  assert (E : length (PyStr.split example_line_v2) = 12%nat)
    by (vm_compute; reflexivity).
  pose proof (v2_field_layout example_line_v2 "0" example_scheme_v2 H E)
    as L.
  cbv zeta in L.
  destruct L as [_ [_ [_ [_ [L11 [_ Lw]]]]]].
  split; [exact L11 |]. split; [reflexivity | exact Lw].
Defined.

Lemma stored_action_is_lowered_witness :
  PyStr.lower (action example_scheme_v1) = action example_scheme_v1.
Proof.
  assert (H : damo_single_line_scheme_to_damos example_line_v1 "0"
              = (Some example_scheme_v1, None))
    by (vm_compute; reflexivity).
  exact (stored_action_is_lowered example_line_v1 "0" example_scheme_v1 H).
Defined.

Lemma version_functions_raise_when_short_witness :
  fields_to_v0_scheme ["min"; "max"] = None
  /\ fields_to_v1_scheme (PyStr.split example_line_v0) = None
  /\ fields_to_v2_scheme (PyStr.split example_line_v1) = None
  /\ fields_to_v3_scheme (PyStr.split example_line_v2) = None
  /\ fields_to_v4_scheme (PyStr.split example_line_v3) = None.
Proof.
  split; [| split; [| split; [| split]]].
  - apply (proj1 (version_functions_raise_when_short ["min"; "max"])).
    vm_compute. lia.
  - apply (proj1 (proj2 (version_functions_raise_when_short _))).
    vm_compute. lia.
  - apply (proj1 (proj2 (proj2 (version_functions_raise_when_short _)))).
    vm_compute. lia.
  - apply (proj1 (proj2 (proj2 (proj2
                   (version_functions_raise_when_short _))))).
    vm_compute. lia.
  - apply (proj2 (proj2 (proj2 (proj2
                   (version_functions_raise_when_short _))))).
    vm_compute. lia.
Defined.

Lemma version_functions_ignore_extra_fields_witness :
  fields_to_v0_scheme (PyStr.split example_line_v0 ++ ["1G"; "1s"])%list
  = Some example_scheme_v0
  /\ fields_to_v1_scheme
       (PyStr.split example_line_v1 ++ ["1"; "2"; "3"])%list
     = Some example_scheme_v1.
Proof.
  split.
  - rewrite (proj1 (version_functions_ignore_extra_fields _ _))
      by (vm_compute; lia).
    vm_compute. reflexivity.
  - rewrite (proj1 (proj2 (version_functions_ignore_extra_fields _ _)))
      by (vm_compute; lia).
    vm_compute. reflexivity.
Defined.

Lemma v4_is_v3_with_time_budget_witness :
  fields_to_v4_scheme
    (firstn 7 (PyStr.split example_line_v3)
     ++ "10ms" :: skipn 7 (PyStr.split example_line_v3))%list
  = option_map (set_time_ms 10)
      (fields_to_v3_scheme (PyStr.split example_line_v3)).
Proof.
  apply v4_is_v3_with_time_budget; vm_compute; reflexivity.
Defined.

Lemma blank_document_decodes_to_nothing_witness :
  damo_schemes_to_damos example_blank_document = Returned [].
Proof.
  apply blank_document_decodes_to_nothing.
  - vm_compute. reflexivity.
  - intros l Hl. vm_compute in Hl.
    destruct Hl as [<- | [<- | []]]; vm_compute; reflexivity.
Defined.

Lemma json_array_is_converted_witness :
  damo_schemes_to_damos (C := example_json_collaborators)
    example_json_document
  = Returned [Some example_default_scheme; Some example_default_scheme].
Proof.
  apply (json_array_is_converted (C := example_json_collaborators)
           example_json_document [PyInt 1; PyInt 2]
           [example_default_scheme; example_default_scheme]);
    vm_compute; reflexivity.
Defined.

Lemma first_failing_line_is_reported_witness :
  exists err,
    decode_numbered (1%nat, "min max") = (None, Some err)
    /\ damo_schemes_to_damos example_bad_document
       = Exited (fatal_message err) 1.
Proof.
  apply (first_failing_line_is_reported example_bad_document
           [(0%nat, example_line_v0)] []).
  - vm_compute. reflexivity.
  - vm_compute. reflexivity.
  - intros q [<- | []]. vm_compute. reflexivity.
  - vm_compute. reflexivity.
Defined.

Lemma exits_only_on_a_failing_line_witness :
  exists p err,
    In p (nonblank_lines 0
            (damo_schemes_lines_except_comments
               (input_text example_bad_document)))
    /\ decode_numbered p = (None, Some err)
    /\ fatal_message "expected [7, 9, 12, 17, 18] fields, but 'min max'"
       = fatal_message err.
Proof.
  assert (H : damo_schemes_to_damos example_bad_document
              = Exited (fatal_message
                          "expected [7, 9, 12, 17, 18] fields, but 'min max'")
                  1)
    by (vm_compute; reflexivity).
  exact (proj2 (proj2 (exits_only_on_a_failing_line _ _ _ H))).
Defined.

Lemma line_path_depends_on_nonblank_lines_witness :
  damo_schemes_to_damos example_document
  = damo_schemes_to_damos example_respaced_document.
Proof.
  apply line_path_depends_on_nonblank_lines; vm_compute; reflexivity.
Defined.
